(** * knx-netip.js: frame codec, datagram builder and connection state machine

    A shallow embedding of the KNXnet/IP client stack:
    - [KnxProtocol]   the wire codec (KnxProtocol.js): lengths, writers, readers;
    - [KnxDatagram]   the datagram builder (KnxDatagram.js);
    - [KnxConnection] the machina state machine driving a tunnel.

    Buffers are lists of bytes, JavaScript numbers that the code keeps inside
    a byte or a 16-bit word are integers of [Z], absent properties
    ([undefined] / [null]) are [None], thrown exceptions are [Throw]. *)

From Stdlib Require Import ZArith NArith List String Ascii Bool Lia.
From Stdlib Require Import Strings.Byte DecimalString DecimalN DecimalPos.
Import ListNotations.

Local Open Scope string_scope.
Local Open Scope list_scope.
Local Open Scope Z_scope.

(** ** Exceptions *)

Inductive result (A : Type) : Type :=
| Ok (a : A)
| Throw (e : string).
Arguments Ok {A} a.
Arguments Throw {A} e.

Definition bind {A B : Type} (m : result A) (k : A -> result B) : result B :=
  match m with
  | Ok a => k a
  | Throw e => Throw e
  end.

Notation "x <- m ;; k" := (bind m (fun x => k))
  (at level 61, m at next level, right associativity).

Definition is_ok {A : Type} (m : result A) : bool :=
  match m with Ok _ => true | Throw _ => false end.

Definition throws {A : Type} (m : result A) : Prop :=
  exists e, m = Throw e.

(** ** JavaScript and Node primitives the sources rely on *)

Module JS.

(** [x || d] on a number that may be absent: [undefined], [null] and [0]
    are falsy. *)
Definition or_num (x : option Z) (d : Z) : Z :=
  match x with
  | Some v => if v =? 0 then d else v
  | None => d
  end.

(** [+x], as Node's integer writers apply it before storing: an absent
    value becomes [NaN] (or [0] for [null]) and is stored as [0]. *)
Definition to_number (x : option Z) : Z :=
  match x with Some v => v | None => 0 end.

(** [a === b] between a possibly absent number and a number. *)
Definition strict_eq (a : option Z) (b : Z) : bool :=
  match a with Some v => v =? b | None => false end.

(** [a < b] where [b] may be [undefined]: a comparison with [NaN] is false. *)
Definition lt (a : Z) (b : option Z) : bool :=
  match b with Some v => a <? v | None => false end.

(** String concatenation with a value that may be [null]. *)
Definition show (x : option string) : string :=
  match x with Some s => s | None => "null" end.

(** The same for the result of a lookup that may be [undefined]. *)
Definition show' (x : option string) : string :=
  match x with Some s => s | None => "undefined" end.

(** Decimal rendering of a non-negative integer. *)
Definition dec (n : Z) : string :=
  NilZero.string_of_uint (N.to_uint (Z.to_N n)).

(** Decimal reading; [None] when the text is not a run of digits. *)
Definition parse_dec (s : string) : option Z :=
  match NilZero.uint_of_string s with
  | Some d => Some (Z.of_N (N.of_uint d))
  | None => None
  end.

(** [s.split(c)] for one-character separators. *)
Fixpoint split (sep : ascii -> bool) (s : string) : list string :=
  match s with
  | EmptyString => [EmptyString]
  | String c s' =>
      if sep c then EmptyString :: split sep s'
      else match split sep s' with
           | p :: ps => String c p :: ps
           | [] => [String c EmptyString]
           end
  end.

Definition is_char (c : ascii) : ascii -> bool := Ascii.eqb c.

Fixpoint index_of (x : string) (l : list string) : option nat :=
  match l with
  | [] => None
  | y :: l' => if String.eqb x y then Some O
               else option_map S (index_of x l')
  end.

End JS.

(** Node's [Buffer]: byte access with the range checks of the integer
    writers. *)
Module Buffer.

Definition t := list byte.

Definition ERR_OUT_OF_RANGE : string := "ERR_OUT_OF_RANGE".

Definition to_Z (b : byte) : Z := Z.of_N (Byte.to_N b).

Definition of_Z (v : Z) : byte :=
  match Byte.of_N (Z.to_N v) with Some b => b | None => x00 end.

Definition writeUInt8 (v : Z) : result t :=
  if (0 <=? v) && (v <=? 255) then Ok [of_Z v] else Throw ERR_OUT_OF_RANGE.

Definition writeUInt16BE (v : Z) : result t :=
  if (0 <=? v) && (v <=? 65535)
  then Ok [of_Z (v / 256); of_Z (v mod 256)]
  else Throw ERR_OUT_OF_RANGE.

(** Sequencing of two writes on the same sink. *)
Definition seq (a b : result t) : result t :=
  x <- a ;; y <- b ;; Ok (x ++ y).

Definition hex_digit (n : Z) : ascii :=
  nth (Z.to_nat n)
      (list_ascii_of_string "0123456789abcdef") "0"%char.

(** [buf.toString("hex")] *)
Fixpoint to_hex (b : t) : string :=
  match b with
  | [] => EmptyString
  | x :: b' =>
      String (hex_digit (to_Z x / 16))
        (String (hex_digit (to_Z x mod 16)) (to_hex b'))
  end.

(** [buf.toString("ascii", 0, end)]: the high bit of each byte is dropped. *)
Definition to_ascii (b : t) : string :=
  string_of_list_ascii
    (map (fun x => ascii_of_N (Z.to_N (to_Z x mod 128))) b).

(** [buf.indexOf(0)] *)
Fixpoint index_of_zero (b : t) : option nat :=
  match b with
  | [] => None
  | x :: b' => if to_Z x =? 0 then Some O
               else option_map S (index_of_zero b')
  end.

End Buffer.

Infix ">+" := Buffer.seq (at level 62, left associativity).

(** The reading half of binary-protocol.

    Modelled from the spec: binary-protocol is a package that KnxProtocol.js
    requires and is not among the sources; the spec says no more than that
    a packet that cannot be decoded is dropped.  The model keeps what
    KnxProtocol.js and [parseKnxMessage] rely on: the fields of a structure
    are read from the buffer at a moving offset; when a field needs more
    bytes than the buffer holds, [next()] stops and returns the sentinel
    AWAIT_NEXT and raises no exception; an exception thrown inside a [tap]
    is thrown by [next()]; and [raw(name, 0)] reads one byte. *)
Module Reader.

Inductive reply (A : Type) : Type :=
| Value (a : A) (offset : nat)
| AWAIT_NEXT
| Raise (e : string).
Arguments Value {A} a offset.
Arguments AWAIT_NEXT {A}.
Arguments Raise {A} e.

Definition t (A : Type) : Type := Buffer.t -> nat -> reply A.

Definition ret {A : Type} (a : A) : t A := fun _ off => Value a off.

Definition throw {A : Type} (e : string) : t A := fun _ _ => Raise e.

Definition await {A : Type} : t A := fun _ _ => AWAIT_NEXT.

Definition rbind {A B : Type} (m : t A) (k : A -> t B) : t B :=
  fun buf off =>
    match m buf off with
    | Value a off' => k a buf off'
    | AWAIT_NEXT => AWAIT_NEXT
    | Raise e => Raise e
    end.

(** [this.totalLength]: the reader object carries [buffer] and [offset]
    and is given no [totalLength] property, so the expression is
    [undefined]. *)
Definition totalLength : option Z := None.

(** [this.buffer.length] *)
Definition buffer_length : t Z :=
  fun buf off => Value (Z.of_nat (List.length buf)) off.

(** [raw(name, length)]: a length of 0 is read as 1. *)
Definition raw (n : nat) : t Buffer.t :=
  fun buf off =>
    let n := Nat.max 1 n in
    if (off + n <=? List.length buf)%nat
    then Value (firstn n (skipn off buf)) (off + n)%nat
    else AWAIT_NEXT.

Definition UInt8 : t Z :=
  rbind (raw 1) (fun b =>
    match b with
    | [x] => ret (Buffer.to_Z x)
    | _ => await
    end).

Definition UInt16BE : t Z :=
  rbind (raw 2) (fun b =>
    match b with
    | [h; l] => ret (Buffer.to_Z h * 256 + Buffer.to_Z l)
    | _ => await
    end).

(** [createReader(msg)] followed by one structure and [next()]. *)
Definition next {A : Type} (m : t A) (msg : Buffer.t) : reply A := m msg O.

(** [reader.next().tmp], as [parseKnxMessage] reads the structure: the
    value, the exception of a [tap], or the TypeError of reading a property
    of the sentinel. *)
Definition run {A : Type} (m : t A) (msg : Buffer.t) : result A :=
  match next m msg with
  | Value a _ => Ok a
  | AWAIT_NEXT => Throw "TypeError"
  | Raise e => Throw e
  end.

End Reader.

Notation "x <~ m ;; k" := (Reader.rbind m (fun x => k))
  (at level 61, m at next level, right associativity).

(** ** Constants *)

(** Modelled from the spec: KnxConstants.js is not among the sources.  The
    spec fixes the connection types, the KNX layer, the message codes
    (also tabulated in the comments of KnxProtocol.js) and NO_ERROR; service
    types and the remaining response codes take their KNX standard values,
    to which the spec refers. *)
Module KnxConstants.

Definition table := list (string * Z).

Definition SERVICE_TYPE_table : table :=
  [ ("SEARCH_REQUEST", 0x0201); ("SEARCH_RESPONSE", 0x0202);
    ("DESCRIPTION_REQUEST", 0x0203); ("DESCRIPTION_RESPONSE", 0x0204);
    ("CONNECT_REQUEST", 0x0205); ("CONNECT_RESPONSE", 0x0206);
    ("CONNECTIONSTATE_REQUEST", 0x0207);
    ("CONNECTIONSTATE_RESPONSE", 0x0208);
    ("DISCONNECT_REQUEST", 0x0209); ("DISCONNECT_RESPONSE", 0x020A);
    ("DEVICE_CONFIGURATION_REQUEST", 0x0310);
    ("DEVICE_CONFIGURATION_ACK", 0x0311);
    ("TUNNELING_REQUEST", 0x0420); ("TUNNELING_ACK", 0x0421);
    ("ROUTING_INDICATION", 0x0530); ("ROUTING_LOST_MESSAGE", 0x0531) ].

Module SERVICE_TYPE.
Definition SEARCH_REQUEST : Z := 0x0201.
Definition SEARCH_RESPONSE : Z := 0x0202.
Definition DESCRIPTION_RESPONSE : Z := 0x0204.
Definition CONNECT_REQUEST : Z := 0x0205.
Definition CONNECT_RESPONSE : Z := 0x0206.
Definition CONNECTIONSTATE_REQUEST : Z := 0x0207.
Definition CONNECTIONSTATE_RESPONSE : Z := 0x0208.
Definition DISCONNECT_REQUEST : Z := 0x0209.
Definition DISCONNECT_RESPONSE : Z := 0x020A.
Definition TUNNELING_REQUEST : Z := 0x0420.
Definition TUNNELING_ACK : Z := 0x0421.
Definition ROUTING_INDICATION : Z := 0x0530.
End SERVICE_TYPE.

Module CONNECTION_TYPE.
Definition DEVICE_MGMT_CONNECTION : Z := 0x03.
Definition TUNNEL_CONNECTION : Z := 0x04.
End CONNECTION_TYPE.

Module PROTOCOL_TYPE.
Definition IPV4_UDP : Z := 0x01.
Definition IPV4_TCP : Z := 0x02.
End PROTOCOL_TYPE.

Module KNX_LAYER.
Definition LINK_LAYER : Z := 0x02.
End KNX_LAYER.

Definition RESPONSECODE_table : table :=
  [ ("NO_ERROR", 0x00); ("E_HOST_PROTOCOL_TYPE", 0x01);
    ("E_VERSION_NOT_SUPPORTED", 0x02); ("E_SEQUENCE_NUMBER", 0x04);
    ("E_CONNSTATE_LOST", 0x15); ("E_CONNECTION_ID", 0x21);
    ("E_CONNECTION_TYPE", 0x22); ("E_CONNECTION_OPTION", 0x23);
    ("E_NO_MORE_CONNECTIONS", 0x24); ("E_DATA_CONNECTION", 0x26);
    ("E_KNX_CONNECTION", 0x27); ("E_TUNNELING_LAYER", 0x29) ].

Module RESPONSECODE.
Definition NO_ERROR : Z := 0x00.
Definition E_NO_MORE_CONNECTIONS : Z := 0x24.
End RESPONSECODE.

Definition MESSAGECODES_table : table :=
  [ ("L_Raw.req", 0x10); ("L_Data.req", 0x11); ("L_Poll_Data.req", 0x13);
    ("L_Poll_Data.con", 0x25); ("L_Data.ind", 0x29);
    ("L_Busmon.ind", 0x2B); ("L_Raw.ind", 0x2D); ("L_Data.con", 0x2E);
    ("L_Raw.con", 0x2F) ].

Module MESSAGECODES.
Definition L_Data_req : Z := 0x11.
Definition L_Data_ind : Z := 0x29.
Definition L_Data_con : Z := 0x2E.
End MESSAGECODES.

Definition APCICODES : list string :=
  [ "GroupValue_Read"; "GroupValue_Response"; "GroupValue_Write";
    "PhysicalAddress_Write"; "PhysicalAddress_Read";
    "PhysicalAddress_Response"; "ADC_Read"; "ADC_Response";
    "Memory_Read"; "Memory_Response"; "Memory_Write"; "UserMemory";
    "DeviceDescriptor_Read"; "DeviceDescriptor_Response"; "Restart";
    "OTHER" ].

(** [keyText(map, value)]: the first key holding [value], if any. *)
Fixpoint keyText (map : table) (value : Z) : option string :=
  match map with
  | [] => None
  | (k, v) :: map' => if v =? value then Some k else keyText map' value
  end.

End KnxConstants.

(** ** Address codec *)

(** Modelled from the spec: Address.js is not among the sources.  Physical
    addresses are "A.B.C" on 4/4/8 bits, group addresses "A/B/C" on 5/3/8
    bits or, with two-level addressing, "A/B" on 5/11 bits; out-of-range
    components and texts of the other kind are errors. *)
Module KnxAddress.

Module TYPE.
Definition PHYSICAL : Z := 0.
Definition GROUP : Z := 1.
End TYPE.

Definition invalid : string := "Invalid address".

Definition in_range (hi : Z) (x : Z) : bool := (0 <=? x) && (x <? hi).

Definition components (sep : ascii) (text : string) : list (option Z) :=
  map JS.parse_dec (JS.split (JS.is_char sep) text).

Definition parse (text : string) (kind : Z) (twoLevel : bool)
  : result Buffer.t :=
  if kind =? TYPE.PHYSICAL then
    match components "." text with
    | [Some a; Some b; Some c] =>
        if in_range 16 a && in_range 16 b && in_range 256 c
        then Ok [Buffer.of_Z (a * 16 + b); Buffer.of_Z c]
        else Throw invalid
    | _ => Throw invalid
    end
  else if twoLevel then
    match components "/" text with
    | [Some a; Some b] =>
        if in_range 32 a && in_range 2048 b
        then Ok [Buffer.of_Z (a * 8 + b / 256); Buffer.of_Z (b mod 256)]
        else Throw invalid
    | _ => Throw invalid
    end
  else
    match components "/" text with
    | [Some a; Some b; Some c] =>
        if in_range 32 a && in_range 8 b && in_range 256 c
        then Ok [Buffer.of_Z (a * 8 + b); Buffer.of_Z c]
        else Throw invalid
    | _ => Throw invalid
    end.

Definition join (sep : string) (a b : string) : string :=
  (a ++ sep ++ b)%string.

Definition toString (buf : Buffer.t) (kind : Z) (twoLevel : bool)
  : result string :=
  match buf with
  | [h; l] =>
      let hi := Buffer.to_Z h in
      let lo := Buffer.to_Z l in
      if kind =? TYPE.PHYSICAL then
        Ok (join "." (JS.dec (hi / 16))
              (join "." (JS.dec (hi mod 16)) (JS.dec lo)))
      else if twoLevel then
        Ok (join "/" (JS.dec (hi / 8)) (JS.dec ((hi mod 8) * 256 + lo)))
      else
        Ok (join "/" (JS.dec (hi / 8))
              (join "/" (JS.dec (hi mod 8)) (JS.dec lo)))
  | _ => Throw invalid
  end.

End KnxAddress.

(** ** Frame codec (KnxProtocol.js) *)

Module KnxProtocol.

Import KnxConstants.

Module IPv4Endpoint.

(** [ipaddr.fromByteArray(addr).toString() + ":" + port] *)
Definition show (addr : Buffer.t) (port : Z) : string :=
  (String.concat "." (map (fun b => JS.dec (Buffer.to_Z b)) addr)
     ++ ":" ++ JS.dec port)%string.

Definition read : Reader.t string :=
  addr <~ Reader.raw 4 ;;
  port <~ Reader.UInt16BE ;;
  Reader.ret (show addr port).

Definition invalid : string :=
  "Invalid IPv4 endpoint, please set a string as  'ip.add.re.ss:port'".

(** [ipaddr.parse(addr).toByteArray()] on the dotted-decimal texts that
    the reader and the datagram builder produce. *)
Definition octets (addr : string) : result Buffer.t :=
  match map JS.parse_dec (JS.split (JS.is_char ".") addr) with
  | [Some a; Some b; Some c; Some d] =>
      if forallb (KnxAddress.in_range 256) [a; b; c; d]
      then Ok (map Buffer.of_Z [a; b; c; d])
      else Throw invalid
  | _ => Throw invalid
  end.

Definition write (value : string) : result Buffer.t :=
  if String.eqb value "" then
    Throw "cannot write null value for IPv4Endpoint"
  else
    match JS.split (JS.is_char ":") value with
    | addr :: port :: _ =>
        octets addr >+
        Buffer.writeUInt16BE (JS.to_number (JS.parse_dec port))
    | _ => Throw invalid
    end.

Definition length (value : string) : Z :=
  if String.eqb value "" then 0 else 6.

End IPv4Endpoint.

Module CRI.

Record t : Type := mk {
  headerLength : option Z;
  connectionType : Z;
  knxLayer : Z;
  unused : Z
}.

Definition read : Reader.t t :=
  headerLength <~ Reader.UInt8 ;;
  connectionType <~ Reader.UInt8 ;;
  knxLayer <~ Reader.UInt8 ;;
  unused <~ Reader.UInt8 ;;
  if (connectionType =? CONNECTION_TYPE.DEVICE_MGMT_CONNECTION)
     || (connectionType =? CONNECTION_TYPE.TUNNEL_CONNECTION)
  then Reader.ret (mk (Some headerLength) connectionType knxLayer unused)
  else Reader.throw
         ("Unsupported connection type: " ++ JS.dec connectionType)%string.

Definition write (value : option t) : result Buffer.t :=
  match value with
  | None => Ok []
  | Some v =>
      Buffer.writeUInt8 0x04 >+
      Buffer.writeUInt8 (connectionType v) >+
      Buffer.writeUInt8 (knxLayer v) >+
      Buffer.writeUInt8 (unused v)
  end.

Definition length (value : option t) : Z :=
  match value with Some _ => 4 | None => 0 end.

End CRI.

Module ConnState.

(** [state] is the property the datagram builder sets; the codec reads
    and writes [status]. *)
Record t : Type := mk {
  channelId : option Z;
  status : option Z;
  state : option Z
}.

Definition read : Reader.t t :=
  channelId <~ Reader.UInt8 ;;
  status <~ Reader.UInt8 ;;
  Reader.ret (mk (Some channelId) (Some status) None).

Definition write (value : option t) : result Buffer.t :=
  match value with
  | None => Ok []
  | Some v =>
      Buffer.writeUInt8 (JS.to_number (channelId v)) >+
      Buffer.writeUInt8 (JS.to_number (status v))
  end.

Definition length (value : option t) : Z :=
  match value with Some _ => 2 | None => 0 end.

End ConnState.

Module TunnState.

(** [tunnelEndpoint] is set by the datagram builder only. *)
Record t : Type := mk {
  headerLength : option Z;
  channelId : option Z;
  seqnum : option Z;
  status : option Z;
  tunnelEndpoint : option string
}.

Definition read : Reader.t t :=
  headerLength <~ Reader.UInt8 ;;
  channelId <~ Reader.UInt8 ;;
  seqnum <~ Reader.UInt8 ;;
  status <~ Reader.UInt8 ;;
  Reader.ret
    (mk (Some headerLength) (Some channelId) (Some seqnum) (Some status)
        None).

Definition write (value : option t) : result Buffer.t :=
  match value with
  | None => Ok []
  | Some v =>
      Buffer.writeUInt8 0x04 >+
      Buffer.writeUInt8 (JS.to_number (channelId v)) >+
      Buffer.writeUInt8 (JS.to_number (seqnum v)) >+
      Buffer.writeUInt8 (JS.to_number (status v))
  end.

Definition length (value : option t) : Z :=
  match value with Some _ => 4 | None => 0 end.

End TunnState.

Module HPAI.

Record t : Type := mk {
  headerLength : option Z;
  protocolType : Z;
  tunnelEndpoint : string
}.

Definition read : Reader.t t :=
  headerLength <~ Reader.UInt8 ;;
  protocolType <~ Reader.UInt8 ;;
  tunnelEndpoint <~ IPv4Endpoint.read ;;
  len <~ Reader.buffer_length ;;
  if len <? headerLength then
    Reader.throw "Incomplete KNXNet HPAI header"
  else if protocolType =? PROTOCOL_TYPE.IPV4_TCP then
    Reader.throw "TCP is not supported"
  else
    Reader.ret (mk (Some headerLength) protocolType tunnelEndpoint).

Definition write (value : option t) : result Buffer.t :=
  match value with
  | None => Ok []
  | Some v =>
      Buffer.writeUInt8 0x08 >+
      Buffer.writeUInt8 (protocolType v) >+
      IPv4Endpoint.write (tunnelEndpoint v)
  end.

Definition length (value : option t) : Z :=
  match value with Some _ => 8 | None => 0 end.

End HPAI.

Module DIBdevinfo.

Record t : Type := mk {
  headerLength : Z;
  descriptionType : Z;
  unused : Buffer.t;
  physicalAddr : string;
  serial : string;
  name : string
}.

Definition read (twoLevelAddressing : bool) : Reader.t t :=
  headerLength <~ Reader.UInt8 ;;
  descriptionType <~ Reader.UInt8 ;;
  _ <~ Reader.raw 2 ;;
  physicalAddr <~ Reader.raw 2 ;;
  _ <~ Reader.raw 2 ;;
  serial <~ Reader.raw 6 ;;
  _ <~ Reader.raw 4 ;;
  unused <~ Reader.raw 6 ;;
  name <~ Reader.raw 30 ;;
  len <~ Reader.buffer_length ;;
  if len <? headerLength then
    Reader.throw "Incomplete KNXNet DIB Devinfo header"
  else if negb (descriptionType =? 1) then
    Reader.throw "Unknown Devinfo structure"
  else
    match KnxAddress.toString physicalAddr KnxAddress.TYPE.PHYSICAL
            twoLevelAddressing with
    | Throw e => Reader.throw e
    | Ok addr =>
        let stop :=
          match Buffer.index_of_zero name with
          | Some i => i
          | None => List.length name
          end in
        Reader.ret
          (mk headerLength descriptionType unused addr
              (Buffer.to_hex serial)
              (Buffer.to_ascii (firstn stop name)))
    end.

(** The writer only logs "DIBdevinfo: not implemented". *)
Definition write (value : option t) : result Buffer.t := Ok [].

Definition length (value : option t) : Z :=
  match value with Some _ => 54 | None => 0 end.

End DIBdevinfo.

(** The 16-bit control field of a CEMI frame, as [ctrlStruct] names it. *)
Module Ctrl.

Record t : Type := mk {
  frameType : Z;
  reserved : Z;
  repeat : Z;
  broadcast : Z;
  priority : Z;
  acknowledge : Z;
  confirm : Z;
  destAddrType : Z;
  hopCount : Z;
  extendedFrame : Z
}.

End Ctrl.

(** A CEMI payload: nothing, a number, or a buffer. *)
Inductive payload : Type :=
| Absent
| Num (n : Z)
| Buf (b : Buffer.t).

Module APDU.

(** [bitlength] is the hint left by the datapoint library or by
    [makeWriteRawRequest]; [apduLength] and [apduRaw] are filled in by
    the reader. *)
Record t : Type := mk {
  apduLength : option Z;
  apduRaw : option Buffer.t;
  tpci : Z;
  apci : string;
  data : payload;
  bitlength : option Z
}.

(** [KnxProtocol.lengths.APDU] *)
Definition length (value : option t) : result Z :=
  match value with
  | None => Ok 0
  | Some v =>
      let bitlen := JS.or_num (bitlength v) 0 in
      if negb (bitlen =? 0) then
        Ok (3 + (if bitlen >? 6 then (bitlen + 7) / 8 else 0))
      else
        match data v with
        | Buf ((_ :: _) as b) =>
            let n := Z.of_nat (List.length b) in
            if n >? 14 then
              Throw "APDU value too big, must be <= 14 bytes"
            else
              match b with
              | [x] => if Buffer.to_Z x <=? 63 then Ok 3 else Ok (3 + n)
              | _ => Ok (3 + n)
              end
        | Absent => Ok 3
        | Num n =>
            if (0 <=? n) && (n <=? 63) then Ok 3
            else Throw "APDU payload must be a 6-bit int or an Array/Buffer (1 to 14 bytes)"
        | Buf [] =>
            Throw "APDU payload must be a 6-bit int or an Array/Buffer (1 to 14 bytes)"
        end
  end.

(** The side effect of [lengths.APDU]: a missing payload becomes [0],
    unless a bit length short-cuts the walk. *)
Definition defaulted (v : t) : payload :=
  if negb (JS.or_num (bitlength v) 0 =? 0) then data v
  else match data v with Absent => Num 0 | d => d end.

Definition write (value : option t) : result Buffer.t :=
  match value with
  | None => Throw "cannot write null APDU value"
  | Some v =>
      totalLength <- length value ;;
      match JS.index_of (apci v) APCICODES with
      | None => Ok []
      | Some i =>
          if totalLength <? 3 then Throw "APDU is too small"
          else if totalLength >? 17 then Throw "APDU is too big"
          else
            let word := tpci v * 0x400 + Z.of_nat i * 0x40 in
            Buffer.writeUInt8 (totalLength - 2) >+
            (if totalLength =? 3 then
               match defaulted v with
               | Num n => Buffer.writeUInt16BE (word + n)
               | Buf (x :: _) =>
                   Buffer.writeUInt16BE (word + Buffer.to_Z x)
               | Buf [] => Buffer.writeUInt16BE 0
               | Absent => Throw "TypeError"
               end
             else
               Buffer.writeUInt16BE word >+
               match defaulted v with
               | Buf b => Ok b
               | _ => Throw "TypeError"
               end)
      end
  end.

(** The error of [apduStruct.parse] on a buffer shorter than its fields.

    Modelled from the spec: binary-parser, the package [apduStruct] is built
    with, is not among the sources; a buffer shorter than the two bytes of
    the three fields is taken to make it raise a RangeError. *)
Definition RangeError : string := "RangeError".

(** [apduStruct]: six bits of TPCI, four of APCI, six of data. *)
Definition read : Reader.t t :=
  apduLength <~ Reader.UInt8 ;;
  apduRaw <~ Reader.raw (Z.to_nat (apduLength + 1)) ;;
  match apduRaw with
  | h :: l :: rest =>
      let word := Buffer.to_Z h * 256 + Buffer.to_Z l in
      let tpci := Z.shiftr word 10 in
      let apci := Z.land (Z.shiftr word 6) 0xF in
      let data6 := Z.land word 0x3F in
      Reader.ret
        (mk (Some apduLength) (Some apduRaw) tpci
            (nth (Z.to_nat apci) APCICODES "")
            (Buf (if apduLength >? 1 then rest
                  else [Buffer.of_Z data6]))
            None)
  | _ => Reader.throw RangeError
  end.

End APDU.

Definition one_of (x : Z) (l : list Z) : bool := existsb (Z.eqb x) l.

(** The message codes that carry an APDU. *)
Definition L_Data : list Z :=
  [ MESSAGECODES.L_Data_req; MESSAGECODES.L_Data_ind;
    MESSAGECODES.L_Data_con ].

Module CEMI.

Record t : Type := mk {
  msgcode : Z;
  addinfoLength : option Z;
  ctrl : option Ctrl.t;
  srcAddr : string;
  destAddr : string;
  apdu : option APDU.t
}.

(** [ctrlStruct.parse] *)
Definition parse_ctrl (raw : Buffer.t) : Ctrl.t :=
  let b1 := Buffer.to_Z (nth 0 raw x00) in
  let b2 := Buffer.to_Z (nth 1 raw x00) in
  Ctrl.mk (Z.land (Z.shiftr b1 7) 1) (Z.land (Z.shiftr b1 6) 1)
          (Z.land (Z.shiftr b1 5) 1) (Z.land (Z.shiftr b1 4) 1)
          (Z.land (Z.shiftr b1 2) 3) (Z.land (Z.shiftr b1 1) 1)
          (Z.land b1 1)
          (Z.land (Z.shiftr b2 7) 1) (Z.land (Z.shiftr b2 4) 7)
          (Z.land b2 0xF).

Definition read (twoLevelAddressing : bool) : Reader.t t :=
  msgcode <~ Reader.UInt8 ;;
  addinfoLength <~ Reader.UInt8 ;;
  raw_ctrl <~ Reader.raw 2 ;;
  src <~ Reader.raw 2 ;;
  dest <~ Reader.raw 2 ;;
  let ctrl := parse_ctrl raw_ctrl in
  match KnxAddress.toString src KnxAddress.TYPE.PHYSICAL
          twoLevelAddressing,
        KnxAddress.toString dest (Ctrl.destAddrType ctrl)
          twoLevelAddressing with
  | Ok srcAddr, Ok destAddr =>
      if one_of msgcode L_Data then
        apdu <~ APDU.read ;;
        Reader.ret (mk msgcode (Some addinfoLength) (Some ctrl)
                       srcAddr destAddr (Some apdu))
      else
        Reader.ret (mk msgcode (Some addinfoLength) (Some ctrl)
                       srcAddr destAddr None)
  | Throw e, _ | _, Throw e => Reader.throw e
  end.

Definition ctrlField1 (c : Ctrl.t) : Z :=
  Ctrl.frameType c * 0x80 + Ctrl.reserved c * 0x40 +
  Ctrl.repeat c * 0x20 + Ctrl.broadcast c * 0x10 +
  Ctrl.priority c * 0x04 + Ctrl.acknowledge c * 0x02 + Ctrl.confirm c.

Definition ctrlField2 (c : Ctrl.t) : Z :=
  Ctrl.destAddrType c * 0x80 + Ctrl.hopCount c * 0x10 +
  Ctrl.extendedFrame c.

Definition write (twoLevelAddressing : bool) (value : option t)
  : result Buffer.t :=
  match value with
  | None => Throw "cannot write null CEMI value"
  | Some v =>
      match ctrl v with
      | None => Throw "no Control Field supplied"
      | Some c =>
          Buffer.writeUInt8 (msgcode v) >+
          Buffer.writeUInt8 (JS.to_number (addinfoLength v)) >+
          Buffer.writeUInt8 (ctrlField1 c) >+
          Buffer.writeUInt8 (ctrlField2 c) >+
          KnxAddress.parse (srcAddr v) KnxAddress.TYPE.PHYSICAL
            twoLevelAddressing >+
          KnxAddress.parse (destAddr v) (Ctrl.destAddrType c)
            twoLevelAddressing >+
          (if one_of (msgcode v) L_Data then
             match apdu v with
             | None => Throw "no APDU supplied)"
             | Some a => APDU.write (Some a)
             end
           else Ok [])
      end
  end.

(** [KnxProtocol.lengths.CEMI] *)
Definition length (value : option t) : result Z :=
  match value with
  | None => Ok 0
  | Some v => apduLength <- APDU.length (apdu v) ;; Ok (8 + apduLength)
  end.

End CEMI.

Module KNXNetHeader.

(** A frame value: the header and the sub-structures a service type
    may carry.  [value] holds the raw body of a DESCRIPTION_RESPONSE. *)
Record t : Type := mk {
  headerLength : Z;
  protocolVersion : Z;
  serviceType : Z;
  totalLength : option Z;
  hpai : option HPAI.t;
  tunn : option HPAI.t;
  cri : option CRI.t;
  connstate : option ConnState.t;
  tunnstate : option TunnState.t;
  cemi : option CEMI.t;
  devinfo : option DIBdevinfo.t;
  value : option Buffer.t
}.

Definition header (hl pv st : Z) (tl : option Z) : t :=
  mk hl pv st tl None None None None None None None None.

Definition set_serviceType (x : Z) (v : t) : t :=
  mk (headerLength v) (protocolVersion v) x (totalLength v) (hpai v)
     (tunn v) (cri v) (connstate v) (tunnstate v) (cemi v) (devinfo v)
     (value v).
Definition set_totalLength (x : option Z) (v : t) : t :=
  mk (headerLength v) (protocolVersion v) (serviceType v) x (hpai v)
     (tunn v) (cri v) (connstate v) (tunnstate v) (cemi v) (devinfo v)
     (value v).
Definition set_hpai (x : HPAI.t) (v : t) : t :=
  mk (headerLength v) (protocolVersion v) (serviceType v) (totalLength v)
     (Some x) (tunn v) (cri v) (connstate v) (tunnstate v) (cemi v)
     (devinfo v) (value v).
Definition set_tunn (x : HPAI.t) (v : t) : t :=
  mk (headerLength v) (protocolVersion v) (serviceType v) (totalLength v)
     (hpai v) (Some x) (cri v) (connstate v) (tunnstate v) (cemi v)
     (devinfo v) (value v).
Definition set_cri (x : CRI.t) (v : t) : t :=
  mk (headerLength v) (protocolVersion v) (serviceType v) (totalLength v)
     (hpai v) (tunn v) (Some x) (connstate v) (tunnstate v) (cemi v)
     (devinfo v) (value v).
Definition set_connstate (x : ConnState.t) (v : t) : t :=
  mk (headerLength v) (protocolVersion v) (serviceType v) (totalLength v)
     (hpai v) (tunn v) (cri v) (Some x) (tunnstate v) (cemi v)
     (devinfo v) (value v).
Definition set_tunnstate (x : TunnState.t) (v : t) : t :=
  mk (headerLength v) (protocolVersion v) (serviceType v) (totalLength v)
     (hpai v) (tunn v) (cri v) (connstate v) (Some x) (cemi v)
     (devinfo v) (value v).
Definition set_cemi (x : CEMI.t) (v : t) : t :=
  mk (headerLength v) (protocolVersion v) (serviceType v) (totalLength v)
     (hpai v) (tunn v) (cri v) (connstate v) (tunnstate v) (Some x)
     (devinfo v) (value v).
Definition set_devinfo (x : DIBdevinfo.t) (v : t) : t :=
  mk (headerLength v) (protocolVersion v) (serviceType v) (totalLength v)
     (hpai v) (tunn v) (cri v) (connstate v) (tunnstate v) (cemi v)
     (Some x) (value v).
Definition set_value (x : Buffer.t) (v : t) : t :=
  mk (headerLength v) (protocolVersion v) (serviceType v) (totalLength v)
     (hpai v) (tunn v) (cri v) (connstate v) (tunnstate v) (cemi v)
     (devinfo v) (Some x).

Definition incomplete : string := "Incomplete KNXNet packet".

Definition read (twoLevelAddressing : bool) : Reader.t t :=
  headerLength <~ Reader.UInt8 ;;
  protocolVersion <~ Reader.UInt8 ;;
  serviceType <~ Reader.UInt16BE ;;
  totalLength <~ Reader.UInt16BE ;;
  let hdr :=
    header headerLength protocolVersion serviceType (Some totalLength) in
  len <~ Reader.buffer_length ;;
  if JS.lt (len + headerLength) Reader.totalLength then
    Reader.throw incomplete
  else if one_of serviceType
            [SERVICE_TYPE.SEARCH_REQUEST; SERVICE_TYPE.CONNECT_REQUEST]
  then
    hpai <~ HPAI.read ;;
    tunn <~ HPAI.read ;;
    cri <~ CRI.read ;;
    Reader.ret (set_cri cri (set_tunn tunn (set_hpai hpai hdr)))
  else if serviceType =? SERVICE_TYPE.SEARCH_RESPONSE then
    hpai <~ HPAI.read ;;
    devinfo <~ DIBdevinfo.read twoLevelAddressing ;;
    Reader.ret (set_devinfo devinfo (set_hpai hpai hdr))
  else if one_of serviceType
            [SERVICE_TYPE.CONNECT_RESPONSE;
             SERVICE_TYPE.CONNECTIONSTATE_REQUEST;
             SERVICE_TYPE.CONNECTIONSTATE_RESPONSE;
             SERVICE_TYPE.DISCONNECT_REQUEST;
             SERVICE_TYPE.DISCONNECT_RESPONSE]
  then
    connstate <~ ConnState.read ;;
    let hdr1 := set_connstate connstate hdr in
    hdr2 <~ (if totalLength >? 8
             then hpai <~ HPAI.read ;; Reader.ret (set_hpai hpai hdr1)
             else Reader.ret hdr1) ;;
    if totalLength >? 16
    then cri <~ CRI.read ;; Reader.ret (set_cri cri hdr2)
    else Reader.ret hdr2
  else if serviceType =? SERVICE_TYPE.DESCRIPTION_RESPONSE then
    value <~ Reader.raw (Z.to_nat totalLength) ;;
    Reader.ret (set_value value hdr)
  else if serviceType =? SERVICE_TYPE.TUNNELING_REQUEST then
    tunnstate <~ TunnState.read ;;
    cemi <~ CEMI.read twoLevelAddressing ;;
    Reader.ret (set_cemi cemi (set_tunnstate tunnstate hdr))
  else if serviceType =? SERVICE_TYPE.TUNNELING_ACK then
    tunnstate <~ TunnState.read ;;
    Reader.ret (set_tunnstate tunnstate hdr)
  else if serviceType =? SERVICE_TYPE.ROUTING_INDICATION then
    cemi <~ CEMI.read twoLevelAddressing ;;
    Reader.ret (set_cemi cemi hdr)
  else
    Reader.ret hdr.

(** [KnxProtocol.lengths.KNXNetHeader]; [None] is the [undefined] a
    service type outside the switch is given. *)
Definition length (v : t) : result (option Z) :=
  if one_of (serviceType v)
       [SERVICE_TYPE.SEARCH_REQUEST; SERVICE_TYPE.CONNECT_REQUEST]
  then
    Ok (Some (6 + HPAI.length (hpai v) + HPAI.length (tunn v)
              + CRI.length (cri v)))
  else if one_of (serviceType v)
            [SERVICE_TYPE.SEARCH_RESPONSE; SERVICE_TYPE.CONNECT_RESPONSE;
             SERVICE_TYPE.CONNECTIONSTATE_REQUEST;
             SERVICE_TYPE.CONNECTIONSTATE_RESPONSE;
             SERVICE_TYPE.DISCONNECT_REQUEST]
  then
    Ok (Some (6 + ConnState.length (connstate v) + HPAI.length (hpai v)
              + CRI.length (cri v)))
  else if one_of (serviceType v)
            [SERVICE_TYPE.TUNNELING_ACK; SERVICE_TYPE.TUNNELING_REQUEST]
  then
    c <- CEMI.length (cemi v) ;;
    Ok (Some (6 + TunnState.length (tunnstate v) + c))
  else if serviceType v =? SERVICE_TYPE.ROUTING_INDICATION then
    c <- CEMI.length (cemi v) ;;
    Ok (Some (6 + c))
  else Ok None.

Definition unhandled : string :=
  "write KNXNetHeader: unhandled serviceType".

(** The writer stores the computed length in the value it is given
    and returns the bytes of the whole frame. *)
Definition write (twoLevelAddressing : bool) (v : t)
  : result (t * Buffer.t) :=
  total <- length v ;;
  let v' := set_totalLength total v in
  bytes <-
    (Buffer.writeUInt8 6 >+
     Buffer.writeUInt8 0x10 >+
     Buffer.writeUInt16BE (serviceType v') >+
     Buffer.writeUInt16BE (JS.to_number (totalLength v')) >+
     (if one_of (serviceType v')
           [SERVICE_TYPE.SEARCH_REQUEST; SERVICE_TYPE.CONNECT_REQUEST]
      then
        HPAI.write (hpai v') >+ HPAI.write (tunn v') >+
        CRI.write (cri v')
      else if one_of (serviceType v')
                [SERVICE_TYPE.SEARCH_RESPONSE;
                 SERVICE_TYPE.CONNECT_RESPONSE;
                 SERVICE_TYPE.CONNECTIONSTATE_REQUEST;
                 SERVICE_TYPE.CONNECTIONSTATE_RESPONSE;
                 SERVICE_TYPE.DISCONNECT_REQUEST]
      then
        ConnState.write (connstate v') >+ HPAI.write (hpai v') >+
        CRI.write (cri v')
      else if one_of (serviceType v')
                [SERVICE_TYPE.ROUTING_INDICATION;
                 SERVICE_TYPE.TUNNELING_ACK;
                 SERVICE_TYPE.TUNNELING_REQUEST]
      then
        TunnState.write (tunnstate v') >+
        match cemi v' with
        | Some c => CEMI.write twoLevelAddressing (Some c)
        | None => Ok []
        end
      else Throw unhandled)) ;;
  Ok (v', bytes).

(** What the header of an emitted frame announces. *)
Definition announced (bytes : Buffer.t) : option Z :=
  match bytes with
  | _ :: _ :: _ :: _ :: h :: l :: _ =>
      Some (Buffer.to_Z h * 256 + Buffer.to_Z l)
  | _ => None
  end.

End KNXNetHeader.

End KnxProtocol.

(** ** Datagram builder (KnxDatagram.js) *)

Module KnxDatagram.

Import KnxConstants KnxProtocol.

(** The options bundle as the caller supplies it; an absent option is
    [None] and takes the default of whoever reads it. *)
Record options : Type := mk_options {
  suppress_ack_ldatareq : option bool;
  use_tunneling : option bool;
  twoLevelAddressing : option bool;
  physAddr : option string;
  remoteEndpoint : option string;
  physServerAddr : option string
}.

Definition or_default (o : option bool) (d : bool) : bool :=
  match o with Some b => b | None => d end.

(** [{ addr, port }] objects the state machine keeps for its peers. *)
Record endpoint : Type := mk_endpoint {
  addr : option string;
  port : option string
}.

(** [datagram] is [None] for the empty object of a fresh instance; [uuid]
    stands for the random correlation id. *)
Record t : Type := mk {
  _options : options;
  useTunneling : bool;
  _channelID : option Z;
  _remoteControlEndpoint : option endpoint;
  datagram : option KNXNetHeader.t;
  uuid : nat
}.

Definition TypeError : string := "TypeError".

(** The constructor; it also stores the addressing mode in the codec's
    process-wide flag, which [codec_flag] reads back. *)
Definition new (opts : options) (id : nat) : t :=
  mk opts (or_default (use_tunneling opts) true) None None None id.

Definition codec_flag (opts : options) : bool :=
  or_default (twoLevelAddressing opts) true.

Definition set_datagram (d : KNXNetHeader.t) (dg : t) : t :=
  mk (_options dg) (useTunneling dg) (_channelID dg)
     (_remoteControlEndpoint dg) (Some d) (uuid dg).

Definition default_hpai : HPAI.t := HPAI.mk None 1 "0.0.0.0:0".

Definition addHPAI (dg : t) (d : KNXNetHeader.t) : KNXNetHeader.t :=
  KNXNetHeader.set_hpai default_hpai d.

Definition addTunn (dg : t) (d : KNXNetHeader.t) : KNXNetHeader.t :=
  KNXNetHeader.set_tunn default_hpai d.

Definition addCRI (dg : t) (d : KNXNetHeader.t) : KNXNetHeader.t :=
  KNXNetHeader.set_cri
    (CRI.mk None CONNECTION_TYPE.TUNNEL_CONNECTION KNX_LAYER.LINK_LAYER 0) d.

Definition addConnState (dg : t) (d : KNXNetHeader.t) : KNXNetHeader.t :=
  KNXNetHeader.set_connstate (ConnState.mk (_channelID dg) None (Some 0)) d.

Definition addTunnState (dg : t) (d : KNXNetHeader.t)
  : result KNXNetHeader.t :=
  match _remoteControlEndpoint dg with
  | None => Throw TypeError
  | Some r =>
      Ok (KNXNetHeader.set_tunnstate
            (TunnState.mk None (_channelID dg) None None
               (Some (JS.show (addr r) ++ ":" ++ JS.show (port r))%string))
            d)
  end.

Definition addCEMI (msgcode : option Z) (dg : t) (d : KNXNetHeader.t)
  : KNXNetHeader.t :=
  let msgcode := JS.or_num msgcode MESSAGECODES.L_Data_req in
  let sendAck :=
    (msgcode =? MESSAGECODES.L_Data_req)
    && negb (or_default (suppress_ack_ldatareq (_options dg)) true) in
  KNXNetHeader.set_cemi
    (CEMI.mk msgcode None
       (Some (Ctrl.mk 1 0 1 1 3 (if sendAck then 1 else 0) 0 1 6 0))
       (match physAddr (_options dg) with
        | Some a => if String.eqb a "" then "15.15.15" else a
        | None => "15.15.15"
        end)
       "0/0/0"
       (Some (APDU.mk None None 0 "GroupValue_Write" (Num 0) None)))
    d.

Definition buildDatagram (svcType : Z) (remoteControlEndpoint : option endpoint)
    (channelID : option Z) (dg : t) : result t :=
  let dg :=
    mk (_options dg) (useTunneling dg)
       (match channelID with
        | Some c => if c =? 0 then None else Some c
        | None => None
        end)
       remoteControlEndpoint (datagram dg) (uuid dg) in
  let d := addHPAI dg (KNXNetHeader.header 6 16 svcType None) in
  d' <-
    (if svcType =? SERVICE_TYPE.SEARCH_REQUEST then Ok d
     else if svcType =? SERVICE_TYPE.CONNECT_REQUEST then
       Ok (addConnState dg (addCRI dg (addTunn dg d)))
     else if one_of svcType [SERVICE_TYPE.CONNECTIONSTATE_REQUEST;
                             SERVICE_TYPE.DISCONNECT_REQUEST] then
       Ok (addConnState dg d)
     else if svcType =? SERVICE_TYPE.ROUTING_INDICATION then
       Ok (addCEMI (Some MESSAGECODES.L_Data_ind) dg d)
     else if svcType =? SERVICE_TYPE.TUNNELING_REQUEST then
       d1 <- addTunnState dg (addTunn dg d) ;;
       Ok (addCEMI None dg d1)
     else if svcType =? SERVICE_TYPE.TUNNELING_ACK then
       addTunnState dg d
     else Ok d) ;;
  Ok (set_datagram d' dg).

Definition fromServiceRequest (svcType : Z) (opts : options)
    (remoteControlEndpoint : option endpoint) (channelID : option Z)
    (id : nat) : result t :=
  buildDatagram svcType remoteControlEndpoint channelID (new opts id).

(** [this.datagram.tunnstate], a [TypeError] when either is missing. *)
Definition the_tunnstate (dg : t) : result (KNXNetHeader.t * TunnState.t) :=
  match datagram dg with
  | Some d =>
      match KNXNetHeader.tunnstate d with
      | Some ts => Ok (d, ts)
      | None => Throw TypeError
      end
  | None => Throw TypeError
  end.

Definition getSeqNum (dg : t) : result Z :=
  x <- the_tunnstate dg ;;
  Ok (JS.or_num (TunnState.seqnum (snd x)) (-1)).

Definition setSeqNum (seqnum : Z) (dg : t) : result t :=
  x <- the_tunnstate dg ;;
  let (d, ts) := x in
  Ok (set_datagram
        (KNXNetHeader.set_tunnstate
           (TunnState.mk (TunnState.headerLength ts) (TunnState.channelId ts)
              (Some seqnum) (TunnState.status ts)
              (TunnState.tunnelEndpoint ts)) d)
        dg).

Definition getServiceType (dg : t) : result (option string) :=
  match datagram dg with
  | Some d => Ok (keyText SERVICE_TYPE_table (KNXNetHeader.serviceType d))
  | None => Throw TypeError
  end.

(** [_makeRequest(type, template)] with a template that edits the APDU
    and the destination of the CEMI frame. *)
Definition _makeRequest (type : Z) (edit : APDU.t -> APDU.t)
    (grpaddr : string) (dg : t) : result t :=
  match datagram dg with
  | Some d =>
      match KNXNetHeader.cemi d with
      | Some c =>
          match CEMI.apdu c with
          | Some a =>
              Ok (set_datagram
                    (KNXNetHeader.set_serviceType type
                       (KNXNetHeader.set_cemi
                          (CEMI.mk (CEMI.msgcode c) (CEMI.addinfoLength c)
                             (CEMI.ctrl c) (CEMI.srcAddr c) grpaddr
                             (Some (edit a))) d))
                    dg)
          | None => Throw TypeError
          end
      | None => Throw TypeError
      end
  | None => Throw TypeError
  end.

Definition requestType (dg : t) : Z :=
  if useTunneling dg then SERVICE_TYPE.TUNNELING_REQUEST
  else SERVICE_TYPE.ROUTING_INDICATION.

Definition set_apci (x : string) (a : APDU.t) : APDU.t :=
  APDU.mk (APDU.apduLength a) (APDU.apduRaw a) (APDU.tpci a) x
          (APDU.data a) (APDU.bitlength a).

Definition makeReadRequest (grpaddr : string) (dg : t) : result t :=
  _makeRequest (requestType dg) (set_apci "GroupValue_Read") grpaddr dg.

(** [populateAPDU] is the datapoint library's operation on the APDU. *)
Definition makeRespondRequest (populateAPDU : APDU.t -> APDU.t)
    (grpaddr : string) (dg : t) : result t :=
  _makeRequest (requestType dg)
    (fun a => set_apci "GroupValue_Response" (populateAPDU a)) grpaddr dg.

Definition makeWriteRequest (populateAPDU : APDU.t -> APDU.t)
    (grpaddr : string) (dg : t) : result t :=
  _makeRequest (requestType dg) populateAPDU grpaddr dg.

Definition makeWriteRawRequest (grpaddr : string) (value : Buffer.t)
    (bitlength : option Z) (dg : t) : result t :=
  _makeRequest (requestType dg)
    (fun a =>
       APDU.mk (APDU.apduLength a) (APDU.apduRaw a) (APDU.tpci a)
         (APDU.apci a) (Buf value)
         (Some (JS.or_num bitlength (Z.of_nat (List.length value) * 8))))
    grpaddr dg.

(** A descriptor such as [TUNNELING_REQUEST_L_Data.ind]; an unknown code
    reads [undefined]. *)
Definition datagramDesc (dg : t) : result string :=
  match datagram dg with
  | None => Throw TypeError
  | Some d =>
      let blurb :=
        JS.show' (keyText SERVICE_TYPE_table (KNXNetHeader.serviceType d)) in
      if one_of (KNXNetHeader.serviceType d)
           [SERVICE_TYPE.TUNNELING_REQUEST; SERVICE_TYPE.ROUTING_INDICATION]
      then
        match KNXNetHeader.cemi d with
        | Some c =>
            Ok (blurb ++ "_" ++
                JS.show' (keyText MESSAGECODES_table (CEMI.msgcode c)))%string
        | None => Throw TypeError
        end
      else Ok blurb
  end.

(** The packet [send] hands to the socket: the frame bytes, or the
    exception that [send] catches and logs instead of sending.  [flag] is
    the codec's process-wide addressing mode at that moment. *)
Definition packet (flag : bool) (dg : t) : result Buffer.t :=
  match datagram dg with
  | None => Throw TypeError
  | Some d =>
      _ <- (if one_of (KNXNetHeader.serviceType d)
                 [SERVICE_TYPE.ROUTING_INDICATION;
                  SERVICE_TYPE.TUNNELING_REQUEST]
            then match KNXNetHeader.cemi d with
                 | Some _ => Ok tt
                 | None => Throw TypeError
                 end
            else Ok tt) ;;
      r <- KNXNetHeader.write flag d ;;
      Ok (snd r)
  end.

(** [send] also leaves the computed [totalLength] in the datagram. *)
Definition sent (flag : bool) (dg : t) : t :=
  match datagram dg with
  | Some d =>
      match KNXNetHeader.write flag d with
      | Ok (d', _) => set_datagram d' dg
      | Throw _ => dg
      end
  | None => dg
  end.

Definition other_channel (channelID : Z) (d : KNXNetHeader.t) : bool :=
  match KNXNetHeader.connstate d with
  | Some cs => negb (JS.strict_eq (ConnState.channelId cs) channelID)
  | None => false
  end
  ||
  match KNXNetHeader.tunnstate d with
  | Some ts => negb (JS.strict_eq (TunnState.channelId ts) channelID)
  | None => false
  end.

(** [parseKnxMessage]: [None] is the [null] returned for an unparseable
    packet and for a packet of another channel. *)
Definition parseKnxMessage (channelID : option Z) (msg : Buffer.t)
    (opts : options) (id : nat) : option t :=
  match Reader.run (KNXNetHeader.read (codec_flag opts)) msg with
  | Throw _ => None
  | Ok d =>
      let dg := set_datagram d (new opts id) in
      match datagramDesc dg with
      | Throw _ => None
      | Ok _ =>
          match channelID with
          | Some c => if other_channel c d then None else Some dg
          | None => Some dg
          end
      end
  end.

End KnxDatagram.

(** ** Connection state machine *)

(** The machine extends [machina.Fsm].  The dispatcher of that package is
    modelled by [handle] and [transition]: an input runs the handler the
    current state has for it (or its catch-all), a transition runs the exit
    handler, changes the state and runs the entry handler.  A deferred input
    is recorded as an effect; machina replays it as a later [handle] of the
    same input. *)
Module KnxConnection.

Import KnxConstants KnxProtocol.

Definition options := KnxDatagram.options.
Definition endpoint := KnxDatagram.endpoint.

Inductive state_name : Type :=
| uninitialized | idle | searching | connecting | connected | waiting
| online | inbound_TUNNELING_REQUEST_L_Data
| outbound_CONNECTIONSTATE_REQUEST | outbound_TUNNELING_REQUEST
| disconnecting.

Definition state_eqb (a b : state_name) : bool :=
  match a, b with
  | uninitialized, uninitialized | idle, idle | searching, searching
  | connecting, connecting | connected, connected | waiting, waiting
  | online, online
  | inbound_TUNNELING_REQUEST_L_Data, inbound_TUNNELING_REQUEST_L_Data
  | outbound_CONNECTIONSTATE_REQUEST, outbound_CONNECTIONSTATE_REQUEST
  | outbound_TUNNELING_REQUEST, outbound_TUNNELING_REQUEST
  | disconnecting, disconnecting => true
  | _, _ => false
  end.

(** What an input carries: nothing, [null] (a timer that gave up), a
    parsed frame, or a datagram built by the request API. *)
Inductive arg : Type :=
| nothing
| null
| frame (d : KNXNetHeader.t)
| request (dg : KnxDatagram.t).

Inductive socket : Type := discoverSocket | controlSocket.

Inductive timer : Type :=
| state_timer | connStateTimer | connStateRequestTimer | ackTimer.

Inductive event_arg : Type :=
| text (s : string)
| bytes (p : payload)
| no_code.

Inductive effect : Type :=
| emit (name : string) (args : list event_arg)
| socket_send (s : socket) (remote : endpoint) (packet : Buffer.t)
| send_failed (e : string)
| socket_open (s : socket)
| socket_close (s : socket)
| setTimeout (t : timer) (input : string) (a : arg) (ms : Z)
| setInterval (t : timer) (input : string) (ms : Z)
| clearTimer (t : timer)
| setImmediate (input : string)
| deferUntilTransition (input : string) (a : arg) (until : option state_name)
| clearQueue.

Record t : Type := mk {
  _options : options;
  state : state_name;
  _channelID : option Z;
  _connectionHeartbeatFailures : Z;
  _inboundSeqNum : Z;
  _outboundSeqNum : Z;
  _remoteDiscoverEndpoint : endpoint;
  _remoteControlEndpoint : endpoint;
  _outboundDatagram : option KnxDatagram.t;
  _outboundFailures : Z;
  _discoverSocket : bool;
  _controlSocket : bool;
  made : nat
}.

Definition no_endpoint : endpoint := KnxDatagram.mk_endpoint None None.

(** [initialize]: the caller's options over the machine's defaults. *)
Definition initialize (opts : options) : t :=
  mk (KnxDatagram.mk_options
        (KnxDatagram.suppress_ack_ldatareq opts)
        (KnxDatagram.use_tunneling opts)
        (Some (KnxDatagram.or_default (KnxDatagram.twoLevelAddressing opts)
                 false))
        (KnxDatagram.physAddr opts)
        (KnxDatagram.remoteEndpoint opts)
        (Some (match KnxDatagram.physServerAddr opts with
               | Some a => a
               | None => "1.1.220"
               end)))
     uninitialized None 0 0 0 no_endpoint no_endpoint None 0 false false O.

Definition upd_state (x : state_name) (m : t) : t :=
  mk (_options m) x (_channelID m) (_connectionHeartbeatFailures m)
     (_inboundSeqNum m) (_outboundSeqNum m) (_remoteDiscoverEndpoint m)
     (_remoteControlEndpoint m) (_outboundDatagram m) (_outboundFailures m)
     (_discoverSocket m) (_controlSocket m) (made m).
Definition upd_channelID (x : option Z) (m : t) : t :=
  mk (_options m) (state m) x (_connectionHeartbeatFailures m)
     (_inboundSeqNum m) (_outboundSeqNum m) (_remoteDiscoverEndpoint m)
     (_remoteControlEndpoint m) (_outboundDatagram m) (_outboundFailures m)
     (_discoverSocket m) (_controlSocket m) (made m).
Definition upd_heartbeatFailures (x : Z) (m : t) : t :=
  mk (_options m) (state m) (_channelID m) x
     (_inboundSeqNum m) (_outboundSeqNum m) (_remoteDiscoverEndpoint m)
     (_remoteControlEndpoint m) (_outboundDatagram m) (_outboundFailures m)
     (_discoverSocket m) (_controlSocket m) (made m).
Definition upd_inboundSeqNum (x : Z) (m : t) : t :=
  mk (_options m) (state m) (_channelID m) (_connectionHeartbeatFailures m)
     x (_outboundSeqNum m) (_remoteDiscoverEndpoint m)
     (_remoteControlEndpoint m) (_outboundDatagram m) (_outboundFailures m)
     (_discoverSocket m) (_controlSocket m) (made m).
Definition upd_outboundSeqNum (x : Z) (m : t) : t :=
  mk (_options m) (state m) (_channelID m) (_connectionHeartbeatFailures m)
     (_inboundSeqNum m) x (_remoteDiscoverEndpoint m)
     (_remoteControlEndpoint m) (_outboundDatagram m) (_outboundFailures m)
     (_discoverSocket m) (_controlSocket m) (made m).
Definition upd_remoteDiscoverEndpoint (x : endpoint) (m : t) : t :=
  mk (_options m) (state m) (_channelID m) (_connectionHeartbeatFailures m)
     (_inboundSeqNum m) (_outboundSeqNum m) x
     (_remoteControlEndpoint m) (_outboundDatagram m) (_outboundFailures m)
     (_discoverSocket m) (_controlSocket m) (made m).
Definition upd_remoteControlEndpoint (x : endpoint) (m : t) : t :=
  mk (_options m) (state m) (_channelID m) (_connectionHeartbeatFailures m)
     (_inboundSeqNum m) (_outboundSeqNum m) (_remoteDiscoverEndpoint m)
     x (_outboundDatagram m) (_outboundFailures m)
     (_discoverSocket m) (_controlSocket m) (made m).
Definition upd_outbound (d : option KnxDatagram.t) (failures : Z) (m : t)
  : t :=
  mk (_options m) (state m) (_channelID m) (_connectionHeartbeatFailures m)
     (_inboundSeqNum m) (_outboundSeqNum m) (_remoteDiscoverEndpoint m)
     (_remoteControlEndpoint m) d failures
     (_discoverSocket m) (_controlSocket m) (made m).
Definition upd_sockets (discover control : bool) (m : t) : t :=
  mk (_options m) (state m) (_channelID m) (_connectionHeartbeatFailures m)
     (_inboundSeqNum m) (_outboundSeqNum m) (_remoteDiscoverEndpoint m)
     (_remoteControlEndpoint m) (_outboundDatagram m) (_outboundFailures m)
     discover control (made m).
Definition upd_made (m : t) : t :=
  mk (_options m) (state m) (_channelID m) (_connectionHeartbeatFailures m)
     (_inboundSeqNum m) (_outboundSeqNum m) (_remoteDiscoverEndpoint m)
     (_remoteControlEndpoint m) (_outboundDatagram m) (_outboundFailures m)
     (_discoverSocket m) (_controlSocket m) (S (made m)).

Definition flag (m : t) : bool := KnxDatagram.codec_flag (_options m).

Definition _prepareKnxDatagram (svcType : Z) (m : t)
  : result KnxDatagram.t :=
  KnxDatagram.fromServiceRequest svcType (_options m)
    (Some (_remoteControlEndpoint m)) (_channelID m) (made m).

(** [dg.send(socket, remote)]: the packet goes out, or the exception of
    the writer is caught and logged. *)
Definition send (s : socket) (remote : endpoint) (dg : KnxDatagram.t)
    (m : t) : effect :=
  match KnxDatagram.packet (flag m) dg with
  | Ok packet => socket_send s remote packet
  | Throw e => send_failed e
  end.

Definition outcome : Type := result (t * list effect).

Definition TypeError : string := KnxDatagram.TypeError.

(** Build a datagram of the given service type and send it. *)
Definition prepare_and_send (svcType : Z) (s : socket) (remote : endpoint)
    (m : t) : outcome :=
  dg <- _prepareKnxDatagram svcType m ;;
  Ok (upd_made m, [send s remote dg m]).

Definition multicast : endpoint :=
  KnxDatagram.mk_endpoint (Some "224.0.23.12") (Some "3671").

Definition _startSearch (m : t) : outcome :=
  let m := upd_remoteDiscoverEndpoint multicast m in
  let m := upd_sockets true (_controlSocket m) m in
  r <- prepare_and_send SERVICE_TYPE.SEARCH_REQUEST discoverSocket
         (_remoteDiscoverEndpoint m) m ;;
  Ok (fst r, socket_open discoverSocket :: snd r).

Definition _startConnect (m : t) : outcome :=
  let m := upd_sockets (_discoverSocket m) true m in
  r <- prepare_and_send SERVICE_TYPE.CONNECT_REQUEST controlSocket
         (_remoteControlEndpoint m) m ;;
  Ok (fst r, socket_open controlSocket :: snd r).

Definition send_CONNECTIONSTATE_REQUEST (m : t) : outcome :=
  r <- prepare_and_send SERVICE_TYPE.CONNECTIONSTATE_REQUEST controlSocket
         (_remoteControlEndpoint m) m ;;
  Ok (fst r,
      setTimeout connStateTimer "inbound_CONNECTIONSTATE_RESPONSE" null 10000
        :: snd r).

Definition send_TUNNELING_REQUEST (m : t) : outcome :=
  match _outboundDatagram m with
  | Some dg =>
      Ok (upd_outbound (Some (KnxDatagram.sent (flag m) dg))
            (_outboundFailures m) m,
          [setTimeout ackTimer "inbound_TUNNELING_ACK" null 1000;
           send controlSocket (_remoteControlEndpoint m) dg m])
  | None => Throw TypeError
  end.

Definition onExit (m : t) : t * list effect :=
  match state m with
  | idle | connecting | waiting | disconnecting =>
      (m, [clearTimer state_timer])
  | searching =>
      if _discoverSocket m
      then (upd_sockets false (_controlSocket m) m,
            [clearTimer state_timer; socket_close discoverSocket])
      else (m, [clearTimer state_timer])
  | outbound_CONNECTIONSTATE_REQUEST => (m, [clearTimer connStateTimer])
  | outbound_TUNNELING_REQUEST =>
      (upd_outbound None 0 m, [clearTimer ackTimer])
  | _ => (m, [])
  end.

(** Entry handlers that stay in the state they enter. *)
Definition onEnter_leaf (a : arg) (m : t) : outcome :=
  match state m with
  | idle =>
      let m' := upd_channelID None
                  (upd_sockets (_discoverSocket m) false m) in
      Ok (m',
          [emit "offline" []] ++
          (if _controlSocket m then [socket_close controlSocket] else []) ++
          [setTimeout state_timer "startsearch" nothing 2000])
  | searching =>
      let t := setTimeout state_timer "timeout" nothing 15000 in
      match KnxDatagram.remoteEndpoint (_options m) with
      | Some (String _ _) => Ok (m, [t])
      | _ => r <- _startSearch m ;; Ok (fst r, t :: snd r)
      end
  | connecting =>
      r <- _startConnect m ;;
      Ok (fst r, setTimeout state_timer "timeout" nothing 15000 :: snd r)
  | waiting => Ok (m, [setTimeout state_timer "timeout" nothing 50])
  | outbound_CONNECTIONSTATE_REQUEST => send_CONNECTIONSTATE_REQUEST m
  | outbound_TUNNELING_REQUEST =>
      match a with
      | request datagram =>
          dg <- KnxDatagram.setSeqNum (_outboundSeqNum m) datagram ;;
          send_TUNNELING_REQUEST (upd_outbound (Some dg) 0 m)
      | _ => Throw TypeError
      end
  | disconnecting =>
      r <- prepare_and_send SERVICE_TYPE.DISCONNECT_REQUEST controlSocket
             (_remoteControlEndpoint m) m ;;
      Ok (fst r,
          [clearQueue; clearTimer connStateRequestTimer;
           setTimeout state_timer "timeout" nothing 10000] ++ snd r)
  | _ => Ok (m, [])
  end.

Definition transition_with (enter : arg -> t -> outcome)
    (target : state_name) (a : arg) (m : t) : outcome :=
  if state_eqb target (state m) then Ok (m, [])
  else
    let (m1, e1) := onExit m in
    r <- enter a (upd_state target m1) ;;
    Ok (fst r, e1 ++ snd r).

Definition then_ (r : t * list effect) (k : t -> outcome) : outcome :=
  r' <- k (fst r) ;; Ok (fst r', snd r ++ snd r').

(** [inbound_TUNNELING_REQUEST_L_Data._onEnter] up to its final
    transition. *)
Definition acknowledge_inbound (datagram : KNXNetHeader.t) (m : t)
  : outcome :=
  match KNXNetHeader.tunnstate datagram with
  | None => Throw TypeError
  | Some ts =>
      let seqnum := TunnState.seqnum ts in
      if JS.strict_eq seqnum (_inboundSeqNum m)
         || JS.strict_eq seqnum (Z.rem (_inboundSeqNum m + 255) 256)
      then
        ack <- _prepareKnxDatagram SERVICE_TYPE.TUNNELING_ACK m ;;
        ack <- KnxDatagram.setSeqNum (JS.to_number seqnum) ack ;;
        let sending :=
          send controlSocket (_remoteControlEndpoint m) ack m in
        let m := upd_made m in
        if JS.strict_eq seqnum (_inboundSeqNum m) then
          match KNXNetHeader.cemi datagram with
          | Some cemi =>
              match CEMI.apdu cemi with
              | Some apdu =>
                  let evtName := APDU.apci apdu in
                  let destAddr := CEMI.destAddr cemi in
                  let srcAddr := CEMI.srcAddr cemi in
                  let data := bytes (APDU.data apdu) in
                  Ok (upd_inboundSeqNum
                        (Z.rem (_inboundSeqNum m + 1) 256) m,
                      [sending;
                       emit (evtName ++ "_" ++ destAddr)%string
                         [text srcAddr; data];
                       emit ("event_" ++ destAddr)%string
                         [text evtName; text srcAddr; data];
                       emit "event"
                         [text evtName; text srcAddr; text destAddr; data]])
              | None => Throw TypeError
              end
          | None => Throw TypeError
          end
        else Ok (m, [sending])
      else Ok (m, [])
  end.

Definition onEnter (a : arg) (m : t) : outcome :=
  match state m with
  | connected =>
      let m := upd_outboundSeqNum 0
                 (upd_inboundSeqNum 0 (upd_heartbeatFailures 0 m)) in
      then_ (m, [setInterval connStateRequestTimer
                   "outbound_CONNECTIONSTATE_REQUEST" 45000;
                 emit "online" []])
            (transition_with onEnter_leaf online nothing)
  | inbound_TUNNELING_REQUEST_L_Data =>
      match a with
      | frame datagram =>
          r <- acknowledge_inbound datagram m ;;
          then_ r (transition_with onEnter_leaf waiting nothing)
      | _ => Throw TypeError
      end
  | _ => onEnter_leaf a m
  end.

Definition transition (target : state_name) (a : arg) (m : t) : outcome :=
  transition_with onEnter target a m.

Definition named (input name : string) : bool := String.eqb input name.

Definition defer (input : string) (a : arg) (until : option state_name)
    (m : t) : outcome :=
  Ok (m, [deferUntilTransition input a until]).

Definition inbound_SEARCH_RESPONSE (a : arg) (m : t) : outcome :=
  match a with
  | frame datagram =>
      match KNXNetHeader.hpai datagram, KNXNetHeader.devinfo datagram with
      | Some hpai, Some devinfo =>
          let wanted := KnxDatagram.physServerAddr (_options m) in
          if match wanted with
             | Some w => String.eqb w ""
                         || String.eqb (DIBdevinfo.physicalAddr devinfo) w
             | None => true
             end
          then
            let ipinfo :=
              JS.split (JS.is_char ":") (HPAI.tunnelEndpoint hpai) in
            transition connecting nothing
              (upd_remoteControlEndpoint
                 (KnxDatagram.mk_endpoint (nth_error ipinfo 0)
                    (nth_error ipinfo 1)) m)
          else Ok (m, [])
      | _, _ => Throw TypeError
      end
  | _ => Throw TypeError
  end.

Definition inbound_CONNECT_RESPONSE (a : arg) (m : t) : outcome :=
  match a with
  | frame datagram =>
      match KNXNetHeader.connstate datagram with
      | Some cs =>
          if JS.strict_eq (ConnState.status cs)
               RESPONSECODE.E_NO_MORE_CONNECTIONS
          then transition idle nothing m
          else transition connected nothing
                 (upd_channelID (ConnState.channelId cs) m)
      | None => Throw TypeError
      end
  | _ => Throw TypeError
  end.

Definition responseCode (status : option Z) : option string :=
  match status with
  | Some s => keyText RESPONSECODE_table s
  | None => None
  end.

Definition is_NO_ERROR (code : option string) : bool :=
  match code with Some c => String.eqb c "NO_ERROR" | None => false end.

Definition code_arg (code : option string) : event_arg :=
  match code with Some c => text c | None => no_code end.

Definition inbound_CONNECTIONSTATE_RESPONSE (a : arg) (m : t) : outcome :=
  let retry (m : t) : outcome :=
    let m := upd_heartbeatFailures (_connectionHeartbeatFailures m + 1) m in
    r <- (if _connectionHeartbeatFailures m >? 3
          then transition disconnecting nothing m
          else Ok (m, [])) ;;
    Ok (fst r,
        clearTimer connStateTimer :: snd r ++
        [setImmediate "send_CONNECTIONSTATE_REQUEST"]) in
  match a with
  | null => retry m
  | frame datagram =>
      match KNXNetHeader.connstate datagram with
      | Some cs =>
          if is_NO_ERROR (responseCode (ConnState.status cs)) then
            then_ (upd_heartbeatFailures 0 m, [clearTimer connStateTimer])
                  (transition waiting nothing)
          else retry m
      | None => Throw TypeError
      end
  | _ => Throw TypeError
  end.

Definition ReceivedAck (dg : KnxDatagram.t) (code : option string)
  : effect :=
  emit ("ReceivedAck_" ++ JS.dec (Z.of_nat (KnxDatagram.uuid dg)))%string
       [code_arg code].

Definition inbound_TUNNELING_ACK (a : arg) (m : t) : outcome :=
  let failed (code : option string) (pre : list effect) (m : t) : outcome :=
    let m := upd_outbound (_outboundDatagram m) (_outboundFailures m + 1) m in
    if _outboundFailures m >? 1 then
      match _outboundDatagram m with
      | Some dg =>
          then_ (m, pre ++ [ReceivedAck dg code])
                (transition disconnecting nothing)
      | None => Throw TypeError
      end
    else Ok (m, pre ++ [setImmediate "send_TUNNELING_REQUEST"]) in
  match a with
  | null => failed None [] m
  | frame datagram =>
      match KNXNetHeader.tunnstate datagram with
      | Some ts =>
          if JS.strict_eq (TunnState.seqnum ts) (_outboundSeqNum m) then
            let code := responseCode (TunnState.status ts) in
            if is_NO_ERROR code then
              match _outboundDatagram m with
              | Some dg =>
                  then_ (upd_outboundSeqNum
                           (Z.rem (_outboundSeqNum m + 1) 256) m,
                         [clearTimer ackTimer; ReceivedAck dg code])
                        (transition waiting nothing)
              | None => Throw TypeError
              end
            else failed code [clearTimer ackTimer] m
          else Ok (m, [])
      | None => Throw TypeError
      end
  | _ => Throw TypeError
  end.

(** [handle(inputType, data)] *)
Definition handle (input : string) (a : arg) (m : t) : outcome :=
  match state m with
  | uninitialized =>
      then_ (m, [deferUntilTransition input a None])
            (transition idle nothing)
  | idle =>
      if named input "startsearch" then transition searching nothing m
      else Ok (m, [])
  | searching =>
      if named input "inbound_SEARCH_RESPONSE" then inbound_SEARCH_RESPONSE a m
      else if named input "timeout" then transition idle nothing m
      else Ok (m, [])
  | connecting =>
      if named input "disconnect" then transition disconnecting nothing m
      else if named input "inbound_CONNECT_RESPONSE"
      then inbound_CONNECT_RESPONSE a m
      else if named input "timeout" then transition disconnecting nothing m
      else Ok (m, [])
  | connected => defer input a (Some online) m
  | waiting =>
      if named input "inbound_TUNNELING_REQUEST_L_Data.ind"
      then transition inbound_TUNNELING_REQUEST_L_Data a m
      else if named input "disconnect" then transition disconnecting nothing m
      else if named input "timeout" then transition online nothing m
      else defer input a (Some online) m
  | online =>
      if named input "disconnect" then transition disconnecting nothing m
      else if named input "inbound_DISCONNECT_REQUEST" then
        then_ (m, [clearTimer connStateRequestTimer])
              (transition idle nothing)
      else if named input "inbound_TUNNELING_REQUEST_L_Data.con"
              || named input "inbound_TUNNELING_REQUEST_L_Data.ind"
      then transition inbound_TUNNELING_REQUEST_L_Data a m
      else if named input "outbound_CONNECTIONSTATE_REQUEST"
      then transition outbound_CONNECTIONSTATE_REQUEST nothing m
      else if named input "outbound_TUNNELING_REQUEST"
      then transition outbound_TUNNELING_REQUEST a m
      else Ok (m, [])
  | inbound_TUNNELING_REQUEST_L_Data => defer input a None m
  | outbound_CONNECTIONSTATE_REQUEST =>
      if named input "send_CONNECTIONSTATE_REQUEST"
      then send_CONNECTIONSTATE_REQUEST m
      else if named input "inbound_CONNECTIONSTATE_RESPONSE"
      then inbound_CONNECTIONSTATE_RESPONSE a m
      else if named input "ok" then transition waiting nothing m
      else defer input a None m
  | outbound_TUNNELING_REQUEST =>
      if named input "send_TUNNELING_REQUEST" then send_TUNNELING_REQUEST m
      else if named input "inbound_TUNNELING_ACK" then inbound_TUNNELING_ACK a m
      else if named input "ok" then transition waiting nothing m
      else defer input a None m
  | disconnecting =>
      if named input "inbound_DISCONNECT_RESPONSE"
         || named input "timeout"
      then transition idle nothing m
      else Ok (m, [])
  end.

(** The sender of a UDP packet, as Node reports it. *)
Record rinfo : Type := mk_rinfo {
  address : string;
  port : Z
}.

(** The input the ["message"] listener of the discovery socket raises:
    the signal and the frame it passes to [handle], or nothing for a
    packet [parseKnxMessage] drops. *)
Definition discover_input (msg : Buffer.t) (from : rinfo) (m : t)
  : result (option (string * KNXNetHeader.t)) :=
  match KnxDatagram.parseKnxMessage (_channelID m) msg (_options m)
          (made m) with
  | None => Ok None
  | Some response =>
      match KnxDatagram.datagram response with
      | Some d =>
          match KNXNetHeader.hpai d with
          | Some h =>
              let d' :=
                if String.eqb (HPAI.tunnelEndpoint h) "0.0.0.0:0" then
                  KNXNetHeader.set_hpai
                    (HPAI.mk (HPAI.headerLength h) (HPAI.protocolType h)
                       (address from ++ ":" ++ JS.dec (port from))%string)
                    d
                else d in
              desc <- KnxDatagram.datagramDesc
                        (KnxDatagram.set_datagram d' response) ;;
              Ok (Some (("inbound_" ++ desc)%string, d'))
          | None => Throw TypeError
          end
      | None => Throw TypeError
      end
  end.

Definition discover_message (msg : Buffer.t) (from : rinfo) (m : t)
  : outcome :=
  x <- discover_input msg from m ;;
  match x with
  | Some (signal, d) => handle signal (frame d) (upd_made m)
  | None => Ok (m, [])
  end.

(** The same for the listener of the control socket. *)
Definition control_input (msg : Buffer.t) (from : rinfo) (m : t)
  : result (option (string * KNXNetHeader.t)) :=
  match KnxDatagram.parseKnxMessage (_channelID m) msg (_options m)
          (made m) with
  | None => Ok None
  | Some dg =>
      desc <- KnxDatagram.datagramDesc dg ;;
      match KnxDatagram.datagram dg with
      | Some d => Ok (Some (("inbound_" ++ desc)%string, d))
      | None => Throw TypeError
      end
  end.

Definition control_message (msg : Buffer.t) (from : rinfo) (m : t)
  : outcome :=
  x <- control_input msg from m ;;
  match x with
  | Some (signal, d) =>
      then_ (upd_made m,
             if String.eqb signal "inbound_DISCONNECT_REQUEST"
             then [clearQueue] else [])
            (handle signal (frame d))
  | None => Ok (m, [])
  end.

Definition connect (m : t) : outcome := handle "startsearch" nothing m.

Definition disconnect (m : t) : outcome := handle "disconnect" nothing m.

Definition queueRequest (ev : string) (dg : KnxDatagram.t) (m : t)
  : outcome :=
  handle ev (request dg) m.

(** [read(groupAddress)] without its promise. *)
Definition read (groupAddress : string) (m : t) : outcome :=
  dg <- _prepareKnxDatagram SERVICE_TYPE.TUNNELING_REQUEST m ;;
  dg <- KnxDatagram.makeReadRequest groupAddress dg ;;
  svc <- KnxDatagram.getServiceType dg ;;
  queueRequest ("outbound_" ++ JS.show' svc)%string dg (upd_made m).

(** [writeRaw(groupAddress, value, bitlength)] without its promise. *)
Definition writeRaw (groupAddress : string) (value : Buffer.t)
    (bitlength : option Z) (m : t) : outcome :=
  dg <- _prepareKnxDatagram SERVICE_TYPE.TUNNELING_REQUEST m ;;
  dg <- KnxDatagram.makeWriteRawRequest groupAddress value bitlength dg ;;
  svc <- KnxDatagram.getServiceType dg ;;
  queueRequest ("outbound_" ++ JS.show' svc)%string dg (upd_made m).

End KnxConnection.

(** ** Vocabulary of the statements and the concrete frames they use *)

Module Scenario.

Import KnxConstants KnxProtocol.

Definition buffer (l : list Z) : Buffer.t := map Buffer.of_Z l.

Definition no_options : KnxDatagram.options :=
  KnxDatagram.mk_options None None None None None None.

Definition three_level : KnxDatagram.options :=
  KnxDatagram.mk_options None None (Some false) None None None.

(** Options of a caller who asked for routing instead of tunneling. *)
Definition routing : KnxDatagram.options :=
  KnxDatagram.mk_options None (Some false) (Some false) None None None.

Definition gateway : KnxDatagram.endpoint :=
  KnxDatagram.mk_endpoint (Some "192.168.1.10") (Some "3671").

Definition gateway_rinfo : KnxConnection.rinfo :=
  KnxConnection.mk_rinfo "192.168.1.10" 3671.

(** A TUNNELING_ACK announcing 14 bytes in a packet of 10. *)
Definition short_ack : Buffer.t :=
  buffer [0x06; 0x10; 0x04; 0x21; 0x00; 0x0e; 0x04; 0x07; 0x00; 0x00].

(** A CONNECT_RESPONSE for channel 7 whose HPAI is 0.0.0.0:0. *)
Definition connect_response : Buffer.t :=
  buffer [0x06; 0x10; 0x02; 0x06; 0x00; 0x14; 0x07; 0x00;
          0x08; 0x01; 0; 0; 0; 0; 0; 0; 0x04; 0x04; 0x02; 0x00].

(** The skeleton of a tunneling request on channel 7. *)
Definition tunneling_request (opts : KnxDatagram.options)
  : result KnxDatagram.t :=
  KnxDatagram.fromServiceRequest SERVICE_TYPE.TUNNELING_REQUEST opts
    (Some gateway) (Some 7) O.

(** The same skeleton turned into a group read by a caller who disabled
    tunneling: the service type becomes ROUTING_INDICATION. *)
Definition routed_read : result KnxDatagram.t :=
  dg <- tunneling_request routing ;;
  KnxDatagram.makeReadRequest "1/2/3" dg.

Definition or_fresh (r : result KnxDatagram.t) : KnxDatagram.t :=
  match r with Ok dg => dg | Throw _ => KnxDatagram.new no_options O end.

(** The first request after connecting, before it is numbered. *)
Definition first_request : KnxDatagram.t :=
  or_fresh (tunneling_request no_options).

Definition bogus_apdu : APDU.t :=
  APDU.mk None None 0 "GroupValue_Bogus" (Num 1) None.

Definition big_apdu : APDU.t :=
  APDU.mk None None 0 "GroupValue_Write" (Buf (buffer [1; 2; 3])) (Some 200).

Definition wide_apdu : APDU.t :=
  APDU.mk None None 0 "GroupValue_Write" (Num 64) None.

(** ** Predicates on APDU values *)

Definition known_apci (v : APDU.t) : Prop :=
  JS.index_of (APDU.apci v) APCICODES <> None.

Definition no_bitlength (v : APDU.t) : Prop :=
  JS.or_num (APDU.bitlength v) 0 = 0.

(** A payload the length walk takes: a 6-bit number (a missing payload
    counts as 0) or a buffer of 1 to 14 bytes. *)
Definition encodable (p : payload) : Prop :=
  match p with
  | Absent => True
  | Num n => 0 <= n <= 63
  | Buf b => (1 <= List.length b <= 14)%nat
  end.

(** ** Channels and listeners *)

(** A frame of another channel: it carries a ConnState or a TunnState whose
    channel id is not [c]. *)
Definition foreign (c : Z) (d : KNXNetHeader.t) : Prop :=
  (exists cs, KNXNetHeader.connstate d = Some cs
              /\ ConnState.channelId cs <> Some c)
  \/ (exists ts, KNXNetHeader.tunnstate d = Some ts
                 /\ TunnState.channelId ts <> Some c).

(** A machine in the middle of a session on channel [c] with the gateway. *)
Definition session (c : Z) : KnxConnection.t :=
  KnxConnection.upd_state KnxConnection.online
    (KnxConnection.upd_channelID (Some c)
       (KnxConnection.upd_remoteControlEndpoint gateway
          (KnxConnection.initialize no_options))).

(** The same machine with its first request sent and not yet
    acknowledged. *)
Definition awaiting_ack : KnxConnection.t :=
  KnxConnection.upd_outbound (Some first_request) 0
    (KnxConnection.upd_state KnxConnection.outbound_TUNNELING_REQUEST
       (session 7)).

(** The signal a listener raises and the endpoint of the HPAI it passes. *)
Definition raised_endpoint (r : result (option (string * KNXNetHeader.t)))
  : result (option (string * option string)) :=
  x <- r ;;
  Ok (option_map
        (fun p => (fst p,
                   option_map HPAI.tunnelEndpoint (KNXNetHeader.hpai (snd p))))
        x).

(** ** Observing the machine *)

(** The packets an action puts on the wire. *)
Definition sent (effects : list KnxConnection.effect)
  : list (KnxConnection.socket * KnxConnection.endpoint * Buffer.t) :=
  flat_map (fun e => match e with
                     | KnxConnection.socket_send s r p => [(s, r, p)]
                     | _ => []
                     end) effects.

(** The events an action emits. *)
Definition emitted (effects : list KnxConnection.effect)
  : list (string * list KnxConnection.event_arg) :=
  flat_map (fun e => match e with
                     | KnxConnection.emit n a => [(n, a)]
                     | _ => []
                     end) effects.

(** A TUNNELING_ACK on the wire, and the frame it is read as. *)
Definition ack_packet (channel seqnum : Z) : Buffer.t :=
  buffer [0x06; 0x10; 0x04; 0x21; 0x00; 0x0A; 0x04; channel; seqnum; 0x00].

Definition ack_frame (channel seqnum : Z) : KNXNetHeader.t :=
  KNXNetHeader.set_tunnstate
    (TunnState.mk (Some 4) (Some channel) (Some seqnum)
       (Some RESPONSECODE.NO_ERROR) None)
    (KNXNetHeader.header 6 16 SERVICE_TYPE.TUNNELING_ACK (Some 10)).

(** The three user events of an accepted L_Data frame. *)
Definition user_events (cemi : CEMI.t) (apdu : APDU.t)
  : list (string * list KnxConnection.event_arg) :=
  let data := KnxConnection.bytes (APDU.data apdu) in
  let src := KnxConnection.text (CEMI.srcAddr cemi) in
  let name := KnxConnection.text (APDU.apci apdu) in
  [ ((APDU.apci apdu ++ "_" ++ CEMI.destAddr cemi)%string, [src; data]);
    (("event_" ++ CEMI.destAddr cemi)%string, [name; src; data]);
    ("event", [name; src; KnxConnection.text (CEMI.destAddr cemi); data]) ].

(** The inputs that bring an inbound L_Data frame to the machine. *)
Definition L_Data_input (m : KnxConnection.t) (input : string) : Prop :=
  (KnxConnection.state m = KnxConnection.online
   /\ (input = "inbound_TUNNELING_REQUEST_L_Data.ind"
       \/ input = "inbound_TUNNELING_REQUEST_L_Data.con"))
  \/ (KnxConnection.state m = KnxConnection.waiting
      /\ input = "inbound_TUNNELING_REQUEST_L_Data.ind").

(** The channel id, once a CONNECT_RESPONSE has set it, is a byte. *)
Definition channel_ok (m : KnxConnection.t) : Prop :=
  match KnxConnection._channelID m with
  | Some c => 0 <= c <= 255
  | None => True
  end.

(** A TUNNELING_ACK frame that numbers the request in flight and reports
    no error. *)
Definition acknowledges (a : KnxConnection.arg) (m : KnxConnection.t)
  : bool :=
  match a with
  | KnxConnection.frame d =>
      match KNXNetHeader.tunnstate d with
      | Some ts =>
          JS.strict_eq (TunnState.seqnum ts) (KnxConnection._outboundSeqNum m)
          && KnxConnection.is_NO_ERROR
               (KnxConnection.responseCode (TunnState.status ts))
      | None => false
      end
  | _ => false
  end.

(** The input is such a TUNNELING_ACK, received while a request waits for
    it. *)
Definition successful_ack (input : string) (a : KnxConnection.arg)
    (m : KnxConnection.t) : bool :=
  KnxConnection.state_eqb (KnxConnection.state m)
    KnxConnection.outbound_TUNNELING_REQUEST
  && KnxConnection.named input "inbound_TUNNELING_ACK"
  && acknowledges a m.

(** A CONNECT_RESPONSE frame the machine takes for an acceptance. *)
Definition accepts (a : KnxConnection.arg) : bool :=
  match a with
  | KnxConnection.frame d =>
      match KNXNetHeader.connstate d with
      | Some cs =>
          negb (JS.strict_eq (ConnState.status cs)
                  RESPONSECODE.E_NO_MORE_CONNECTIONS)
      | None => false
      end
  | _ => false
  end.

(** The input is a CONNECT_RESPONSE that takes the machine to [connected]. *)
Definition enters_connected (input : string) (a : KnxConnection.arg)
    (m : KnxConnection.t) : bool :=
  KnxConnection.state_eqb (KnxConnection.state m) KnxConnection.connecting
  && KnxConnection.named input "inbound_CONNECT_RESPONSE"
  && accepts a.

(** The counters of [m'] are those of [m]. *)
Definition same_counters (m m' : KnxConnection.t) : Prop :=
  KnxConnection._inboundSeqNum m' = KnxConnection._inboundSeqNum m
  /\ KnxConnection._outboundSeqNum m' = KnxConnection._outboundSeqNum m.

Definition trace : Type := list (string * KnxConnection.arg).

(** The machine after a sequence of inputs. *)
Fixpoint run (tr : trace) (m : KnxConnection.t) : result KnxConnection.t :=
  match tr with
  | [] => Ok m
  | (input, a) :: tr' =>
      r <- KnxConnection.handle input a m ;; run tr' (fst r)
  end.

(** The successful request/ACK round-trips along a run. *)
Fixpoint round_trips (tr : trace) (m : KnxConnection.t) : nat :=
  match tr with
  | [] => O
  | (input, a) :: tr' =>
      ((if successful_ack input a m then 1 else 0)
       + match KnxConnection.handle input a m with
         | Ok r => round_trips tr' (fst r)
         | Throw _ => O
         end)%nat
  end.

(** No input of the run takes the machine to [connected] again. *)
Fixpoint same_session (tr : trace) (m : KnxConnection.t) : bool :=
  match tr with
  | [] => true
  | (input, a) :: tr' =>
      negb (enters_connected input a m)
      && match KnxConnection.handle input a m with
         | Ok r => same_session tr' (fst r)
         | Throw _ => true
         end
  end.

(** The states the machine can be in: any input, packet or request, in any
    order, from a fresh machine. *)
Inductive reachable : KnxConnection.t -> Prop :=
| reach_initialize opts : reachable (KnxConnection.initialize opts)
| reach_handle m input a m' e :
    reachable m -> KnxConnection.handle input a m = Ok (m', e) ->
    reachable m'
| reach_control m msg from m' e :
    reachable m -> KnxConnection.control_message msg from m = Ok (m', e) ->
    reachable m'
| reach_discover m msg from m' e :
    reachable m -> KnxConnection.discover_message msg from m = Ok (m', e) ->
    reachable m'
| reach_read m addr m' e :
    reachable m -> KnxConnection.read addr m = Ok (m', e) -> reachable m'
| reach_writeRaw m addr value bitlength m' e :
    reachable m ->
    KnxConnection.writeRaw addr value bitlength m = Ok (m', e) ->
    reachable m'.

(** Both sequence counters are 8-bit numbers. *)
Definition counters_in_range (m : KnxConnection.t) : Prop :=
  0 <= KnxConnection._inboundSeqNum m <= 255
  /\ 0 <= KnxConnection._outboundSeqNum m <= 255.

(** The inbound counter stays, advances, or is reset. *)
Definition inbound_step (m m' : KnxConnection.t) : Prop :=
  KnxConnection._inboundSeqNum m' = KnxConnection._inboundSeqNum m
  \/ KnxConnection._inboundSeqNum m'
     = Z.rem (KnxConnection._inboundSeqNum m + 1) 256
  \/ KnxConnection._inboundSeqNum m' = 0.

(** ** A session, from discovery to two acknowledged requests *)

Definition search_response : KNXNetHeader.t :=
  KNXNetHeader.set_devinfo
    (DIBdevinfo.mk 54 1 [] "1.1.220" "000102030405" "gateway")
    (KNXNetHeader.set_hpai (HPAI.mk (Some 8) 1 "192.168.1.10:3671")
       (KNXNetHeader.header 6 16 SERVICE_TYPE.SEARCH_RESPONSE (Some 68))).

Definition connect_frame : KNXNetHeader.t :=
  KNXNetHeader.set_connstate (ConnState.mk (Some 7) (Some 0) None)
    (KNXNetHeader.header 6 16 SERVICE_TYPE.CONNECT_RESPONSE (Some 8)).

Definition connecting_trace : trace :=
  [ ("startsearch", KnxConnection.nothing);
    ("startsearch", KnxConnection.nothing);
    ("inbound_SEARCH_RESPONSE", KnxConnection.frame search_response);
    ("inbound_CONNECT_RESPONSE", KnxConnection.frame connect_frame) ].

Definition or_initial (r : result KnxConnection.t) : KnxConnection.t :=
  match r with
  | Ok m => m
  | Throw _ => KnxConnection.initialize no_options
  end.

(** The machine right after it entered [connected], on channel 7. *)
Definition connected_machine : KnxConnection.t :=
  or_initial (run connecting_trace (KnxConnection.initialize no_options)).

Definition two_requests : trace :=
  [ ("outbound_TUNNELING_REQUEST", KnxConnection.request first_request);
    ("inbound_TUNNELING_ACK", KnxConnection.frame (ack_frame 7 0));
    ("timeout", KnxConnection.nothing);
    ("outbound_TUNNELING_REQUEST", KnxConnection.request first_request);
    ("inbound_TUNNELING_ACK", KnxConnection.frame (ack_frame 7 1)) ].

(** A group write from 1.1.1 to 0/1/2 carrying 0x42, numbered 0. *)
Definition inbound_apdu : APDU.t :=
  APDU.mk (Some 2) (Some (buffer [0x00; 0x80; 0x42])) 0 "GroupValue_Write"
    (Buf (buffer [0x42])) None.

Definition inbound_cemi : CEMI.t :=
  CEMI.mk MESSAGECODES.L_Data_ind (Some 0)
    (Some (Ctrl.mk 1 0 1 1 3 0 0 1 6 0)) "1.1.1" "0/1/2" (Some inbound_apdu).

Definition inbound_tunnstate : TunnState.t :=
  TunnState.mk (Some 4) (Some 7) (Some 0) (Some 0) None.

Definition inbound_write : KNXNetHeader.t :=
  KNXNetHeader.set_cemi inbound_cemi
    (KNXNetHeader.set_tunnstate inbound_tunnstate
       (KNXNetHeader.header 6 16 SERVICE_TYPE.TUNNELING_REQUEST (Some 22))).

(** ** Reading back what was written *)

(** [decodes n r bs a]: wherever the bytes [bs] sit in a buffer of at least
    [n] bytes, the reader [r] placed at their start consumes exactly them
    and yields [a]. *)
Definition decodes {A : Type} (n : nat) (r : Reader.t A) (bs : Buffer.t)
    (a : A) : Prop :=
  forall pre post,
    (n <= List.length (pre ++ bs ++ post))%nat ->
    r (pre ++ bs ++ post) (List.length pre)
    = Reader.Value a (List.length pre + List.length bs)%nat.

(** The 16-bit word of an APDU, as the spec writes it. *)
Definition apdu_word (tpci apci data6 : Z) : Z :=
  Z.lor (Z.lor (Z.shiftl tpci 10) (Z.shiftl apci 6)) data6.

(** Big-endian bytes of a 16-bit word. *)
Definition be16 (w : Z) : Buffer.t :=
  [Buffer.of_Z (Z.shiftr w 8); Buffer.of_Z (Z.land w 0xFF)].

(** ** Frames the reader can return *)

(** No character of [s] is a separator. *)
Fixpoint free (sep : ascii -> bool) (s : string) : bool :=
  match s with
  | EmptyString => true
  | String c s' => negb (sep c) && free sep s'
  end.

(** A separator never occurs in a printed number. *)
Definition separator (sep : ascii -> bool) : Prop :=
  forall d, free sep (NilEmpty.string_of_uint d) = true.

Definition port_bytes (port : Z) : Buffer.t :=
  [Buffer.of_Z (port / 256); Buffer.of_Z (port mod 256)].

Definition byte_value (x : Z) : Prop := 0 <= x <= 255.

(** An endpoint in the text the reader prints: four octets and a port. *)
Definition endpoint_text (s : string) : Prop :=
  exists a b c d port,
    0 <= port <= 65535 /\ s = IPv4Endpoint.show [a; b; c; d] port.

(** An address in the text the reader prints for two bytes. *)
Definition address_text (kind : Z) (flag : bool) (s : string) : Prop :=
  exists h l, KnxAddress.toString [h; l] kind flag = Ok s.

Definition hpai_shaped (h : HPAI.t) : Prop :=
  byte_value (HPAI.protocolType h)
  /\ HPAI.protocolType h <> PROTOCOL_TYPE.IPV4_TCP
  /\ endpoint_text (HPAI.tunnelEndpoint h).

Definition cri_shaped (c : CRI.t) : Prop :=
  (CRI.connectionType c = CONNECTION_TYPE.DEVICE_MGMT_CONNECTION
   \/ CRI.connectionType c = CONNECTION_TYPE.TUNNEL_CONNECTION)
  /\ byte_value (CRI.knxLayer c) /\ byte_value (CRI.unused c).

Definition connstate_shaped (cs : ConnState.t) : Prop :=
  exists c s,
    ConnState.channelId cs = Some c /\ ConnState.status cs = Some s
    /\ ConnState.state cs = None /\ byte_value c /\ byte_value s.

Definition tunnstate_shaped (ts : TunnState.t) : Prop :=
  exists c q s,
    TunnState.channelId ts = Some c /\ TunnState.seqnum ts = Some q
    /\ TunnState.status ts = Some s /\ TunnState.tunnelEndpoint ts = None
    /\ byte_value c /\ byte_value q /\ byte_value s.

Definition ctrl_shaped (k : Ctrl.t) : Prop :=
  0 <= Ctrl.frameType k <= 1 /\ 0 <= Ctrl.reserved k <= 1
  /\ 0 <= Ctrl.repeat k <= 1 /\ 0 <= Ctrl.broadcast k <= 1
  /\ 0 <= Ctrl.priority k <= 3 /\ 0 <= Ctrl.acknowledge k <= 1
  /\ 0 <= Ctrl.confirm k <= 1 /\ 0 <= Ctrl.destAddrType k <= 1
  /\ 0 <= Ctrl.hopCount k <= 7 /\ 0 <= Ctrl.extendedFrame k <= 15.

(** The reader always returns the payload as a buffer. *)
Definition apdu_shaped (a : APDU.t) : Prop :=
  0 <= APDU.tpci a < 64 /\ known_apci a /\ APDU.bitlength a = None
  /\ exists b, APDU.data a = Buf b /\ (1 <= List.length b <= 14)%nat.

Definition cemi_shaped (flag : bool) (c : CEMI.t) : Prop :=
  byte_value (CEMI.msgcode c)
  /\ (exists l, CEMI.addinfoLength c = Some l /\ byte_value l)
  /\ (exists k, CEMI.ctrl c = Some k /\ ctrl_shaped k
                /\ address_text (Ctrl.destAddrType k) flag (CEMI.destAddr c))
  /\ address_text KnxAddress.TYPE.PHYSICAL flag (CEMI.srcAddr c)
  /\ (if one_of (CEMI.msgcode c) L_Data
      then exists a, CEMI.apdu c = Some a /\ apdu_shaped a
      else CEMI.apdu c = None).

Definition optional {A : Type} (P : A -> Prop) (o : option A) : Prop :=
  match o with Some a => P a | None => True end.

Definition present {A : Type} (P : A -> Prop) (o : option A) : Prop :=
  match o with Some a => P a | None => False end.

(** A frame that carries exactly the sub-structures the reader collects for
    its service type, every field populated and in the range of its wire
    field, endpoints and addresses in the text the reader prints. *)
Definition reader_shaped (flag : bool) (v : KNXNetHeader.t) : Prop :=
  let st := KNXNetHeader.serviceType v in
  KNXNetHeader.devinfo v = None /\ KNXNetHeader.value v = None
  /\ (((st = SERVICE_TYPE.SEARCH_REQUEST
        \/ st = SERVICE_TYPE.CONNECT_REQUEST)
       /\ present hpai_shaped (KNXNetHeader.hpai v)
       /\ present hpai_shaped (KNXNetHeader.tunn v)
       /\ present cri_shaped (KNXNetHeader.cri v)
       /\ KNXNetHeader.connstate v = None
       /\ KNXNetHeader.tunnstate v = None /\ KNXNetHeader.cemi v = None)
      \/ (In st [SERVICE_TYPE.CONNECT_RESPONSE;
                 SERVICE_TYPE.CONNECTIONSTATE_REQUEST;
                 SERVICE_TYPE.CONNECTIONSTATE_RESPONSE;
                 SERVICE_TYPE.DISCONNECT_REQUEST]
          /\ present connstate_shaped (KNXNetHeader.connstate v)
          /\ optional hpai_shaped (KNXNetHeader.hpai v)
          /\ optional cri_shaped (KNXNetHeader.cri v)
          /\ (KNXNetHeader.hpai v = None -> KNXNetHeader.cri v = None)
          /\ KNXNetHeader.tunn v = None
          /\ KNXNetHeader.tunnstate v = None /\ KNXNetHeader.cemi v = None)
      \/ (st = SERVICE_TYPE.TUNNELING_REQUEST
          /\ present tunnstate_shaped (KNXNetHeader.tunnstate v)
          /\ present (cemi_shaped flag) (KNXNetHeader.cemi v)
          /\ KNXNetHeader.hpai v = None /\ KNXNetHeader.tunn v = None
          /\ KNXNetHeader.cri v = None /\ KNXNetHeader.connstate v = None)
      \/ (st = SERVICE_TYPE.TUNNELING_ACK
          /\ present tunnstate_shaped (KNXNetHeader.tunnstate v)
          /\ KNXNetHeader.cemi v = None
          /\ KNXNetHeader.hpai v = None /\ KNXNetHeader.tunn v = None
          /\ KNXNetHeader.cri v = None /\ KNXNetHeader.connstate v = None)
      \/ (st = SERVICE_TYPE.ROUTING_INDICATION
          /\ present (cemi_shaped flag) (KNXNetHeader.cemi v)
          /\ KNXNetHeader.tunnstate v = None
          /\ KNXNetHeader.hpai v = None /\ KNXNetHeader.tunn v = None
          /\ KNXNetHeader.cri v = None /\ KNXNetHeader.connstate v = None)).

(** ** What the reader fills in *)

Definition canonical_hpai (h : HPAI.t) : HPAI.t :=
  HPAI.mk (Some 8) (HPAI.protocolType h) (HPAI.tunnelEndpoint h).

Definition canonical_cri (c : CRI.t) : CRI.t :=
  CRI.mk (Some 4) (CRI.connectionType c) (CRI.knxLayer c) (CRI.unused c).

Definition canonical_tunnstate (ts : TunnState.t) : TunnState.t :=
  TunnState.mk (Some 4) (TunnState.channelId ts) (TunnState.seqnum ts)
    (TunnState.status ts) (TunnState.tunnelEndpoint ts).

Definition apci_code (a : APDU.t) : Z :=
  match JS.index_of (APDU.apci a) APCICODES with
  | Some i => Z.of_nat i
  | None => 0
  end.

(** The bytes of an APDU after its length byte. *)
Definition apdu_raw (a : APDU.t) : Buffer.t :=
  match APDU.data a with
  | Buf [x] =>
      if Buffer.to_Z x <=? 63
      then be16 (apdu_word (APDU.tpci a) (apci_code a) (Buffer.to_Z x))
      else be16 (apdu_word (APDU.tpci a) (apci_code a) 0) ++ [x]
  | Buf b => be16 (apdu_word (APDU.tpci a) (apci_code a) 0) ++ b
  | _ => []
  end.

Definition canonical_apdu (a : APDU.t) : APDU.t :=
  APDU.mk (Some (Z.of_nat (List.length (apdu_raw a)) - 1))
    (Some (apdu_raw a)) (APDU.tpci a) (APDU.apci a) (APDU.data a)
    (APDU.bitlength a).

Definition canonical_cemi (c : CEMI.t) : CEMI.t :=
  CEMI.mk (CEMI.msgcode c) (CEMI.addinfoLength c) (CEMI.ctrl c)
    (CEMI.srcAddr c) (CEMI.destAddr c)
    (option_map canonical_apdu (CEMI.apdu c)).

(** The frame with everything the reader fills in: the header constants and
    the total length, the length bytes of HPAI, CRI and TunnState, the length
    and the raw bytes of the APDU. *)
Definition canonical (total : Z) (v : KNXNetHeader.t) : KNXNetHeader.t :=
  KNXNetHeader.mk 6 0x10 (KNXNetHeader.serviceType v) (Some total)
    (option_map canonical_hpai (KNXNetHeader.hpai v))
    (option_map canonical_hpai (KNXNetHeader.tunn v))
    (option_map canonical_cri (KNXNetHeader.cri v))
    (KNXNetHeader.connstate v)
    (option_map canonical_tunnstate (KNXNetHeader.tunnstate v))
    (option_map canonical_cemi (KNXNetHeader.cemi v))
    (KNXNetHeader.devinfo v) (KNXNetHeader.value v).

(** The six header bytes followed by a body. *)
Definition framed (st total : Z) (body : Buffer.t) : Buffer.t :=
  [Buffer.of_Z 6] ++ [Buffer.of_Z 0x10]
  ++ [Buffer.of_Z (st / 256); Buffer.of_Z (st mod 256)]
  ++ [Buffer.of_Z (total / 256); Buffer.of_Z (total mod 256)] ++ body.

(** The specification's canonicalisation, in its own words: two frames are
    the same when they agree once HPAI.length, CRI.length and the header
    constants are forgotten. *)
Definition up_to_defaults (v : KNXNetHeader.t) : KNXNetHeader.t :=
  let hpai h := HPAI.mk None (HPAI.protocolType h) (HPAI.tunnelEndpoint h) in
  let cri c :=
    CRI.mk None (CRI.connectionType c) (CRI.knxLayer c) (CRI.unused c) in
  KNXNetHeader.mk 6 0x10 (KNXNetHeader.serviceType v) None
    (option_map hpai (KNXNetHeader.hpai v))
    (option_map hpai (KNXNetHeader.tunn v))
    (option_map cri (KNXNetHeader.cri v))
    (KNXNetHeader.connstate v) (KNXNetHeader.tunnstate v)
    (KNXNetHeader.cemi v) (KNXNetHeader.devinfo v) (KNXNetHeader.value v).

(** The acknowledgement of sequence number 0 on channel 7, as the builder
    makes it and [setSeqNum] numbers it. *)
Definition acknowledgement : KNXNetHeader.t :=
  match
    (dg <- KnxDatagram.fromServiceRequest SERVICE_TYPE.TUNNELING_ACK
             no_options (Some gateway) (Some 7) O ;;
     dg <- KnxDatagram.setSeqNum 0 dg ;;
     Ok (KnxDatagram.datagram dg))
  with
  | Ok (Some d) => d
  | _ => KNXNetHeader.header 6 16 SERVICE_TYPE.TUNNELING_ACK None
  end.

(** A group write of one byte to 1/2/3, as the reader returns it apart from
    the fields it fills in. *)
Definition group_write : KNXNetHeader.t :=
  KNXNetHeader.mk 6 16 SERVICE_TYPE.TUNNELING_REQUEST None None None None None
    (Some (TunnState.mk None (Some 7) (Some 0) (Some 0) None))
    (Some (CEMI.mk MESSAGECODES.L_Data_req (Some 0)
             (Some (Ctrl.mk 1 0 1 1 3 0 0 1 6 0))
             "1.1.1" "1/2/3"
             (Some (APDU.mk None None 0 "GroupValue_Write"
                      (Buf [Buffer.of_Z 1]) None))))
    None None.

(** ** Readers in place, and the frames the writer counts *)

(** [reads_at r pre bs post res]: placed after [pre] in the buffer
    [pre ++ bs ++ post], the reader [r] consumes exactly [bs] and yields the
    value [res], or throws the exception [res]. *)
Definition reads_at {A : Type} (r : Reader.t A) (pre bs post : Buffer.t)
    (res : result A) : Prop :=
  r (pre ++ bs ++ post) (List.length pre)
  = match res with
    | Ok a => Reader.Value a (List.length pre + List.length bs)%nat
    | Throw e => Reader.Raise e
    end.

(** No byte of [b] is zero. *)
Definition zero_free (b : Buffer.t) : bool :=
  forallb (fun x => negb (Buffer.to_Z x =? 0)) b.

(** The description a gateway named "gateway" at 1.1.220 sends. *)
Definition gateway_name : Buffer.t :=
  buffer [0x67; 0x61; 0x74; 0x65; 0x77; 0x61; 0x79].

Definition gateway_description : Buffer.t :=
  buffer [54; 1; 2; 0; 0x11; 0xDC; 0; 0; 0; 1; 2; 3; 4; 5;
          224; 0; 23; 12; 0; 1; 2; 3; 4; 5]
  ++ gateway_name ++ repeat x00 23.

(** The service types the reader has a case for. *)
Definition read_cases : list Z :=
  [ SERVICE_TYPE.SEARCH_REQUEST; SERVICE_TYPE.CONNECT_REQUEST;
    SERVICE_TYPE.SEARCH_RESPONSE; SERVICE_TYPE.CONNECT_RESPONSE;
    SERVICE_TYPE.CONNECTIONSTATE_REQUEST;
    SERVICE_TYPE.CONNECTIONSTATE_RESPONSE; SERVICE_TYPE.DISCONNECT_REQUEST;
    SERVICE_TYPE.DISCONNECT_RESPONSE; SERVICE_TYPE.DESCRIPTION_RESPONSE;
    SERVICE_TYPE.TUNNELING_REQUEST; SERVICE_TYPE.TUNNELING_ACK;
    SERVICE_TYPE.ROUTING_INDICATION ].

(** The service types the writer has a case for. *)
Definition write_cases : list Z :=
  [ SERVICE_TYPE.SEARCH_REQUEST; SERVICE_TYPE.CONNECT_REQUEST;
    SERVICE_TYPE.SEARCH_RESPONSE; SERVICE_TYPE.CONNECT_RESPONSE;
    SERVICE_TYPE.CONNECTIONSTATE_REQUEST;
    SERVICE_TYPE.CONNECTIONSTATE_RESPONSE; SERVICE_TYPE.DISCONNECT_REQUEST;
    SERVICE_TYPE.ROUTING_INDICATION; SERVICE_TYPE.TUNNELING_ACK;
    SERVICE_TYPE.TUNNELING_REQUEST ].

(** A DISCONNECT_RESPONSE for channel 7, as the reader returns it. *)
Definition disconnect_response : KNXNetHeader.t :=
  KNXNetHeader.set_connstate (ConnState.mk (Some 7) (Some 0) None)
    (KNXNetHeader.header 6 16 SERVICE_TYPE.DISCONNECT_RESPONSE (Some 8)).

(** The APDU of a CEMI frame is what the length walk counts: absent
    unless the message code is L_Data, and then of a known APCI and without
    a bit length. *)
Definition counted_cemi (c : CEMI.t) : Prop :=
  if one_of (CEMI.msgcode c) L_Data
  then optional (fun a => known_apci a /\ no_bitlength a) (CEMI.apdu c)
  else CEMI.apdu c = None.

(** Nothing in the frame is written without being counted: a
    ROUTING_INDICATION has no TunnState, and the CEMI frame of a tunneling or
    routing frame is a counted one. *)
Definition counted (v : KNXNetHeader.t) : Prop :=
  (KNXNetHeader.serviceType v = SERVICE_TYPE.ROUTING_INDICATION ->
   KNXNetHeader.tunnstate v = None)
  /\ (one_of (KNXNetHeader.serviceType v)
        [SERVICE_TYPE.ROUTING_INDICATION; SERVICE_TYPE.TUNNELING_ACK;
         SERVICE_TYPE.TUNNELING_REQUEST] = true ->
      optional counted_cemi (KNXNetHeader.cemi v)).

(** The TUNNELING_ACK skeleton for channel 7. *)
Definition acknowledged_skeleton : KnxDatagram.t :=
  or_fresh (KnxDatagram.fromServiceRequest SERVICE_TYPE.TUNNELING_ACK
              no_options (Some gateway) (Some 7) O).

(** The APDU every CEMI skeleton starts from. *)
Definition default_apdu : APDU.t :=
  APDU.mk None None 0 "GroupValue_Write" (Num 0) None.

End Scenario.

(** * The session of a connection

    The fields that make up a session, the states it goes through, and the
    packets the machine sends on its own. *)

Module Session.

Import KnxConstants KnxProtocol Scenario KnxConnection.

(** Where a transition ends: [connected] and the inbound state move on by
    themselves. *)
Definition settle (target current : state_name) : state_name :=
  if state_eqb target current then current
  else match target with
       | connected => online
       | inbound_TUNNELING_REQUEST_L_Data => waiting
       | s => s
       end.

Definition entering (target : state_name) (m : t) (s : state_name) : bool :=
  state_eqb target s && negb (state_eqb (state m) s).

(** What a transition does to the fields that control the session. *)
Definition transition_fields (target : state_name) (m m' : t) : Prop :=
  state m' = settle target (state m)
  /\ _options m' = _options m
  /\ _connectionHeartbeatFailures m'
     = (if entering target m connected then 0
        else _connectionHeartbeatFailures m)
  /\ _channelID m' = (if entering target m idle then None else _channelID m)
  /\ _controlSocket m'
     = (if entering target m idle then false
        else if entering target m connecting then true
             else _controlSocket m)
  /\ (if entering target m searching then True
      else _discoverSocket m'
           = (if state_eqb (state m) searching
                 && negb (state_eqb target searching)
              then false else _discoverSocket m)).

(** What entering a state that stays does to the session fields. *)
Definition entered_fields (m m' : t) : Prop :=
  state m' = state m /\ _options m' = _options m
  /\ _connectionHeartbeatFailures m' = _connectionHeartbeatFailures m
  /\ _channelID m'
     = (if state_eqb (state m) idle then None else _channelID m)
  /\ _controlSocket m'
     = (if state_eqb (state m) idle then false
        else if state_eqb (state m) connecting then true
             else _controlSocket m)
  /\ (if state_eqb (state m) searching then True
      else _discoverSocket m' = _discoverSocket m).

(** The states of an established session, and those before it. *)
Definition in_session (s : state_name) : bool :=
  match s with
  | connected | waiting | online | inbound_TUNNELING_REQUEST_L_Data
  | outbound_CONNECTIONSTATE_REQUEST | outbound_TUNNELING_REQUEST => true
  | _ => false
  end.

Definition before_session (s : state_name) : bool :=
  match s with
  | uninitialized | idle | searching | connecting => true
  | _ => false
  end.

Definition session_invariant (m : t) : Prop :=
  0 <= _connectionHeartbeatFailures m <= 4
  /\ (in_session (state m) = true -> _connectionHeartbeatFailures m <= 3)
  /\ (before_session (state m) = true -> _channelID m = None)
  /\ (_discoverSocket m = true -> state m = searching)
  /\ (_controlSocket m = true -> before_session (state m) = true ->
      state m = connecting).

(** A DISCONNECT_REQUEST for a channel, as the machine sends it. *)
Definition disconnect_packet (channel : Z) : Buffer.t :=
  buffer [0x06; 0x10; 0x02; 0x09; 0x00; 0x10; channel; 0x00;
          0x08; 0x01; 0; 0; 0; 0; 0; 0].

(** What a response to the heartbeat says: alive, lost (no answer in time
    or an error status), or nothing the handler can read. *)
Definition heartbeat_answer (a : arg) : option bool :=
  match a with
  | null => Some false
  | frame d =>
      match KNXNetHeader.connstate d with
      | Some cs => Some (is_NO_ERROR (responseCode (ConnState.status cs)))
      | None => None
      end
  | _ => None
  end.

(** An answer that leaves the request in flight unacknowledged: the timer
    gave up ([null]), or the ACK numbers the request but reports an error;
    the value is the response code handed to the caller. *)
Definition unacknowledged (a : arg) (m : t) : option (option string) :=
  match a with
  | null => Some None
  | frame d =>
      match KNXNetHeader.tunnstate d with
      | Some ts =>
          if JS.strict_eq (TunnState.seqnum ts) (_outboundSeqNum m) then
            let code := responseCode (TunnState.status ts) in
            if is_NO_ERROR code then None else Some code
          else None
      | None => None
      end
  | _ => None
  end.

(** A DISCONNECT_REQUEST for channel 7 from 192.168.1.10:3671. *)
Definition disconnect_request : Buffer.t :=
  buffer [0x06; 0x10; 0x02; 0x09; 0x00; 0x10; 0x07; 0x00;
          0x08; 0x01; 192; 168; 1; 10; 0x0E; 0x57].

(** The dotted text of four octets. *)
Definition dotted (addr : Buffer.t) : string :=
  String.concat "." (map (fun b => JS.dec (Buffer.to_Z b)) addr).

(** The CONNECT_REQUEST the machine sends: two HPAI 0.0.0.0:0 and the CRI
    of a link-layer tunnel. *)
Definition connect_packet : Buffer.t :=
  buffer [0x06; 0x10; 0x02; 0x05; 0x00; 0x1A;
          0x08; 0x01; 0; 0; 0; 0; 0; 0;
          0x08; 0x01; 0; 0; 0; 0; 0; 0;
          0x04; 0x04; 0x02; 0x00].

(** ** Machines along a session *)

(** The machine while it searches for a gateway. *)
Definition searching_machine : t :=
  or_initial (run [("startsearch", nothing); ("startsearch", nothing)]
                (initialize no_options)).

(** The online machine after three heartbeats in a row without an answer. *)
Definition unanswered : t :=
  or_initial (run [("outbound_CONNECTIONSTATE_REQUEST", nothing);
                   ("inbound_CONNECTIONSTATE_RESPONSE", null);
                   ("inbound_CONNECTIONSTATE_RESPONSE", null);
                   ("inbound_CONNECTIONSTATE_RESPONSE", null)]
                connected_machine).

(** The machine back in idle after the caller disconnected from a session
    and the gateway did not answer. *)
Definition disconnected : t :=
  or_initial (run [("disconnect", nothing); ("timeout", nothing)]
                connected_machine).

(** The machine with its first request on the wire. *)
Definition requesting : t :=
  or_initial (run [("outbound_TUNNELING_REQUEST", request first_request)]
                connected_machine).

(** ** What the control listener relies on *)

(** A machine that waits for an ACK holds the request it waits for. *)
Definition outbound_kept (m : t) : Prop :=
  state m = outbound_TUNNELING_REQUEST -> _outboundDatagram m <> None.

(** What the handlers read in a frame of each service type. *)
Definition carries (d : KNXNetHeader.t) : Prop :=
  let st := KNXNetHeader.serviceType d in
  (st = SERVICE_TYPE.SEARCH_RESPONSE ->
   KNXNetHeader.hpai d <> None /\ KNXNetHeader.devinfo d <> None)
  /\ (st = SERVICE_TYPE.CONNECT_RESPONSE
      \/ st = SERVICE_TYPE.CONNECTIONSTATE_RESPONSE ->
      KNXNetHeader.connstate d <> None)
  /\ (st = SERVICE_TYPE.TUNNELING_ACK
      \/ st = SERVICE_TYPE.TUNNELING_REQUEST ->
      KNXNetHeader.tunnstate d <> None)
  /\ (st = SERVICE_TYPE.TUNNELING_REQUEST ->
      exists c, KNXNetHeader.cemi d = Some c
                /\ (one_of (CEMI.msgcode c) L_Data = true ->
                    CEMI.apdu c <> None)).

(** ** Requests, the search and the end of a session *)

(** The source address of the frames a machine builds. *)
Definition source_address (opts : KnxDatagram.options) : string :=
  match KnxDatagram.physAddr opts with
  | Some a => if String.eqb a "" then "15.15.15" else a
  | None => "15.15.15"
  end.

(** The first control byte of the frames a machine builds: standard frame,
    no repetition, broadcast, low priority, and the acknowledge bit unless
    it is suppressed. *)
Definition request_control (opts : KnxDatagram.options) : Z :=
  if KnxDatagram.or_default (KnxDatagram.suppress_ack_ldatareq opts) true
  then 0xBC else 0xBE.

(** A TUNNELING_REQUEST on the wire: the header announcing [total] bytes,
    the TunnState, and an L_Data.req frame to a group address. *)
Definition request_packet (channel seqnum control total : Z)
    (src dest apdu : Buffer.t) : Buffer.t :=
  buffer [0x06; 0x10; 0x04; 0x20; total / 256; total mod 256;
          0x04; channel; seqnum; 0x00; 0x11; 0x00; control; 0xE0]
  ++ src ++ dest ++ apdu.

(** The APDU of a raw write. *)
Definition raw_apdu (value : Buffer.t) (bitlength : option Z) : APDU.t :=
  APDU.mk None None 0 "GroupValue_Write" (Buf value)
    (Some (JS.or_num bitlength (Z.of_nat (List.length value) * 8))).

(** What a request puts on the wire when the machine hands it to the
    socket: nothing if the writer refuses an address. *)
Definition request_on_wire (m : t) (g : string) (len : Z) (apdu : Buffer.t)
  : list (socket * endpoint * Buffer.t) :=
  match KnxAddress.parse (source_address (_options m))
          KnxAddress.TYPE.PHYSICAL (flag m),
        KnxAddress.parse g KnxAddress.TYPE.GROUP (flag m) with
  | Ok src, Ok dest =>
      [(controlSocket, _remoteControlEndpoint m,
        request_packet (JS.to_number (_channelID m)) (_outboundSeqNum m)
          (request_control (_options m)) (18 + len) src dest apdu)]
  | _, _ => []
  end.

(** Until when a request made in state [s] is put aside; [None] when it is
    not put aside at all. *)
Definition put_aside (s : state_name) : option (option state_name) :=
  match s with
  | connected | waiting => Some (Some online)
  | inbound_TUNNELING_REQUEST_L_Data | outbound_CONNECTIONSTATE_REQUEST
  | outbound_TUNNELING_REQUEST => Some None
  | _ => None
  end.

(** What a request made outside [online] leaves behind. *)
Definition postponed (m : t) (dg : KnxDatagram.t) : list effect :=
  match put_aside (state m) with
  | Some until =>
      [deferUntilTransition "outbound_TUNNELING_REQUEST" (request dg) until]
  | None => []
  end.

(** The SEARCH_REQUEST of discovery: the header and the HPAI 0.0.0.0:0. *)
Definition search_packet : Buffer.t :=
  buffer [0x06; 0x10; 0x02; 0x01; 0x00; 0x0E;
          0x08; 0x01; 0; 0; 0; 0; 0; 0].

(** The caller named a gateway in options.remoteEndpoint. *)
Definition gateway_given (opts : KnxDatagram.options) : bool :=
  match KnxDatagram.remoteEndpoint opts with
  | Some (String _ _) => true
  | _ => false
  end.

(** What [disconnect] does in each state. *)
Inductive disconnect_fate : Type :=
| leaves | ignored | put_off (until : option state_name).

Definition disconnect_in (s : state_name) : disconnect_fate :=
  match s with
  | connecting | waiting | online => leaves
  | idle | searching | disconnecting => ignored
  | connected => put_off (Some online)
  | _ => put_off None
  end.

End Session.

(** * Properties *)

(** ** Bytes, words and the reader *)

Module BufferFacts.

Import Scenario.

Lemma to_Z_range (b : byte) : 0 <= Buffer.to_Z b <= 255.
Proof.
  unfold Buffer.to_Z. pose proof (Byte.to_N_bounded b). lia.
Qed.

Lemma of_to_Z (b : byte) : Buffer.of_Z (Buffer.to_Z b) = b.
Proof.
  unfold Buffer.of_Z, Buffer.to_Z. rewrite N2Z.id, Byte.of_to_N. reflexivity.
Qed.

Lemma to_of_Z (v : Z) : 0 <= v <= 255 -> Buffer.to_Z (Buffer.of_Z v) = v.
Proof.
  intros H. unfold Buffer.of_Z, Buffer.to_Z.
  destruct (Byte.of_N (Z.to_N v)) as [b|] eqn:E.
  - apply Byte.to_of_N in E. rewrite E. lia.
  - apply Byte.of_N_None_iff in E. lia.
Qed.

Lemma writeUInt8_ok (v : Z) :
  0 <= v <= 255 -> Buffer.writeUInt8 v = Ok [Buffer.of_Z v].
Proof.
  intros H. unfold Buffer.writeUInt8.
  destruct (Z.leb_spec 0 v), (Z.leb_spec v 255); try lia. reflexivity.
Qed.

Lemma writeUInt16BE_ok (v : Z) :
  0 <= v <= 65535 ->
  Buffer.writeUInt16BE v = Ok [Buffer.of_Z (v / 256); Buffer.of_Z (v mod 256)].
Proof.
  intros H. unfold Buffer.writeUInt16BE.
  destruct (Z.leb_spec 0 v), (Z.leb_spec v 65535); try lia. reflexivity.
Qed.

Lemma be16_div_mod (w : Z) :
  be16 w = [Buffer.of_Z (w / 256); Buffer.of_Z (w mod 256)].
Proof.
  unfold be16. rewrite Z.shiftr_div_pow2 by lia.
  change 0xFF with (Z.ones 8). rewrite Z.land_ones by lia. reflexivity.
Qed.

Lemma word_of_bytes (w : Z) :
  0 <= w <= 65535 ->
  Buffer.to_Z (Buffer.of_Z (w / 256)) * 256
  + Buffer.to_Z (Buffer.of_Z (w mod 256)) = w.
Proof.
  intros H.
  assert (0 <= w / 256 <= 255).
  { split; [apply Z.div_pos; lia|].
    enough (w / 256 < 256) by lia. apply Z.div_lt_upper_bound; lia. }
  pose proof (Z.mod_pos_bound w 256 ltac:(lia)).
  rewrite !to_of_Z by lia.
  pose proof (Z.div_mod w 256 ltac:(lia)). lia.
Qed.

(** Below [2^n], no bit of rank [n] or more is set. *)
Lemma land_shiftl_low (a b n : Z) :
  0 <= n -> 0 <= b < 2 ^ n -> Z.land (Z.shiftl a n) b = 0.
Proof.
  intros Hn Hb. apply Z.bits_inj'. intros k Hk.
  rewrite Z.land_spec, Z.bits_0.
  destruct (Z.ltb_spec k n).
  - rewrite Z.shiftl_spec_low by lia. reflexivity.
  - destruct (Z.eqb_spec b 0) as [->|Hz].
    + rewrite Z.bits_0. apply andb_false_r.
    + rewrite (Z.bits_above_log2 b k); [apply andb_false_r | lia |].
      apply Z.lt_le_trans with n; [|lia].
      apply Z.log2_lt_pow2; lia.
Qed.

Lemma lor_shiftl_low (a b n : Z) :
  0 <= n -> 0 <= b < 2 ^ n -> Z.lor (Z.shiftl a n) b = a * 2 ^ n + b.
Proof.
  intros Hn Hb.
  pose proof (Z.add_lor_land (Z.shiftl a n) b) as E.
  rewrite land_shiftl_low in E by assumption.
  assert (Z.shiftl a n + b = a * 2 ^ n + b) as <-
    by (rewrite Z.shiftl_mul_pow2 by assumption; reflexivity).
  rewrite Z.add_0_r in E. exact E.
Qed.

(** The packed word is the sum the writer computes. *)
Lemma apdu_word_sum (t i d : Z) :
  0 <= i < 16 -> 0 <= d < 64 ->
  apdu_word t i d = t * 0x400 + i * 0x40 + d.
Proof.
  intros Hi Hd. unfold apdu_word.
  assert (E : Z.lor (Z.shiftl t 10) (Z.shiftl i 6)
              = Z.shiftl (Z.lor (Z.shiftl t 4) i) 6).
  { rewrite Z.shiftl_lor, Z.shiftl_shiftl by lia. reflexivity. }
  rewrite E, lor_shiftl_low by (cbn; lia).
  rewrite lor_shiftl_low by (cbn; lia).
  change (2 ^ 4) with 16. change (2 ^ 6) with 64. lia.
Qed.

(** What [apduStruct] finds in such a word. *)
Lemma apdu_word_fields (t i d : Z) :
  0 <= t < 64 -> 0 <= i < 16 -> 0 <= d < 64 ->
  let w := t * 0x400 + i * 0x40 + d in
  0 <= w <= 65535
  /\ Z.shiftr w 10 = t
  /\ Z.land (Z.shiftr w 6) 0xF = i
  /\ Z.land w 0x3F = d.
Proof.
  intros Ht Hi Hd w. subst w.
  rewrite !Z.shiftr_div_pow2 by lia.
  change 0xF with (Z.ones 4). change 0x3F with (Z.ones 6).
  rewrite !Z.land_ones by lia.
  change (2 ^ 10) with 1024. change (2 ^ 6) with 64. change (2 ^ 4) with 16.
  repeat split; try lia.
  - symmetry. apply Z.div_unique with (r := i * 64 + d); lia.
  - assert ((t * 1024 + i * 64 + d) / 64 = t * 16 + i) as ->
      by (symmetry; apply Z.div_unique with (r := d); lia).
    symmetry. apply Z.mod_unique with (q := t); lia.
  - symmetry. apply Z.mod_unique with (q := t * 16 + i); lia.
Qed.

End BufferFacts.

Module ReaderFacts.

Import Scenario BufferFacts.

Lemma skipn_prefix {A : Type} (pre l : list A) :
  skipn (List.length pre) (pre ++ l) = l.
Proof. induction pre as [|x pre IH]; [reflexivity | exact IH]. Qed.

Lemma firstn_prefix {A : Type} (l post : list A) :
  firstn (List.length l) (l ++ post) = l.
Proof.
  induction l as [|x l IH]; [reflexivity | cbn; rewrite IH; reflexivity].
Qed.

Lemma decodes_ret {A : Type} (n : nat) (a : A) : decodes n (Reader.ret a) [] a.
Proof.
  intros pre post _. unfold Reader.ret. cbn. rewrite Nat.add_0_r. reflexivity.
Qed.

Lemma decodes_bind {A B : Type} (n : nat) (r : Reader.t A)
    (k : A -> Reader.t B) (b1 b2 : Buffer.t) (a : A) (c : B) :
  decodes n r b1 a -> decodes n (k a) b2 c ->
  decodes n (Reader.rbind r k) (b1 ++ b2) c.
Proof.
  intros H1 H2 pre post Hn. unfold Reader.rbind.
  rewrite <- (app_assoc b1 b2 post).
  rewrite <- (app_assoc b1 b2 post) in Hn.
  rewrite (H1 pre (b2 ++ post) Hn).
  pose proof (H2 (pre ++ b1) post) as E.
  rewrite <- (app_assoc pre b1) in E. rewrite !length_app in E.
  rewrite E.
  - rewrite length_app, Nat.add_assoc. reflexivity.
  - rewrite !length_app in Hn. lia.
Qed.

Lemma decodes_last {A B : Type} (n : nat) (r : Reader.t A)
    (k : A -> Reader.t B) (bs : Buffer.t) (a : A) (c : B) :
  decodes n r bs a -> decodes n (k a) [] c ->
  decodes n (Reader.rbind r k) bs c.
Proof.
  intros H1 H2. rewrite <- (app_nil_r bs). eapply decodes_bind; eassumption.
Qed.

Lemma decodes_raw (n k : nat) (bs : Buffer.t) :
  List.length bs = Nat.max 1 k -> decodes n (Reader.raw k) bs bs.
Proof.
  intros L pre post _. unfold Reader.raw. cbv zeta. rewrite <- L.
  rewrite !length_app.
  destruct (Nat.leb_spec (List.length pre + List.length bs)
              (List.length pre + (List.length bs + List.length post)));
    [|lia].
  rewrite skipn_prefix, firstn_prefix. reflexivity.
Qed.

Lemma decodes_UInt8 (n : nat) (v : Z) :
  0 <= v <= 255 -> decodes n Reader.UInt8 [Buffer.of_Z v] v.
Proof.
  intros Hv pre post Hn. unfold Reader.UInt8, Reader.rbind.
  rewrite (decodes_raw n 1 [Buffer.of_Z v] eq_refl pre post Hn).
  unfold Reader.ret. rewrite to_of_Z by assumption. reflexivity.
Qed.

Lemma decodes_UInt16BE (n : nat) (w : Z) :
  0 <= w <= 65535 ->
  decodes n Reader.UInt16BE [Buffer.of_Z (w / 256); Buffer.of_Z (w mod 256)] w.
Proof.
  intros Hw pre post Hn. unfold Reader.UInt16BE, Reader.rbind.
  rewrite (decodes_raw n 2 [Buffer.of_Z (w / 256); Buffer.of_Z (w mod 256)]
             eq_refl pre post Hn).
  unfold Reader.ret. rewrite word_of_bytes by assumption. reflexivity.
Qed.

Lemma decodes_buffer_length {B : Type} (n : nat) (k : Z -> Reader.t B)
    (bs : Buffer.t) (c : B) :
  (forall len, Z.of_nat n <= len -> decodes n (k len) bs c) ->
  decodes n (Reader.rbind Reader.buffer_length k) bs c.
Proof.
  intros H pre post Hn. unfold Reader.rbind, Reader.buffer_length.
  apply H; [lia | assumption].
Qed.

Lemma decodes_run {A : Type} (r : Reader.t A) (bs : Buffer.t) (a : A) :
  decodes (List.length bs) r bs a -> Reader.run r bs = Ok a.
Proof.
  intros H. unfold Reader.run, Reader.next.
  pose proof (H [] []) as E. cbn [app List.length] in E.
  rewrite app_nil_r in E. rewrite E; [reflexivity | lia].
Qed.

Lemma decodes_weaken {A : Type} (n m : nat) (r : Reader.t A) (bs : Buffer.t)
    (a : A) :
  (n <= m)%nat -> decodes n r bs a -> decodes m r bs a.
Proof. intros L H pre post Hm. apply H. lia. Qed.

End ReaderFacts.

Module KnxDatagramFacts.

Import KnxConstants KnxProtocol Scenario.

Lemma the_tunnstate_set n dg dg' :
  KnxDatagram.setSeqNum n dg = Ok dg' ->
  exists d ts, KnxDatagram.the_tunnstate dg' = Ok (d, ts)
               /\ TunnState.seqnum ts = Some n.
Proof.
  unfold KnxDatagram.setSeqNum, KnxDatagram.the_tunnstate.
  destruct (KnxDatagram.datagram dg) as [d|]; [|discriminate].
  destruct (KNXNetHeader.tunnstate d) as [ts|]; [|discriminate].
  cbn. intros H. injection H as <-. cbn. eauto.
Qed.

(** C10: once the sequence number of a datagram has been set to 0,
    [getSeqNum] answers -1; it answers the stored number when that number
    is not 0. *)
Theorem getSeqNum_after_setSeqNum (n : Z) (dg dg' : KnxDatagram.t) :
  KnxDatagram.setSeqNum n dg = Ok dg' ->
  (n = 0 -> KnxDatagram.getSeqNum dg' = Ok (-1))
  /\ (n <> 0 -> KnxDatagram.getSeqNum dg' = Ok n).
Proof.
  intros H. destruct (the_tunnstate_set _ _ _ H) as (d & ts & E & S).
  unfold KnxDatagram.getSeqNum. rewrite E. cbn. rewrite S. cbn.
  split; intros Hn.
  - subst n. reflexivity.
  - destruct (Z.eqb_spec n 0); [contradiction | reflexivity].
Qed.

Lemma getSeqNum_after_setSeqNum_witness :
  KnxDatagram.getSeqNum (or_fresh (KnxDatagram.setSeqNum 0 first_request))
  = Ok (-1).
Proof.
  apply (getSeqNum_after_setSeqNum 0 first_request); reflexivity.
Defined.

End KnxDatagramFacts.

Module KnxProtocolFacts.

Import KnxConstants KnxProtocol Scenario BufferFacts ReaderFacts.

(** Case analysis on the conditions a goal branches on. *)
Ltac split_ifs :=
  repeat match goal with
         | |- context [if ?c then _ else _] => destruct c eqn:?
         end.

(** From [Ok a = Ok b] to [a = b], leaving both sides as they are. *)
Ltac ok_inv H :=
  match type of H with
  | Ok ?a = Ok ?b =>
      let E := fresh "E" in
      assert (E : a = b) by congruence; clear H
  end.

(** The guard of [KNXNetHeader.read] compares with a property the reader
    does not have, so it lets every packet through. *)
Lemma incomplete_guard_never_fires (len headerLength : Z) :
  JS.lt (len + headerLength) Reader.totalLength = false.
Proof. reflexivity. Qed.

Lemma read_short_ack :
  Reader.run (KNXNetHeader.read false) short_ack
  = Ok (KNXNetHeader.set_tunnstate
          (TunnState.mk (Some 4) (Some 7) (Some 0) (Some 0) None)
          (KNXNetHeader.header 6 16 SERVICE_TYPE.TUNNELING_ACK (Some 14))).
Proof. vm_compute. reflexivity. Qed.

(** C4 (the code at the failing input): a TUNNELING_ACK that announces 14
    bytes and arrives with 4 bytes after its header, where 8 are due, is not
    refused as incomplete; its body is parsed and the frame is returned. *)
Theorem read_short_ack_is_accepted :
  Z.of_nat (List.length short_ack) - 6 < 14 - 6
  /\ Reader.run (KNXNetHeader.read false) short_ack
     = Ok (KNXNetHeader.set_tunnstate
             (TunnState.mk (Some 4) (Some 7) (Some 0) (Some 0) None)
             (KNXNetHeader.header 6 16 SERVICE_TYPE.TUNNELING_ACK (Some 14))).
Proof. split; [vm_compute; reflexivity | exact read_short_ack]. Qed.

(** C5 (the code at the failing input): the tunneling skeleton that
    [makeReadRequest] retargets to ROUTING_INDICATION goes out as 21 bytes
    while its header announces 17: the 4 bytes of the TunnState are written
    but not counted. *)
Theorem routed_read_announces_less_than_it_emits :
  (dg <- routed_read ;;
   packet <- KnxDatagram.packet false dg ;;
   Ok (Z.of_nat (List.length packet), KNXNetHeader.announced packet))
  = Ok (21, Some 17).
Proof. vm_compute. reflexivity. Qed.

Lemma APDU_length_at_least_3 (v : APDU.t) (n : Z) :
  APDU.length (Some v) = Ok n -> 3 <= n.
Proof.
  unfold APDU.length.
  destruct (negb (JS.or_num (APDU.bitlength v) 0 =? 0)).
  - intros H. assert (n = 3 + (if JS.or_num (APDU.bitlength v) 0 >? 6
                               then (JS.or_num (APDU.bitlength v) 0 + 7) / 8
                               else 0)) as -> by congruence.
    destruct (Z.gtb_spec (JS.or_num (APDU.bitlength v) 0) 6); [|lia].
    assert (0 <= (JS.or_num (APDU.bitlength v) 0 + 7) / 8)
      by (apply Z.div_pos; lia).
    lia.
  - destruct (APDU.data v) as [|k|[|x [|y b]]]; try discriminate;
      split_ifs; intros H; try discriminate; ok_inv H; subst n;
      cbn [List.length]; lia.
Qed.

Lemma APDU_length_unencodable (v : APDU.t) :
  no_bitlength v -> ~ encodable (APDU.data v) ->
  throws (APDU.length (Some v)).
Proof.
  unfold no_bitlength, APDU.length, throws. intros ->.
  change (negb (0 =? 0)) with false. cbv iota.
  destruct (APDU.data v) as [|k|[|x b]]; intros H.
  - exfalso. apply H. exact I.
  - destruct (Z.leb_spec 0 k), (Z.leb_spec k 63); cbn; eauto.
    exfalso. apply H. cbn. lia.
  - eauto.
  - destruct (Z.gtb_spec (Z.of_nat (List.length (x :: b))) 14) as [G|G].
    + eexists; reflexivity.
    + exfalso. apply H. cbn [encodable List.length] in *. lia.
Qed.

(** C6 (counterexample): an APCI code outside the enumeration is not
    thrown; the writer returns without emitting a byte. *)
Lemma APDU_write_unknown_apci_does_not_throw :
  JS.index_of (APDU.apci bogus_apdu) APCICODES = None
  /\ ~ throws (APDU.write (Some bogus_apdu)).
Proof.
  split; [reflexivity|]. intros [e H]. vm_compute in H. discriminate.
Qed.

(** C6 (amended): writing an APDU throws when its APCI code is known and
    the computed total length exceeds 17 bytes, and when no bit length is
    given and the payload is neither a number in 0..63 (a missing payload
    counting as 0) nor a buffer of 1 to 14 bytes; the computed length is
    never below 3; an APCI code outside the enumeration is not thrown: the
    writer returns having written nothing. *)
Theorem APDU_write_rejects (v : APDU.t) :
  (known_apci v ->
   (exists n, APDU.length (Some v) = Ok n /\ 17 < n) ->
   throws (APDU.write (Some v)))
  /\ (no_bitlength v -> ~ encodable (APDU.data v) ->
      throws (APDU.write (Some v)))
  /\ (forall n, APDU.length (Some v) = Ok n -> 3 <= n)
  /\ (~ known_apci v -> is_ok (APDU.length (Some v)) = true ->
      APDU.write (Some v) = Ok []).
Proof.
  repeat split.
  - intros K (n & L & Hn). unfold APDU.write. rewrite L. unfold bind.
    unfold known_apci in K.
    destruct (JS.index_of (APDU.apci v) APCICODES); [|congruence].
    destruct (Z.ltb_spec n 3); [eexists; reflexivity|].
    destruct (Z.gtb_spec n 17); [eexists; reflexivity|lia].
  - intros B E. destruct (APDU_length_unencodable v B E) as [e L].
    unfold APDU.write. rewrite L. exists e. reflexivity.
  - apply APDU_length_at_least_3.
  - intros K L. unfold APDU.write.
    destruct (APDU.length (Some v)); [|discriminate]. unfold bind.
    unfold known_apci in K.
    destruct (JS.index_of (APDU.apci v) APCICODES); [|reflexivity].
    exfalso. apply K. discriminate.
Qed.

Lemma APDU_write_rejects_witness :
  throws (APDU.write (Some big_apdu))
  /\ throws (APDU.write (Some wide_apdu))
  /\ APDU.write (Some bogus_apdu) = Ok [].
Proof.
  split; [|split].
  - apply (proj1 (APDU_write_rejects big_apdu)).
    + unfold known_apci. vm_compute. discriminate.
    + exists 28. split; [reflexivity | lia].
  - apply (proj1 (proj2 (APDU_write_rejects wide_apdu))).
    + reflexivity.
    + cbn. lia.
  - apply (proj2 (proj2 (proj2 (APDU_write_rejects bogus_apdu)))).
    + unfold known_apci. vm_compute. intros H. apply H. reflexivity.
    + reflexivity.
Defined.

Lemma index_of_lt (x : string) (l : list string) (i : nat) :
  JS.index_of x l = Some i -> (i < List.length l)%nat.
Proof.
  revert i. induction l as [|y l IH]; cbn; intros i H; [discriminate|].
  destruct (String.eqb x y).
  - injection H as <-. lia.
  - destruct (JS.index_of x l) as [j|]; [|discriminate].
    injection H as <-. specialize (IH j eq_refl). lia.
Qed.

Lemma index_of_nth (x d : string) (l : list string) (i : nat) :
  JS.index_of x l = Some i -> nth i l d = x.
Proof.
  revert i. induction l as [|y l IH]; cbn; intros i H; [discriminate|].
  destruct (String.eqb_spec x y) as [->|_].
  - injection H as <-. reflexivity.
  - destruct (JS.index_of x l) as [j|]; [|discriminate].
    injection H as <-. apply IH. reflexivity.
Qed.

Lemma APDU_read_decodes (n : nat) (L : Z) (h l : byte) (rest : Buffer.t) :
  0 <= L <= 255 ->
  List.length (h :: l :: rest) = Z.to_nat (L + 1) ->
  let w := Buffer.to_Z h * 256 + Buffer.to_Z l in
  decodes n APDU.read (Buffer.of_Z L :: h :: l :: rest)
    (APDU.mk (Some L) (Some (h :: l :: rest)) (Z.shiftr w 10)
       (nth (Z.to_nat (Z.land (Z.shiftr w 6) 0xF)) APCICODES "")
       (Buf (if L >? 1 then rest else [Buffer.of_Z (Z.land w 0x3F)])) None).
Proof.
  intros HL Hlen w. unfold APDU.read.
  change (Buffer.of_Z L :: h :: l :: rest)
    with ([Buffer.of_Z L] ++ (h :: l :: rest)).
  eapply decodes_bind; [apply decodes_UInt8; assumption|].
  eapply decodes_last;
    [apply decodes_raw; rewrite <- Hlen; reflexivity|].
  apply decodes_ret.
Qed.

Lemma APDU_length_small (v : APDU.t) (d : Z) :
  no_bitlength v -> 0 <= d <= 63 ->
  APDU.data v = Num d \/ APDU.data v = Buf [Buffer.of_Z d] ->
  APDU.length (Some v) = Ok 3.
Proof.
  unfold no_bitlength, APDU.length. intros -> Hd [-> | ->].
  - cbn. destruct (Z.leb_spec 0 d), (Z.leb_spec d 63); try lia. reflexivity.
  - cbn. rewrite to_of_Z by lia.
    destruct (Z.leb_spec d 63); [reflexivity | lia].
Qed.

Lemma APDU_length_buffer (v : APDU.t) (b : Buffer.t) :
  no_bitlength v -> APDU.data v = Buf b ->
  (1 <= List.length b <= 14)%nat ->
  (forall x, b = [x] -> 63 < Buffer.to_Z x) ->
  APDU.length (Some v) = Ok (3 + Z.of_nat (List.length b)).
Proof.
  unfold no_bitlength, APDU.length. intros -> -> Hb Hx.
  change (negb (0 =? 0)) with false. cbv iota.
  destruct b as [|x [|y b]]; [cbn in Hb; lia | |].
  - specialize (Hx x eq_refl). cbn.
    destruct (Z.leb_spec (Buffer.to_Z x) 63); [lia | reflexivity].
  - destruct (Z.gtb_spec (Z.of_nat (List.length (x :: y :: b))) 14);
      [lia | reflexivity].
Qed.

Lemma APDU_defaulted_data (v : APDU.t) :
  APDU.data v <> Absent -> APDU.defaulted v = APDU.data v.
Proof.
  unfold APDU.defaulted. intros H.
  destruct (negb (JS.or_num (APDU.bitlength v) 0 =? 0)); [reflexivity|].
  destruct (APDU.data v); congruence.
Qed.

Lemma APDU_length_bits (v : APDU.t) (bits : Z) :
  APDU.bitlength v = Some bits -> bits <> 0 ->
  APDU.length (Some v)
  = Ok (3 + (if bits >? 6 then (bits + 7) / 8 else 0)).
Proof.
  intros B N. unfold APDU.length. rewrite B. cbn [JS.or_num].
  destruct (Z.eqb_spec bits 0); [contradiction|]. cbn [negb].
  destruct (Z.eqb_spec bits 0); [contradiction|]. reflexivity.
Qed.

Lemma APDU_defaulted_bits (v : APDU.t) (bits : Z) :
  APDU.bitlength v = Some bits -> bits <> 0 -> APDU.defaulted v = APDU.data v.
Proof.
  intros B N. unfold APDU.defaulted. rewrite B. cbn [JS.or_num].
  destruct (Z.eqb_spec bits 0); [contradiction|].
  destruct (Z.eqb_spec bits 0); [contradiction|]. reflexivity.
Qed.

(** The two forms of the APDU codec, whatever made the length walk choose
    them. *)
Lemma APDU_short_form (v : APDU.t) (i : nat) (d : Z) :
  0 <= APDU.tpci v < 64 ->
  JS.index_of (APDU.apci v) APCICODES = Some i ->
  APDU.length (Some v) = Ok 3 -> 0 <= d <= 63 ->
  APDU.defaulted v = Num d \/ APDU.defaulted v = Buf [Buffer.of_Z d] ->
  let word := be16 (apdu_word (APDU.tpci v) (Z.of_nat i) d) in
  APDU.write (Some v) = Ok (Buffer.of_Z 1 :: word)
  /\ forall n, decodes n APDU.read (Buffer.of_Z 1 :: word)
                 (APDU.mk (Some 1) (Some word) (APDU.tpci v) (APDU.apci v)
                    (Buf [Buffer.of_Z d]) None).
Proof.
  intros Ht Hi Hl Hd Hdata word. subst word.
  pose proof (index_of_lt _ _ _ Hi) as Hlt.
  change (List.length APCICODES) with 16%nat in Hlt.
  pose proof (index_of_nth _ "" _ _ Hi) as Hnth.
  rewrite apdu_word_sum, be16_div_mod by lia.
  destruct (apdu_word_fields (APDU.tpci v) (Z.of_nat i) d)
    as (W & F1 & F2 & F3); try lia.
  split.
  - unfold APDU.write. rewrite Hl.
    unfold bind at 1. rewrite Hi.
    change (3 <? 3) with false. change (3 >? 17) with false.
    change (3 =? 3) with true. cbv iota.
    change (3 - 2) with 1.
    destruct Hdata as [-> | ->].
    + rewrite writeUInt16BE_ok by assumption. reflexivity.
    + rewrite to_of_Z by lia.
      rewrite writeUInt16BE_ok by assumption. reflexivity.
  - intros n.
    pose proof (APDU_read_decodes n 1
                  (Buffer.of_Z ((APDU.tpci v * 0x400 + Z.of_nat i * 0x40 + d) / 256))
                  (Buffer.of_Z ((APDU.tpci v * 0x400 + Z.of_nat i * 0x40 + d) mod 256))
                  [] ltac:(lia) eq_refl) as D.
    cbv zeta in D. rewrite word_of_bytes in D by assumption.
    rewrite F1, F2, F3, Nat2Z.id, Hnth in D. exact D.
Qed.

Lemma APDU_long_form (v : APDU.t) (i : nat) (b : Buffer.t) :
  0 <= APDU.tpci v < 64 ->
  JS.index_of (APDU.apci v) APCICODES = Some i ->
  (1 <= List.length b <= 14)%nat ->
  APDU.length (Some v) = Ok (3 + Z.of_nat (List.length b)) ->
  APDU.defaulted v = Buf b ->
  let n := Z.of_nat (List.length b) in
  let word := be16 (apdu_word (APDU.tpci v) (Z.of_nat i) 0) in
  APDU.write (Some v) = Ok (Buffer.of_Z (n + 1) :: word ++ b)
  /\ forall k, decodes k APDU.read (Buffer.of_Z (n + 1) :: word ++ b)
                 (APDU.mk (Some (n + 1)) (Some (word ++ b)) (APDU.tpci v)
                    (APDU.apci v) (Buf b) None).
Proof.
  intros Ht Hi Hlen Hl Hdata n word. subst word.
  pose proof (index_of_lt _ _ _ Hi) as Hlt.
  change (List.length APCICODES) with 16%nat in Hlt.
  pose proof (index_of_nth _ "" _ _ Hi) as Hnth.
  rewrite apdu_word_sum, be16_div_mod by lia.
  destruct (apdu_word_fields (APDU.tpci v) (Z.of_nat i) 0)
    as (W & F1 & F2 & F3); try lia.
  split.
  - unfold APDU.write. rewrite Hl.
    unfold bind at 1. rewrite Hi. fold n.
    destruct (Z.ltb_spec (3 + n) 3); [lia|].
    destruct (Z.gtb_spec (3 + n) 17); [lia|].
    destruct (Z.eqb_spec (3 + n) 3); [lia|].
    rewrite Hdata.
    replace (3 + n - 2) with (n + 1) by lia.
    rewrite writeUInt8_ok by lia.
    rewrite Z.add_0_r in W |- *.
    rewrite writeUInt16BE_ok by assumption. reflexivity.
  - intros k.
    pose proof (APDU_read_decodes k (n + 1)
                  (Buffer.of_Z ((APDU.tpci v * 0x400 + Z.of_nat i * 0x40 + 0) / 256))
                  (Buffer.of_Z ((APDU.tpci v * 0x400 + Z.of_nat i * 0x40 + 0) mod 256))
                  b ltac:(lia)) as D.
    cbv zeta in D. rewrite word_of_bytes in D by assumption.
    rewrite F1, F2, Nat2Z.id, Hnth in D.
    destruct (Z.gtb_spec (n + 1) 1); [|lia].
    apply D. cbn [List.length]. lia.
Qed.

(** The two cases of the APDU codec when no bit length is given. *)
Lemma APDU_small (v : APDU.t) (i : nat) (d : Z) :
  0 <= APDU.tpci v < 64 ->
  JS.index_of (APDU.apci v) APCICODES = Some i ->
  no_bitlength v -> 0 <= d <= 63 ->
  APDU.data v = Num d \/ APDU.data v = Buf [Buffer.of_Z d] ->
  let word := be16 (apdu_word (APDU.tpci v) (Z.of_nat i) d) in
  APDU.write (Some v) = Ok (Buffer.of_Z 1 :: word)
  /\ forall n, decodes n APDU.read (Buffer.of_Z 1 :: word)
                 (APDU.mk (Some 1) (Some word) (APDU.tpci v) (APDU.apci v)
                    (Buf [Buffer.of_Z d]) None).
Proof.
  intros Ht Hi Hb Hd Hdata.
  apply APDU_short_form; try assumption.
  - exact (APDU_length_small v d Hb Hd Hdata).
  - rewrite APDU_defaulted_data; [exact Hdata|].
    destruct Hdata as [-> | ->]; discriminate.
Qed.

Lemma APDU_buffer (v : APDU.t) (i : nat) (b : Buffer.t) :
  0 <= APDU.tpci v < 64 ->
  JS.index_of (APDU.apci v) APCICODES = Some i ->
  no_bitlength v -> APDU.data v = Buf b ->
  (1 <= List.length b <= 14)%nat ->
  (forall x, b = [x] -> 63 < Buffer.to_Z x) ->
  let n := Z.of_nat (List.length b) in
  let word := be16 (apdu_word (APDU.tpci v) (Z.of_nat i) 0) in
  APDU.write (Some v) = Ok (Buffer.of_Z (n + 1) :: word ++ b)
  /\ forall k, decodes k APDU.read (Buffer.of_Z (n + 1) :: word ++ b)
                 (APDU.mk (Some (n + 1)) (Some (word ++ b)) (APDU.tpci v)
                    (APDU.apci v) (Buf b) None).
Proof.
  intros Ht Hi Hb Hdata Hlen Hx.
  apply APDU_long_form; try assumption.
  - exact (APDU_length_buffer v b Hb Hdata Hlen Hx).
  - rewrite APDU_defaulted_data; [exact Hdata|].
    rewrite Hdata. discriminate.
Qed.

(** C7, counterexample: the APDU that a raw write of the single byte 1
    leaves in the frame carries the bit length 8, and is written as four
    bytes, the value after the TPCI/APCI word, although the value fits in
    six bits. *)
Theorem raw_write_of_small_value_takes_four_bytes :
  exists dg d c a,
    KnxDatagram.makeWriteRawRequest "1/2/3" [x01] None first_request = Ok dg
    /\ KnxDatagram.datagram dg = Some d
    /\ KNXNetHeader.cemi d = Some c /\ CEMI.apdu c = Some a
    /\ APDU.data a = Buf [x01] /\ APDU.bitlength a = Some 8
    /\ APDU.write (Some a) = Ok [x02; x00; x80; x01].
Proof. do 4 eexists. repeat split; reflexivity. Qed.

(** C7: without a bit length, an APDU whose payload fits in six bits is
    written as three bytes, the length byte 1 and the word
    tpci<<10 | apci<<6 | data in big-endian order, and is read back with the
    same tpci, APCI and data; a payload buffer of n bytes, 1 <= n <= 14
    (above 63 when it is a single byte), is written as 3+n bytes, verbatim
    after the TPCI/APCI word, and is read back too.  With a bit length, as
    the raw and the typed writes set it, the bit length alone chooses the
    form: the three bytes up to 6 bits, and above them the 3+n bytes of a
    buffer of n = ceil(bits/8) bytes, whatever its value. *)
Theorem APDU_roundtrip (v : APDU.t) (i : nat) :
  0 <= APDU.tpci v < 64 ->
  JS.index_of (APDU.apci v) APCICODES = Some i ->
  (forall d, 0 <= d <= 63 ->
     APDU.data v = Num d \/ APDU.data v = Buf [Buffer.of_Z d] ->
     no_bitlength v
     \/ (exists bits, APDU.bitlength v = Some bits /\ 0 < bits <= 6) ->
     let word := be16 (apdu_word (APDU.tpci v) (Z.of_nat i) d) in
     APDU.write (Some v) = Ok (Buffer.of_Z 1 :: word)
     /\ List.length (Buffer.of_Z 1 :: word) = 3%nat
     /\ Reader.run APDU.read (Buffer.of_Z 1 :: word)
        = Ok (APDU.mk (Some 1) (Some word) (APDU.tpci v) (APDU.apci v)
                (Buf [Buffer.of_Z d]) None))
  /\ (forall b, APDU.data v = Buf b ->
        (1 <= List.length b <= 14)%nat ->
        (no_bitlength v /\ forall x, b = [x] -> 63 < Buffer.to_Z x)
        \/ (exists bits,
              APDU.bitlength v = Some bits /\ 6 < bits
              /\ (bits + 7) / 8 = Z.of_nat (List.length b)) ->
        let n := Z.of_nat (List.length b) in
        let word := be16 (apdu_word (APDU.tpci v) (Z.of_nat i) 0) in
        APDU.write (Some v) = Ok (Buffer.of_Z (n + 1) :: word ++ b)
        /\ Z.of_nat (List.length (Buffer.of_Z (n + 1) :: word ++ b)) = 3 + n
        /\ Reader.run APDU.read (Buffer.of_Z (n + 1) :: word ++ b)
           = Ok (APDU.mk (Some (n + 1)) (Some (word ++ b)) (APDU.tpci v)
                   (APDU.apci v) (Buf b) None)).
Proof.
  intros Ht Hi. split.
  - intros d Hd Hdata Hb word.
    assert (L : APDU.length (Some v) = Ok 3).
    { destruct Hb as [Hb | (bits & B & R)].
      - exact (APDU_length_small v d Hb Hd Hdata).
      - rewrite (APDU_length_bits v bits B) by lia.
        destruct (Z.gtb_spec bits 6); [lia | reflexivity]. }
    assert (D : APDU.defaulted v = APDU.data v).
    { destruct Hb as [Hb | (bits & B & R)].
      - apply APDU_defaulted_data. destruct Hdata as [-> | ->]; discriminate.
      - apply (APDU_defaulted_bits v bits B). lia. }
    rewrite <- D in Hdata.
    destruct (APDU_short_form v i d Ht Hi L Hd Hdata) as [W R].
    split; [exact W|]. split; [reflexivity|]. apply decodes_run, R.
  - intros b Hdata Hlen Hb n word.
    assert (L : APDU.length (Some v) = Ok (3 + Z.of_nat (List.length b))).
    { destruct Hb as [[Hb Hx] | (bits & B & R & C)].
      - exact (APDU_length_buffer v b Hb Hdata Hlen Hx).
      - rewrite (APDU_length_bits v bits B) by lia.
        destruct (Z.gtb_spec bits 6); [|lia]. rewrite C. reflexivity. }
    assert (D : APDU.defaulted v = Buf b).
    { rewrite <- Hdata. destruct Hb as [[Hb Hx] | (bits & B & R & C)].
      - apply APDU_defaulted_data. rewrite Hdata. discriminate.
      - apply (APDU_defaulted_bits v bits B). lia. }
    destruct (APDU_long_form v i b Ht Hi Hlen L D) as [W R].
    split; [exact W|]. split; [|apply decodes_run, R].
    subst word n. unfold be16. cbn [List.length Datatypes.app]. lia.
Qed.

Lemma APDU_roundtrip_witness :
  APDU.write (Some (APDU.mk None None 0 "GroupValue_Write" (Num 1) None))
  = Ok (Buffer.of_Z 1 :: be16 (apdu_word 0 2 1))
  /\ APDU.write
       (Some (APDU.mk None None 0 "GroupValue_Write" (Buf [x01]) (Some 8)))
     = Ok (Buffer.of_Z 2 :: be16 (apdu_word 0 2 0) ++ [x01]).
Proof.
  split.
  - apply (proj1 (APDU_roundtrip
                    (APDU.mk None None 0 "GroupValue_Write" (Num 1) None) 2
                    ltac:(cbn; lia) eq_refl) 1 ltac:(lia)
                 (or_introl eq_refl) (or_introl eq_refl)).
  - apply (proj2 (APDU_roundtrip
                    (APDU.mk None None 0 "GroupValue_Write" (Buf [x01])
                       (Some 8)) 2
                    ltac:(cbn; lia) eq_refl) [x01] eq_refl
                 ltac:(cbn; lia)).
    right. exists 8. split; [reflexivity|]. split; [lia | reflexivity].
Defined.

(** ** Shape of the frames the reader returns *)

Lemma rbind_inv {A B : Type} (m : Reader.t A) (k : A -> Reader.t B)
    (buf : Buffer.t) (off : nat) (b : B) (o : nat) :
  Reader.rbind m k buf off = Reader.Value b o ->
  exists a off',
    m buf off = Reader.Value a off' /\ k a buf off' = Reader.Value b o.
Proof.
  unfold Reader.rbind. destruct (m buf off) as [a off'| |e]; try discriminate.
  eauto.
Qed.

Lemma ret_inv {A : Type} (a : A) (buf : Buffer.t) (off : nat) (b : A)
    (o : nat) :
  Reader.ret a buf off = Reader.Value b o -> (b, o) = (a, off).
Proof. unfold Reader.ret. congruence. Qed.

(** Open up a successful run of a composed reader. *)
Ltac peel :=
  repeat match goal with
         | H : Reader.rbind _ _ _ _ = Reader.Value _ _ |- _ =>
             apply rbind_inv in H; destruct H as (? & ? & ? & ?)
         | H : Reader.ret _ _ _ = Reader.Value _ _ |- _ =>
             apply ret_inv in H; inversion H; subst; clear H
         | H : Reader.throw _ _ _ = Reader.Value _ _ |- _ => discriminate H
         | H : (if ?c then _ else _) _ _ = Reader.Value _ _ |- _ =>
             destruct c eqn:?
         end.

Ltac eqb_facts :=
  repeat match goal with
         | H : (_ || _)%bool = true |- _ => apply orb_true_iff in H; destruct H
         | H : (_ || _)%bool = false |- _ =>
             apply orb_false_iff in H; destruct H
         | H : (_ =? _) = true |- _ => apply Z.eqb_eq in H
         | H : (_ =? _) = false |- _ => apply Z.eqb_neq in H
         | H : false = true |- _ => discriminate H
         end.

(** A frame read as TUNNELING_REQUEST or ROUTING_INDICATION has its CEMI. *)
Lemma read_cemi_present (flag : bool) (msg : Buffer.t) (d : KNXNetHeader.t) :
  Reader.run (KNXNetHeader.read flag) msg = Ok d ->
  one_of (KNXNetHeader.serviceType d)
    [SERVICE_TYPE.TUNNELING_REQUEST; SERVICE_TYPE.ROUTING_INDICATION] = true ->
  KNXNetHeader.cemi d <> None.
Proof.
  unfold Reader.run, Reader.next.
  destruct (KNXNetHeader.read flag msg O) as [d' off| |e] eqn:E;
    try discriminate.
  intros H. injection H as ->. unfold KNXNetHeader.read in E.
  peel; cbn; unfold one_of in *; cbn [existsb] in *; intros S;
    try discriminate; exfalso; eqb_facts;
    unfold SERVICE_TYPE.TUNNELING_REQUEST, SERVICE_TYPE.ROUTING_INDICATION,
      SERVICE_TYPE.SEARCH_REQUEST, SERVICE_TYPE.CONNECT_REQUEST,
      SERVICE_TYPE.SEARCH_RESPONSE, SERVICE_TYPE.CONNECT_RESPONSE,
      SERVICE_TYPE.CONNECTIONSTATE_REQUEST,
      SERVICE_TYPE.CONNECTIONSTATE_RESPONSE, SERVICE_TYPE.DISCONNECT_REQUEST,
      SERVICE_TYPE.DISCONNECT_RESPONSE, SERVICE_TYPE.DESCRIPTION_RESPONSE,
      SERVICE_TYPE.TUNNELING_ACK in *; lia.
Qed.

(** ** The address and endpoint codecs read back what they print *)

Lemma separator_char (c : ascii) :
  forallb (fun x => negb (Ascii.eqb c x))
    (list_ascii_of_string "0123456789") = true ->
  separator (JS.is_char c).
Proof.
  intros H d. cbn in H. repeat (apply andb_true_iff in H; destruct H as [? H]).
  unfold JS.is_char.
  induction d; cbn; rewrite ?IHd; auto;
    match goal with
    | X : negb (Ascii.eqb c ?x) = true |- context [Ascii.eqb c ?x] =>
        rewrite X
    end; reflexivity.
Qed.

Lemma free_dec (sep : ascii -> bool) (n : Z) :
  separator sep -> free sep (JS.dec n) = true.
Proof.
  intros S. unfold JS.dec, NilZero.string_of_uint.
  destruct (N.to_uint (Z.to_N n)) eqn:E; try (rewrite <- E; apply S).
  exact (S (Decimal.D0 Decimal.Nil)).
Qed.

Lemma split_free (sep : ascii -> bool) (s : string) :
  free sep s = true -> JS.split sep s = [s].
Proof.
  induction s as [|c s IH]; cbn; [reflexivity|].
  intros H. apply andb_true_iff in H. destruct H as [H1 H2].
  apply negb_true_iff in H1. rewrite H1, (IH H2). reflexivity.
Qed.

Lemma split_app (sep : ascii -> bool) (s1 s2 : string) (c : ascii) :
  free sep s1 = true -> sep c = true ->
  JS.split sep (s1 ++ String c s2) = s1 :: JS.split sep s2.
Proof.
  intros F C. induction s1 as [|x s1 IH]; cbn.
  - rewrite C. reflexivity.
  - cbn in F. apply andb_true_iff in F. destruct F as [F1 F2].
    apply negb_true_iff in F1. rewrite F1, (IH F2). reflexivity.
Qed.

Lemma free_app (sep : ascii -> bool) (s1 s2 : string) :
  free sep (s1 ++ s2) = free sep s1 && free sep s2.
Proof.
  induction s1 as [|x s1 IH]; cbn; [reflexivity|].
  rewrite IH, andb_assoc. reflexivity.
Qed.

Lemma parse_dec_dec (n : Z) : 0 <= n -> JS.parse_dec (JS.dec n) = Some n.
Proof.
  intros H. unfold JS.parse_dec, JS.dec.
  rewrite NilZero.usu.
  - rewrite DecimalN.Unsigned.of_to. f_equal. lia.
  - destruct (Z.to_N n); cbn; [discriminate|].
    apply DecimalPos.Unsigned.to_uint_nonnil.
Qed.

Lemma sep_dot : separator (JS.is_char ".").
Proof. apply separator_char. reflexivity. Qed.

Lemma sep_colon : separator (JS.is_char ":").
Proof. apply separator_char. reflexivity. Qed.

Lemma sep_slash : separator (JS.is_char "/").
Proof. apply separator_char. reflexivity. Qed.

Lemma not_empty (s1 s2 : string) (c : ascii) :
  String.eqb (s1 ++ String c s2) "" = false.
Proof. destruct s1; reflexivity. Qed.

Lemma in_range_true (hi x : Z) :
  0 <= x < hi -> KnxAddress.in_range hi x = true.
Proof.
  intros H. unfold KnxAddress.in_range.
  destruct (Z.leb_spec 0 x), (Z.ltb_spec x hi); try lia; reflexivity.
Qed.

(** Three decimal components joined by a separator are found again. *)
Lemma components_3 (c : ascii) (x y z : Z) :
  separator (JS.is_char c) -> JS.is_char c c = true ->
  0 <= x -> 0 <= y -> 0 <= z ->
  KnxAddress.components c
    (KnxAddress.join (String c "") (JS.dec x)
       (KnxAddress.join (String c "") (JS.dec y) (JS.dec z)))
  = [Some x; Some y; Some z].
Proof.
  intros S C Hx Hy Hz. unfold KnxAddress.components, KnxAddress.join.
  cbn [String.append].
  rewrite split_app by (auto using free_dec).
  rewrite split_app by (auto using free_dec).
  rewrite split_free by (auto using free_dec).
  cbn [map]. rewrite !parse_dec_dec by assumption. reflexivity.
Qed.

Lemma components_2 (c : ascii) (x y : Z) :
  separator (JS.is_char c) -> JS.is_char c c = true ->
  0 <= x -> 0 <= y ->
  KnxAddress.components c (KnxAddress.join (String c "") (JS.dec x) (JS.dec y))
  = [Some x; Some y].
Proof.
  intros S C Hx Hy. unfold KnxAddress.components, KnxAddress.join.
  cbn [String.append].
  rewrite split_app by (auto using free_dec).
  rewrite split_free by (auto using free_dec).
  cbn [map]. rewrite !parse_dec_dec by assumption. reflexivity.
Qed.

(** The address codec reads back what it prints. *)
Lemma KnxAddress_parse_toString (h l : byte) (kind : Z) (flag : bool)
    (s : string) :
  KnxAddress.toString [h; l] kind flag = Ok s ->
  KnxAddress.parse s kind flag = Ok [h; l].
Proof.
  pose proof (to_Z_range h) as Hh. pose proof (to_Z_range l) as Hl.
  unfold KnxAddress.toString, KnxAddress.parse.
  assert (D16 : 0 <= Buffer.to_Z h / 16 < 16)
    by (split; [apply Z.div_pos | apply Z.div_lt_upper_bound]; lia).
  assert (M16 : 0 <= Buffer.to_Z h mod 16 < 16) by (apply Z.mod_pos_bound; lia).
  assert (D8 : 0 <= Buffer.to_Z h / 8 < 32)
    by (split; [apply Z.div_pos | apply Z.div_lt_upper_bound]; lia).
  assert (M8 : 0 <= Buffer.to_Z h mod 8 < 8) by (apply Z.mod_pos_bound; lia).
  destruct (kind =? KnxAddress.TYPE.PHYSICAL); [|destruct flag];
    intros E; injection E as <-.
  - rewrite (components_3 "." _ _ _ sep_dot eq_refl) by lia.
    rewrite !in_range_true by lia. cbn [andb].
    replace (Buffer.to_Z h / 16 * 16 + Buffer.to_Z h mod 16)
      with (Buffer.to_Z h)
      by (pose proof (Z.div_mod (Buffer.to_Z h) 16 ltac:(lia)); lia).
    rewrite !of_to_Z. reflexivity.
  - rewrite (components_2 "/" _ _ sep_slash eq_refl) by lia.
    rewrite !in_range_true by lia. cbn [andb].
    replace ((Buffer.to_Z h mod 8 * 256 + Buffer.to_Z l) / 256)
      with (Buffer.to_Z h mod 8)
      by (apply Z.div_unique with (r := Buffer.to_Z l); lia).
    replace ((Buffer.to_Z h mod 8 * 256 + Buffer.to_Z l) mod 256)
      with (Buffer.to_Z l)
      by (apply Z.mod_unique with (q := Buffer.to_Z h mod 8); lia).
    replace (Buffer.to_Z h / 8 * 8 + Buffer.to_Z h mod 8)
      with (Buffer.to_Z h)
      by (pose proof (Z.div_mod (Buffer.to_Z h) 8 ltac:(lia)); lia).
    rewrite !of_to_Z. reflexivity.
  - rewrite (components_3 "/" _ _ _ sep_slash eq_refl) by lia.
    rewrite !in_range_true by lia. cbn [andb].
    replace (Buffer.to_Z h / 8 * 8 + Buffer.to_Z h mod 8)
      with (Buffer.to_Z h)
      by (pose proof (Z.div_mod (Buffer.to_Z h) 8 ltac:(lia)); lia).
    rewrite !of_to_Z. reflexivity.
Qed.

(** ** Each sub-structure is read back from the bytes written for it *)

Lemma IPv4Endpoint_write_show (a b c d : byte) (port : Z) :
  0 <= port <= 65535 ->
  IPv4Endpoint.write (IPv4Endpoint.show [a; b; c; d] port)
  = Ok ([a; b; c; d] ++ port_bytes port).
Proof.
  intros Hp. unfold IPv4Endpoint.write, IPv4Endpoint.show.
  cbn [map String.concat].
  set (sa := JS.dec (Buffer.to_Z a)). set (sb := JS.dec (Buffer.to_Z b)).
  set (sc := JS.dec (Buffer.to_Z c)). set (sd := JS.dec (Buffer.to_Z d)).
  change ((sa ++ "." ++ sb ++ "." ++ sc ++ "." ++ sd) ++ ":" ++ JS.dec port)%string
    with ((sa ++ String "." (sb ++ String "." (sc ++ String "." sd)))
            ++ String ":" (JS.dec port))%string.
  rewrite not_empty.
  assert (F : free (JS.is_char ":")
                (sa ++ String "." (sb ++ String "." (sc ++ String "." sd)))
              = true).
  { rewrite free_app. cbn [free]. rewrite free_app. cbn [free].
    rewrite free_app. cbn [free]. subst sa sb sc sd.
    rewrite !free_dec by exact sep_colon. reflexivity. }
  rewrite (split_app (JS.is_char ":") _ (JS.dec port) ":"%char F eq_refl).
  rewrite split_free by (apply free_dec, sep_colon).
  unfold IPv4Endpoint.octets. subst sa sb sc sd.
  rewrite split_app by (auto using free_dec, sep_dot).
  rewrite split_app by (auto using free_dec, sep_dot).
  rewrite split_app by (auto using free_dec, sep_dot).
  rewrite split_free by (auto using free_dec, sep_dot).
  pose proof (to_Z_range a). pose proof (to_Z_range b).
  pose proof (to_Z_range c). pose proof (to_Z_range d).
  cbn [map]. rewrite !parse_dec_dec by lia.
  cbn [forallb]. rewrite !in_range_true by lia. cbn [andb map].
  rewrite !of_to_Z. cbn [JS.to_number].
  unfold Buffer.seq. cbn [bind]. rewrite writeUInt16BE_ok by assumption.
  reflexivity.
Qed.

Lemma IPv4Endpoint_decodes (n : nat) (a b c d : byte) (port : Z) :
  0 <= port <= 65535 ->
  decodes n IPv4Endpoint.read ([a; b; c; d] ++ port_bytes port)
    (IPv4Endpoint.show [a; b; c; d] port).
Proof.
  intros Hp. unfold IPv4Endpoint.read.
  eapply decodes_bind; [apply decodes_raw; reflexivity|].
  eapply decodes_last; [apply decodes_UInt16BE; assumption|].
  apply decodes_ret.
Qed.

Lemma HPAI_codec (h : HPAI.t) :
  hpai_shaped h ->
  exists bs,
    HPAI.write (Some h) = Ok bs /\ List.length bs = 8%nat
    /\ forall n, (8 <= n)%nat -> decodes n HPAI.read bs (canonical_hpai h).
Proof.
  intros (P & T & (a & b & c & d & port & Hp & E)).
  exists ([Buffer.of_Z 8] ++ [Buffer.of_Z (HPAI.protocolType h)]
          ++ ([a; b; c; d] ++ port_bytes port)).
  split; [|split; [reflexivity|]].
  - unfold HPAI.write. rewrite E, IPv4Endpoint_write_show by assumption.
    rewrite !writeUInt8_ok by (unfold byte_value in *; lia). reflexivity.
  - intros n Hn. unfold HPAI.read.
    eapply decodes_bind; [apply decodes_UInt8; lia|].
    eapply decodes_bind; [apply decodes_UInt8; exact P|].
    eapply decodes_last; [apply IPv4Endpoint_decodes; assumption|].
    apply decodes_buffer_length. intros len Hlen.
    destruct (Z.ltb_spec len 8); [lia|].
    destruct (Z.eqb_spec (HPAI.protocolType h) PROTOCOL_TYPE.IPV4_TCP);
      [contradiction|].
    unfold canonical_hpai. rewrite E. apply decodes_ret.
Qed.

Lemma CRI_codec (c : CRI.t) :
  cri_shaped c ->
  exists bs,
    CRI.write (Some c) = Ok bs /\ List.length bs = 4%nat
    /\ forall n, decodes n CRI.read bs (canonical_cri c).
Proof.
  intros (T & L & U).
  exists ([Buffer.of_Z 4] ++ [Buffer.of_Z (CRI.connectionType c)]
          ++ [Buffer.of_Z (CRI.knxLayer c)] ++ [Buffer.of_Z (CRI.unused c)]).
  assert (byte_value (CRI.connectionType c))
    by (destruct T as [-> | ->]; split; discriminate).
  split; [|split; [reflexivity|]].
  - unfold CRI.write.
    rewrite !writeUInt8_ok by (unfold byte_value in *; lia). reflexivity.
  - intros n. unfold CRI.read.
    eapply decodes_bind; [apply decodes_UInt8; lia|].
    eapply decodes_bind; [apply decodes_UInt8; assumption|].
    eapply decodes_bind; [apply decodes_UInt8; assumption|].
    eapply decodes_last; [apply decodes_UInt8; assumption|].
    replace ((CRI.connectionType c =? CONNECTION_TYPE.DEVICE_MGMT_CONNECTION)
             || (CRI.connectionType c =? CONNECTION_TYPE.TUNNEL_CONNECTION))
      with true
      by (destruct T as [-> | ->]; reflexivity).
    apply decodes_ret.
Qed.

Lemma ConnState_codec (cs : ConnState.t) :
  connstate_shaped cs ->
  exists bs,
    ConnState.write (Some cs) = Ok bs /\ List.length bs = 2%nat
    /\ forall n, decodes n ConnState.read bs cs.
Proof.
  intros (c & s & C & S & St & Hc & Hs).
  exists ([Buffer.of_Z c] ++ [Buffer.of_Z s]).
  split; [|split; [reflexivity|]].
  - unfold ConnState.write. rewrite C, S. cbn [JS.to_number].
    rewrite !writeUInt8_ok by assumption. reflexivity.
  - intros n. unfold ConnState.read.
    eapply decodes_bind; [apply decodes_UInt8; assumption|].
    eapply decodes_last; [apply decodes_UInt8; assumption|].
    destruct cs as [ci st sta]. cbn in C, S, St. subst. apply decodes_ret.
Qed.

Lemma TunnState_codec (ts : TunnState.t) :
  tunnstate_shaped ts ->
  exists bs,
    TunnState.write (Some ts) = Ok bs /\ List.length bs = 4%nat
    /\ forall n, decodes n TunnState.read bs (canonical_tunnstate ts).
Proof.
  intros (c & q & s & C & Q & S & E & Hc & Hq & Hs).
  exists ([Buffer.of_Z 4] ++ [Buffer.of_Z c] ++ [Buffer.of_Z q]
          ++ [Buffer.of_Z s]).
  split; [|split; [reflexivity|]].
  - unfold TunnState.write. rewrite C, Q, S. cbn [JS.to_number].
    rewrite !writeUInt8_ok by (unfold byte_value in *; lia). reflexivity.
  - intros n. unfold TunnState.read.
    eapply decodes_bind; [apply decodes_UInt8; lia|].
    eapply decodes_bind; [apply decodes_UInt8; assumption|].
    eapply decodes_bind; [apply decodes_UInt8; assumption|].
    eapply decodes_last; [apply decodes_UInt8; assumption|].
    unfold canonical_tunnstate. rewrite C, Q, S, E. apply decodes_ret.
Qed.

Lemma apdu_raw_small (a : APDU.t) (i : nat) (x : byte) :
  JS.index_of (APDU.apci a) APCICODES = Some i ->
  APDU.data a = Buf [x] -> Buffer.to_Z x <= 63 ->
  apdu_raw a = be16 (apdu_word (APDU.tpci a) (Z.of_nat i) (Buffer.to_Z x)).
Proof.
  intros I D Hx. unfold apdu_raw, apci_code. rewrite I, D.
  destruct (Z.leb_spec (Buffer.to_Z x) 63); [reflexivity | lia].
Qed.

Lemma apdu_raw_buffer (a : APDU.t) (i : nat) (b : Buffer.t) :
  JS.index_of (APDU.apci a) APCICODES = Some i ->
  APDU.data a = Buf b ->
  (forall x, b = [x] -> 63 < Buffer.to_Z x) ->
  apdu_raw a = be16 (apdu_word (APDU.tpci a) (Z.of_nat i) 0) ++ b.
Proof.
  intros I D Hx. unfold apdu_raw, apci_code. rewrite I, D.
  destruct b as [|x [|y b]]; try reflexivity.
  specialize (Hx x eq_refl).
  destruct (Z.leb_spec (Buffer.to_Z x) 63); [lia | reflexivity].
Qed.

Lemma APDU_codec (a : APDU.t) :
  apdu_shaped a ->
  exists bs,
    APDU.write (Some a) = Ok bs
    /\ APDU.length (Some a) = Ok (Z.of_nat (List.length bs))
    /\ (3 <= List.length bs <= 17)%nat
    /\ forall n, decodes n APDU.read bs (canonical_apdu a).
Proof.
  intros (Ht & K & B & b & D & L). unfold known_apci in K.
  destruct (JS.index_of (APDU.apci a) APCICODES) as [i|] eqn:I;
    [clear K | congruence].
  assert (NB : no_bitlength a) by (unfold no_bitlength; rewrite B; reflexivity).
  assert (small : (exists x, b = [x] /\ Buffer.to_Z x <= 63)
                  \/ (forall x, b = [x] -> 63 < Buffer.to_Z x)).
  { destruct b as [|x [|y b]].
    - right. discriminate.
    - destruct (Z.leb_spec (Buffer.to_Z x) 63); [left; eauto|].
      right. intros ? [= <-]. assumption.
    - right. discriminate. }
  unfold canonical_apdu.
  destruct small as [(x & -> & Hx)|Hx].
  - pose proof (to_Z_range x) as Rx.
    assert (Dx : APDU.data a = Num (Buffer.to_Z x)
                 \/ APDU.data a = Buf [Buffer.of_Z (Buffer.to_Z x)])
      by (right; rewrite of_to_Z; exact D).
    assert (Sx : 0 <= Buffer.to_Z x <= 63) by lia.
    destruct (APDU_small a i (Buffer.to_Z x) Ht I NB Sx Dx) as [W R].
    rewrite (apdu_raw_small a i x I D Hx), D, B.
    eexists. split; [exact W|]. split; [|split].
    + rewrite (APDU_length_small a (Buffer.to_Z x) NB Sx Dx).
      reflexivity.
    + cbn. lia.
    + intros n. specialize (R n). rewrite of_to_Z in R. exact R.
  - destruct (APDU_buffer a i b Ht I NB D L Hx) as [W R].
    rewrite (apdu_raw_buffer a i b I D Hx), D, B.
    eexists. split; [exact W|]. split; [|split].
    + rewrite (APDU_length_buffer a b NB D L Hx).
      f_equal. unfold be16; cbn [List.length Datatypes.app]; lia.
    + unfold be16; cbn [List.length Datatypes.app]; lia.
    + intros n. specialize (R n).
      replace (Z.of_nat (List.length (be16 (apdu_word (APDU.tpci a) (Z.of_nat i) 0) ++ b)) - 1)
        with (Z.of_nat (List.length b) + 1)
        by (unfold be16; cbn [List.length Datatypes.app]; lia).
      exact R.
Qed.

Ltac enumerate :=
  repeat match goal with
         | H : 0 <= ?x <= 1 |- _ =>
             assert (x = 0 \/ x = 1) as [-> | ->] by lia; clear H
         | H : 0 <= ?x <= 3 |- _ =>
             assert (x = 0 \/ x = 1 \/ x = 2 \/ x = 3)
               as [-> | [-> | [-> | ->]]] by lia; clear H
         end.

Lemma ctrlField1_bits (f r rp b p a c : Z) :
  0 <= f <= 1 -> 0 <= r <= 1 -> 0 <= rp <= 1 -> 0 <= b <= 1 ->
  0 <= p <= 3 -> 0 <= a <= 1 -> 0 <= c <= 1 ->
  let x := f * 0x80 + r * 0x40 + rp * 0x20 + b * 0x10 + p * 0x04 + a * 0x02
           + c in
  0 <= x <= 255
  /\ Z.land (Z.shiftr x 7) 1 = f /\ Z.land (Z.shiftr x 6) 1 = r
  /\ Z.land (Z.shiftr x 5) 1 = rp /\ Z.land (Z.shiftr x 4) 1 = b
  /\ Z.land (Z.shiftr x 2) 3 = p /\ Z.land (Z.shiftr x 1) 1 = a
  /\ Z.land x 1 = c.
Proof.
  intros. enumerate; vm_compute; repeat split; discriminate.
Qed.

Lemma ctrlField2_bits (t h e : Z) :
  0 <= t <= 1 -> 0 <= h <= 7 -> 0 <= e <= 15 ->
  let x := t * 0x80 + h * 0x10 + e in
  0 <= x <= 255
  /\ Z.land (Z.shiftr x 7) 1 = t /\ Z.land (Z.shiftr x 4) 7 = h
  /\ Z.land x 0xF = e.
Proof.
  intros Ht Hh He x. subst x.
  assert (R : 0 <= h * 16 + e < 128) by lia.
  split; [lia|].
  rewrite !Z.shiftr_div_pow2 by lia.
  rewrite ((fun y => Z.land_ones y 1 ltac:(lia))
           : forall y, Z.land y 1 = y mod 2).
  rewrite ((fun y => Z.land_ones y 3 ltac:(lia))
           : forall y, Z.land y 7 = y mod 8).
  rewrite ((fun y => Z.land_ones y 4 ltac:(lia))
           : forall y, Z.land y 0xF = y mod 16).
  change (2 ^ 7) with 128. change (2 ^ 4) with 16.
  repeat split.
  - enumerate; rewrite ?Z.mul_0_l, ?Z.mul_1_l, ?Z.add_0_l.
    + rewrite Z.div_small by lia. reflexivity.
    + replace (128 + h * 16 + e) with (h * 16 + e + 1 * 128) by lia.
      rewrite Z.div_add by lia. rewrite Z.div_small by lia. reflexivity.
  - replace (t * 128 + h * 16 + e) with (e + (t * 8 + h) * 16) by lia.
    rewrite Z.div_add by lia. rewrite Z.div_small by lia.
    rewrite Z.add_0_l. rewrite Z.add_comm, Z.mod_add by lia.
    apply Z.mod_small. lia.
  - replace (t * 128 + h * 16 + e) with (e + (t * 8 + h) * 16) by lia.
    rewrite Z.mod_add by lia. apply Z.mod_small. lia.
Qed.

Lemma parse_ctrl_fields (k : Ctrl.t) :
  ctrl_shaped k ->
  byte_value (CEMI.ctrlField1 k) /\ byte_value (CEMI.ctrlField2 k)
  /\ CEMI.parse_ctrl [Buffer.of_Z (CEMI.ctrlField1 k);
                      Buffer.of_Z (CEMI.ctrlField2 k)] = k.
Proof.
  destruct k as [f r rp b p a c t h e].
  unfold ctrl_shaped, CEMI.ctrlField1, CEMI.ctrlField2, byte_value.
  cbn [Ctrl.frameType Ctrl.reserved Ctrl.repeat Ctrl.broadcast Ctrl.priority
       Ctrl.acknowledge Ctrl.confirm Ctrl.destAddrType Ctrl.hopCount
       Ctrl.extendedFrame].
  intros (Hf & Hr & Hrp & Hb & Hp & Ha & Hc & Ht & Hh & He).
  destruct (ctrlField1_bits f r rp b p a c Hf Hr Hrp Hb Hp Ha Hc)
    as (R1 & E1 & E2 & E3 & E4 & E5 & E6 & E7).
  destruct (ctrlField2_bits t h e Ht Hh He) as (R2 & E8 & E9 & E10).
  cbv zeta in *.
  split; [exact R1|]. split; [exact R2|].
  unfold CEMI.parse_ctrl. cbn [nth].
  rewrite !to_of_Z by assumption.
  rewrite E1, E2, E3, E4, E5, E6, E7, E8, E9, E10. reflexivity.
Qed.

Lemma CEMI_codec (flag : bool) (c : CEMI.t) :
  cemi_shaped flag c ->
  exists bs,
    CEMI.write flag (Some c) = Ok bs
    /\ CEMI.length (Some c) = Ok (Z.of_nat (List.length bs))
    /\ (8 <= List.length bs <= 25)%nat
    /\ forall n, decodes n (CEMI.read flag) bs (canonical_cemi c).
Proof.
  intros (M & (l & AL & Hl) & (k & K & Hk & (dh & dl & D)) & (sh & sl & S) & A).
  destruct (parse_ctrl_fields k Hk) as (F1 & F2 & P).
  assert (body : exists abs,
             (if one_of (CEMI.msgcode c) L_Data
              then match CEMI.apdu c with
                   | None => Throw "no APDU supplied)"
                   | Some a => APDU.write (Some a)
                   end
              else Ok []) = Ok abs
             /\ APDU.length (CEMI.apdu c) = Ok (Z.of_nat (List.length abs))
             /\ (List.length abs <= 17)%nat
             /\ forall n,
                 decodes n
                   (if one_of (CEMI.msgcode c) L_Data
                    then Reader.rbind APDU.read (fun apdu =>
                           Reader.ret
                             (CEMI.mk (CEMI.msgcode c) (Some l) (Some k)
                                (CEMI.srcAddr c) (CEMI.destAddr c)
                                (Some apdu)))
                    else Reader.ret
                           (CEMI.mk (CEMI.msgcode c) (Some l) (Some k)
                              (CEMI.srcAddr c) (CEMI.destAddr c) None))
                   abs (canonical_cemi c)).
  { unfold canonical_cemi. rewrite AL, K.
    destruct (one_of (CEMI.msgcode c) L_Data).
    - destruct A as (a & -> & Ha).
      destruct (APDU_codec a Ha) as (abs & W & L & R & Dec).
      exists abs. repeat split; try assumption; try lia.
      intros n. eapply decodes_last; [apply Dec | apply decodes_ret].
    - rewrite A. exists []. repeat split; try reflexivity.
      + cbn. lia.
      + intros n. apply decodes_ret. }
  destruct body as (abs & W & L & R & Dec).
  exists ([Buffer.of_Z (CEMI.msgcode c)] ++ [Buffer.of_Z l]
          ++ [Buffer.of_Z (CEMI.ctrlField1 k); Buffer.of_Z (CEMI.ctrlField2 k)]
          ++ [sh; sl] ++ [dh; dl] ++ abs).
  split; [|split; [|split]].
  - unfold CEMI.write. rewrite K, AL, W. cbn [JS.to_number].
    rewrite (KnxAddress_parse_toString _ _ _ _ _ S).
    rewrite (KnxAddress_parse_toString _ _ _ _ _ D).
    rewrite !writeUInt8_ok by (unfold byte_value in *; assumption).
    reflexivity.
  - unfold CEMI.length. rewrite L. unfold bind.
    f_equal. cbn [List.length Datatypes.app]. lia.
  - cbn [List.length Datatypes.app]. lia.
  - intros n. unfold CEMI.read.
    eapply decodes_bind; [apply decodes_UInt8; exact M|].
    eapply decodes_bind; [apply decodes_UInt8; exact Hl|].
    eapply decodes_bind; [apply decodes_raw; reflexivity|].
    eapply decodes_bind; [apply decodes_raw; reflexivity|].
    eapply decodes_bind; [apply decodes_raw; reflexivity|].
    cbv zeta. rewrite P, S, D. apply Dec.
Qed.

(** ** Whole frames *)

Lemma framed_length (st total : Z) (body : Buffer.t) :
  Z.of_nat (List.length (framed st total body))
  = 6 + Z.of_nat (List.length body).
Proof. unfold framed. cbn [List.length Datatypes.app]. lia. Qed.

Lemma framed_run {A : Type} (r : Reader.t A) (st total : Z) (body : Buffer.t)
    (a : A) :
  (2 <= List.length body)%nat ->
  decodes 8 r (framed st total body) a ->
  Reader.run r (framed st total body) = Ok a.
Proof.
  intros L D. apply decodes_run. eapply decodes_weaken; [|exact D].
  pose proof (framed_length st total body). lia.
Qed.

Ltac decide_tests :=
  repeat match goal with
         | |- context [one_of ?x ?l] =>
             let b := eval vm_compute in (one_of x l) in
             match b with
             | true => change (one_of x l) with true
             | false => change (one_of x l) with false
             end
         | |- context [Z.eqb ?x ?y] =>
             let b := eval vm_compute in (Z.eqb x y) in
             match b with
             | true => change (Z.eqb x y) with true
             | false => change (Z.eqb x y) with false
             end
         | |- context [Z.gtb ?x ?y] =>
             let b := eval vm_compute in (Z.gtb x y) in
             match b with
             | true => change (Z.gtb x y) with true
             | false => change (Z.gtb x y) with false
             end
         end;
  cbv iota.

Ltac read_header :=
  unfold KNXNetHeader.read, framed;
  eapply decodes_bind; [apply decodes_UInt8; lia|];
  eapply decodes_bind; [apply decodes_UInt8; lia|];
  eapply decodes_bind; [apply decodes_UInt16BE; vm_compute; split; discriminate|];
  eapply decodes_bind; [apply decodes_UInt16BE; lia|];
  cbv zeta; apply decodes_buffer_length; intros ? _;
  unfold JS.lt, Reader.totalLength; cbv iota.

Ltac write_frame :=
  unfold KNXNetHeader.write, KNXNetHeader.length,
    KNXNetHeader.set_totalLength;
  cbn [KNXNetHeader.serviceType KNXNetHeader.hpai KNXNetHeader.tunn
       KNXNetHeader.cri KNXNetHeader.connstate KNXNetHeader.tunnstate
       KNXNetHeader.cemi KNXNetHeader.totalLength];
  decide_tests.

Ltac finish_write :=
  rewrite ?writeUInt8_ok, ?writeUInt16BE_ok
    by (vm_compute; split; discriminate);
  unfold framed; cbn [Buffer.seq bind Datatypes.app];
  rewrite <- ?app_assoc, ?app_nil_r; reflexivity.

Lemma request_roundtrip (flag : bool) (hl pv st : Z) (tl : option Z)
    (h t : HPAI.t) (c : CRI.t) :
  st = SERVICE_TYPE.SEARCH_REQUEST \/ st = SERVICE_TYPE.CONNECT_REQUEST ->
  hpai_shaped h -> hpai_shaped t -> cri_shaped c ->
  let v := KNXNetHeader.mk hl pv st tl (Some h) (Some t) (Some c) None None
             None None None in
  exists bytes total,
    total = Z.of_nat (List.length bytes)
    /\ KNXNetHeader.write flag v
       = Ok (KNXNetHeader.set_totalLength (Some total) v, bytes)
    /\ Reader.run (KNXNetHeader.read flag) bytes = Ok (canonical total v).
Proof.
  intros Hst Hh Ht Hc v. subst v.
  destruct (HPAI_codec h Hh) as (hb & Wh & Lh & Dh).
  destruct (HPAI_codec t Ht) as (tb & Wt & Lt & Dt).
  destruct (CRI_codec c Hc) as (cb & Wc & Lc & Dc).
  exists (framed st 26 (hb ++ tb ++ cb)), 26.
  split; [|split].
  - rewrite framed_length, !length_app, Lh, Lt, Lc. reflexivity.
  - unfold KNXNetHeader.write, KNXNetHeader.length, KNXNetHeader.set_totalLength.
    cbn [KNXNetHeader.serviceType KNXNetHeader.hpai KNXNetHeader.tunn
         KNXNetHeader.cri KNXNetHeader.totalLength].
    destruct Hst as [-> | ->]; decide_tests;
      cbn [bind HPAI.length CRI.length JS.to_number];
      rewrite Wh, Wt, Wc, !writeUInt8_ok, !writeUInt16BE_ok
        by (vm_compute; split; discriminate);
      unfold framed; cbn [Buffer.seq bind Datatypes.app];
      rewrite <- ?app_assoc; reflexivity.
  - apply framed_run; [rewrite !length_app; lia|].
    destruct Hst as [-> | ->]; read_header; decide_tests;
      (eapply decodes_bind; [apply Dh; lia|]);
      (eapply decodes_bind; [apply Dt; lia|]);
      (eapply decodes_last; [apply Dc|]);
      apply decodes_ret.
Qed.

Lemma session_roundtrip (flag : bool) (hl pv st : Z) (tl : option Z)
    (cs : ConnState.t) (oh : option HPAI.t) (oc : option CRI.t) :
  In st [SERVICE_TYPE.CONNECT_RESPONSE; SERVICE_TYPE.CONNECTIONSTATE_REQUEST;
         SERVICE_TYPE.CONNECTIONSTATE_RESPONSE;
         SERVICE_TYPE.DISCONNECT_REQUEST] ->
  connstate_shaped cs -> optional hpai_shaped oh -> optional cri_shaped oc ->
  (oh = None -> oc = None) ->
  let v := KNXNetHeader.mk hl pv st tl oh None oc (Some cs) None None None
             None in
  exists bytes total,
    total = Z.of_nat (List.length bytes)
    /\ KNXNetHeader.write flag v
       = Ok (KNXNetHeader.set_totalLength (Some total) v, bytes)
    /\ Reader.run (KNXNetHeader.read flag) bytes = Ok (canonical total v).
Proof.
  intros Hst Hcs Hh Hc Hhc v. subst v.
  destruct (ConnState_codec cs Hcs) as (sb & Ws & Ls & Ds).
  assert (St : st = SERVICE_TYPE.CONNECT_RESPONSE
               \/ st = SERVICE_TYPE.CONNECTIONSTATE_REQUEST
               \/ st = SERVICE_TYPE.CONNECTIONSTATE_RESPONSE
               \/ st = SERVICE_TYPE.DISCONNECT_REQUEST)
    by (cbn in Hst; intuition congruence).
  clear Hst.
  destruct oh as [h|]; [|rewrite (Hhc eq_refl) in *; clear Hhc].
  - destruct (HPAI_codec h Hh) as (hb & Wh & Lh & Dh).
    destruct oc as [c|].
    + destruct (CRI_codec c Hc) as (cb & Wc & Lc & Dc).
      exists (framed st 20 (sb ++ hb ++ cb)), 20.
      split; [|split].
      * rewrite framed_length, !length_app, Ls, Lh, Lc. reflexivity.
      * destruct St as [-> | [-> | [-> | ->]]]; write_frame;
          cbn [bind ConnState.length HPAI.length CRI.length JS.to_number];
          rewrite Ws, Wh, Wc; finish_write.
      * apply framed_run; [rewrite !length_app; lia|].
        destruct St as [-> | [-> | [-> | ->]]]; read_header; decide_tests;
          (eapply decodes_bind; [apply Ds|]);
          (eapply decodes_bind;
           [eapply decodes_last; [apply Dh; lia | apply decodes_ret]|]);
          (eapply decodes_last; [apply Dc|]);
          apply decodes_ret.
    + exists (framed st 16 (sb ++ hb)), 16.
      split; [|split].
      * rewrite framed_length, !length_app, Ls, Lh. reflexivity.
      * destruct St as [-> | [-> | [-> | ->]]]; write_frame;
          cbn [bind ConnState.length HPAI.length CRI.length CRI.write
               JS.to_number];
          rewrite Ws, Wh; finish_write.
      * apply framed_run; [rewrite !length_app; lia|].
        destruct St as [-> | [-> | [-> | ->]]]; read_header; decide_tests;
          (eapply decodes_bind; [apply Ds|]);
          (eapply decodes_last;
           [eapply decodes_last; [apply Dh; lia | apply decodes_ret]|]);
          apply decodes_ret.
  - exists (framed st 8 sb), 8.
    split; [|split].
    + rewrite framed_length, Ls. reflexivity.
    + destruct St as [-> | [-> | [-> | ->]]]; write_frame;
        cbn [bind ConnState.length HPAI.length CRI.length CRI.write
             HPAI.write JS.to_number];
        rewrite Ws; finish_write.
    + apply framed_run; [lia|].
      destruct St as [-> | [-> | [-> | ->]]]; read_header; decide_tests;
        (eapply decodes_last; [apply Ds|]);
        (eapply decodes_last; [apply decodes_ret|]);
        apply decodes_ret.
Qed.

Lemma tunneling_request_roundtrip (flag : bool) (hl pv : Z) (tl : option Z)
    (ts : TunnState.t) (c : CEMI.t) :
  tunnstate_shaped ts -> cemi_shaped flag c ->
  let v := KNXNetHeader.mk hl pv SERVICE_TYPE.TUNNELING_REQUEST tl None None
             None None (Some ts) (Some c) None None in
  exists bytes total,
    total = Z.of_nat (List.length bytes)
    /\ KNXNetHeader.write flag v
       = Ok (KNXNetHeader.set_totalLength (Some total) v, bytes)
    /\ Reader.run (KNXNetHeader.read flag) bytes = Ok (canonical total v).
Proof.
  intros Hts Hc v. subst v.
  destruct (TunnState_codec ts Hts) as (tb & Wt & Lt & Dt).
  destruct (CEMI_codec flag c Hc) as (cb & Wc & Lc & Rc & Dc).
  exists (framed SERVICE_TYPE.TUNNELING_REQUEST
            (6 + 4 + Z.of_nat (List.length cb)) (tb ++ cb)),
    (6 + 4 + Z.of_nat (List.length cb)).
  split; [|split].
  - rewrite framed_length, length_app, Lt. lia.
  - write_frame. rewrite Lc.
    cbn [bind TunnState.length JS.to_number]. rewrite Wt, Wc.
    rewrite (writeUInt16BE_ok (6 + 4 + Z.of_nat (List.length cb))) by lia.
    finish_write.
  - apply framed_run; [rewrite length_app; lia|].
    read_header. decide_tests.
    eapply decodes_bind; [apply Dt|].
    eapply decodes_last; [apply Dc|].
    apply decodes_ret.
Qed.

Lemma tunneling_ack_roundtrip (flag : bool) (hl pv : Z) (tl : option Z)
    (ts : TunnState.t) :
  tunnstate_shaped ts ->
  let v := KNXNetHeader.mk hl pv SERVICE_TYPE.TUNNELING_ACK tl None None
             None None (Some ts) None None None in
  exists bytes total,
    total = Z.of_nat (List.length bytes)
    /\ KNXNetHeader.write flag v
       = Ok (KNXNetHeader.set_totalLength (Some total) v, bytes)
    /\ Reader.run (KNXNetHeader.read flag) bytes = Ok (canonical total v).
Proof.
  intros Hts v. subst v.
  destruct (TunnState_codec ts Hts) as (tb & Wt & Lt & Dt).
  exists (framed SERVICE_TYPE.TUNNELING_ACK 10 tb), 10.
  split; [|split].
  - rewrite framed_length, Lt. reflexivity.
  - write_frame. cbn [bind CEMI.length TunnState.length JS.to_number].
    rewrite Wt. finish_write.
  - apply framed_run; [lia|].
    read_header. decide_tests.
    eapply decodes_last; [apply Dt|].
    apply decodes_ret.
Qed.

Lemma routing_roundtrip (flag : bool) (hl pv : Z) (tl : option Z)
    (c : CEMI.t) :
  cemi_shaped flag c ->
  let v := KNXNetHeader.mk hl pv SERVICE_TYPE.ROUTING_INDICATION tl None None
             None None None (Some c) None None in
  exists bytes total,
    total = Z.of_nat (List.length bytes)
    /\ KNXNetHeader.write flag v
       = Ok (KNXNetHeader.set_totalLength (Some total) v, bytes)
    /\ Reader.run (KNXNetHeader.read flag) bytes = Ok (canonical total v).
Proof.
  intros Hc v. subst v.
  destruct (CEMI_codec flag c Hc) as (cb & Wc & Lc & Rc & Dc).
  exists (framed SERVICE_TYPE.ROUTING_INDICATION
            (6 + Z.of_nat (List.length cb)) cb),
    (6 + Z.of_nat (List.length cb)).
  split; [|split].
  - rewrite framed_length. reflexivity.
  - write_frame. rewrite Lc.
    cbn [bind TunnState.write JS.to_number]. rewrite Wc.
    rewrite (writeUInt16BE_ok (6 + Z.of_nat (List.length cb))) by lia.
    finish_write.
  - apply framed_run; [lia|].
    read_header. decide_tests.
    eapply decodes_last; [apply Dc|].
    apply decodes_ret.
Qed.

(** C1 (the claim as stated, at a failing input): the acknowledgement the
    builder makes carries an HPAI and the TunnState's tunnel endpoint; they
    are not written, so the frame read back from its ten bytes has neither
    and differs from it by more than HPAI.length, CRI.length and the header
    constants. *)
Lemma acknowledgement_is_not_read_back :
  KNXNetHeader.write true acknowledgement
  = Ok (KNXNetHeader.set_totalLength (Some 10) acknowledgement,
        ack_packet 7 0)
  /\ Reader.run (KNXNetHeader.read true) (ack_packet 7 0)
     = Ok (ack_frame 7 0)
  /\ KNXNetHeader.hpai acknowledgement = Some (HPAI.mk None 1 "0.0.0.0:0")
  /\ KNXNetHeader.hpai (ack_frame 7 0) = None
  /\ up_to_defaults (ack_frame 7 0) <> up_to_defaults acknowledgement.
Proof.
  repeat split; try (vm_compute; reflexivity).
  vm_compute. discriminate.
Qed.

(** C1 (amended): a frame of a service type both the writer and the reader
    handle (SEARCH_REQUEST, CONNECT_REQUEST, CONNECT_RESPONSE,
    CONNECTIONSTATE_REQUEST, CONNECTIONSTATE_RESPONSE, DISCONNECT_REQUEST,
    TUNNELING_REQUEST, TUNNELING_ACK, ROUTING_INDICATION) that carries
    exactly the sub-structures the reader collects for that type, with every
    field populated and in range, is written, the writer storing the number
    of bytes emitted as its total length, and the bytes are read back as the
    same frame with the header constants, the total length, the length bytes
    of HPAI, CRI and TunnState and the length and raw bytes of the APDU
    filled in. *)
Theorem KNXNetHeader_roundtrip (flag : bool) (v : KNXNetHeader.t) :
  reader_shaped flag v ->
  exists bytes total,
    total = Z.of_nat (List.length bytes)
    /\ KNXNetHeader.write flag v
       = Ok (KNXNetHeader.set_totalLength (Some total) v, bytes)
    /\ Reader.run (KNXNetHeader.read flag) bytes = Ok (canonical total v).
Proof.
  destruct v as [hl pv st tl oh ot oc ocs ots oce dv va].
  unfold reader_shaped.
  cbn [KNXNetHeader.serviceType KNXNetHeader.hpai KNXNetHeader.tunn
       KNXNetHeader.cri KNXNetHeader.connstate KNXNetHeader.tunnstate
       KNXNetHeader.cemi KNXNetHeader.devinfo KNXNetHeader.value].
  intros (-> & -> & [S | [S | [S | [S | S]]]]).
  - destruct S as (Hst & Hh & Ht & Hc & -> & -> & ->).
    destruct oh as [h|]; [|contradiction].
    destruct ot as [t|]; [|contradiction].
    destruct oc as [c|]; [|contradiction].
    exact (request_roundtrip flag hl pv st tl h t c Hst Hh Ht Hc).
  - destruct S as (Hst & Hcs & Hh & Hc & Hhc & -> & -> & ->).
    destruct ocs as [cs|]; [|contradiction].
    exact (session_roundtrip flag hl pv st tl cs oh oc Hst Hcs Hh Hc Hhc).
  - destruct S as (-> & Hts & Hce & -> & -> & -> & ->).
    destruct ots as [ts|]; [|contradiction].
    destruct oce as [ce|]; [|contradiction].
    exact (tunneling_request_roundtrip flag hl pv tl ts ce Hts Hce).
  - destruct S as (-> & Hts & -> & -> & -> & -> & ->).
    destruct ots as [ts|]; [|contradiction].
    exact (tunneling_ack_roundtrip flag hl pv tl ts Hts).
  - destruct S as (-> & Hce & -> & -> & -> & -> & ->).
    destruct oce as [ce|]; [|contradiction].
    exact (routing_roundtrip flag hl pv tl ce Hce).
Qed.

Lemma group_write_shaped : reader_shaped false group_write.
Proof.
  unfold reader_shaped, group_write.
  cbn [KNXNetHeader.serviceType KNXNetHeader.hpai KNXNetHeader.tunn
       KNXNetHeader.cri KNXNetHeader.connstate KNXNetHeader.tunnstate
       KNXNetHeader.cemi KNXNetHeader.devinfo KNXNetHeader.value present].
  split; [reflexivity|]. split; [reflexivity|].
  right. right. left.
  split; [reflexivity|]. split; [|split; [|repeat split; reflexivity]].
  - exists 7, 0, 0. unfold byte_value. cbn. repeat split; lia.
  - unfold cemi_shaped, byte_value.
    cbn [CEMI.msgcode CEMI.addinfoLength CEMI.ctrl CEMI.srcAddr CEMI.destAddr
         CEMI.apdu].
    split; [vm_compute; split; discriminate|].
    split; [exists 0; split; [reflexivity | lia]|].
    split; [|split].
    + eexists. split; [reflexivity|]. split.
      * unfold ctrl_shaped. cbn. lia.
      * exists (Buffer.of_Z 0x0a), (Buffer.of_Z 0x03). reflexivity.
    + exists (Buffer.of_Z 0x11), (Buffer.of_Z 0x01). reflexivity.
    + change (one_of MESSAGECODES.L_Data_req L_Data) with true. cbv iota.
      eexists. split; [reflexivity|].
      unfold apdu_shaped, known_apci. cbn.
      split; [lia|]. split; [discriminate|]. split; [reflexivity|].
      eexists. split; [reflexivity|]. cbn. lia.
Defined.

Lemma KNXNetHeader_roundtrip_witness :
  reader_shaped false group_write
  /\ exists bytes total,
       total = Z.of_nat (List.length bytes)
       /\ KNXNetHeader.write false group_write
          = Ok (KNXNetHeader.set_totalLength (Some total) group_write, bytes)
       /\ Reader.run (KNXNetHeader.read false) bytes
          = Ok (canonical total group_write).
Proof.
  split; [exact group_write_shaped|].
  exact (KNXNetHeader_roundtrip false group_write group_write_shaped).
Defined.

End KnxProtocolFacts.

Module KnxConnectionFacts.

Import KnxConstants KnxProtocol Scenario KnxProtocolFacts.

Lemma strict_eq_iff (a : option Z) (b : Z) :
  JS.strict_eq a b = true <-> a = Some b.
Proof.
  destruct a as [v|]; cbn; [|split; discriminate].
  rewrite Z.eqb_eq. split; congruence.
Qed.

Lemma other_channel_iff (c : Z) (d : KNXNetHeader.t) :
  KnxDatagram.other_channel c d = true <-> foreign c d.
Proof.
  unfold KnxDatagram.other_channel, foreign.
  rewrite orb_true_iff. split.
  - intros [H|H]; [left|right].
    + destruct (KNXNetHeader.connstate d) as [cs|]; [|discriminate].
      exists cs. split; [reflexivity|].
      apply negb_true_iff in H. intros E. apply strict_eq_iff in E. congruence.
    + destruct (KNXNetHeader.tunnstate d) as [ts|]; [|discriminate].
      exists ts. split; [reflexivity|].
      apply negb_true_iff in H. intros E. apply strict_eq_iff in E. congruence.
  - intros [(cs & -> & H)|(ts & -> & H)]; [left|right];
      apply negb_true_iff;
      match goal with
      | |- ?b = false => destruct b eqn:E; [|reflexivity]
      end; apply strict_eq_iff in E; contradiction.
Qed.

Lemma datagramDesc_of_read (flag : bool) (msg : Buffer.t)
    (d : KNXNetHeader.t) (dg : KnxDatagram.t) :
  Reader.run (KNXNetHeader.read flag) msg = Ok d ->
  exists desc, KnxDatagram.datagramDesc (KnxDatagram.set_datagram d dg)
               = Ok desc.
Proof.
  intros R. unfold KnxDatagram.datagramDesc.
  cbn [KnxDatagram.datagram KnxDatagram.set_datagram].
  destruct (one_of (KNXNetHeader.serviceType d)
              [SERVICE_TYPE.TUNNELING_REQUEST;
               SERVICE_TYPE.ROUTING_INDICATION]) eqn:S; [|eauto].
  pose proof (read_cemi_present flag msg d R S).
  destruct (KNXNetHeader.cemi d); [eauto | congruence].
Qed.

(** C8: while the session has a channel id, a parsed frame that carries a
    ConnState or a TunnState of another channel is dropped: [parseKnxMessage]
    returns null and the control listener raises no input and changes
    nothing.  Every other parsed frame, whether its channel id matches or it
    carries neither structure, is returned and passed upward: the listener
    hands it to [handle] under the input named after its descriptor, after
    purging the queue for a DISCONNECT_REQUEST, and what [handle] does with
    it is what the listener does. *)
Theorem channel_filter (m : KnxConnection.t) (c : Z) (msg : Buffer.t)
    (from : KnxConnection.rinfo) (d : KNXNetHeader.t) :
  KnxConnection._channelID m = Some c ->
  Reader.run (KNXNetHeader.read (KnxConnection.flag m)) msg = Ok d ->
  (foreign c d ->
   KnxDatagram.parseKnxMessage (Some c) msg (KnxConnection._options m)
     (KnxConnection.made m) = None
   /\ KnxConnection.control_input msg from m = Ok None
   /\ KnxConnection.control_message msg from m = Ok (m, []))
  /\ (~ foreign c d ->
      exists desc,
        KnxDatagram.datagramDesc
          (KnxDatagram.set_datagram d
             (KnxDatagram.new (KnxConnection._options m)
                (KnxConnection.made m)))
        = Ok desc
        /\ KnxDatagram.parseKnxMessage (Some c) msg
             (KnxConnection._options m) (KnxConnection.made m)
           = Some (KnxDatagram.set_datagram d
                     (KnxDatagram.new (KnxConnection._options m)
                        (KnxConnection.made m)))
        /\ KnxConnection.control_input msg from m
           = Ok (Some (("inbound_" ++ desc)%string, d))
        /\ KnxConnection.control_message msg from m
           = (r <- KnxConnection.handle ("inbound_" ++ desc)
                     (KnxConnection.frame d) (KnxConnection.upd_made m) ;;
              Ok (fst r,
                  (if String.eqb desc "DISCONNECT_REQUEST"
                   then [KnxConnection.clearQueue] else []) ++ snd r))).
Proof.
  intros C R.
  destruct (datagramDesc_of_read _ msg d
              (KnxDatagram.new (KnxConnection._options m)
                 (KnxConnection.made m)) R) as [desc D].
  unfold KnxConnection.flag in R.
  assert (P : forall b, KnxDatagram.other_channel c d = b ->
              KnxDatagram.parseKnxMessage (Some c) msg
                (KnxConnection._options m) (KnxConnection.made m)
              = if b then None
                else Some (KnxDatagram.set_datagram d
                             (KnxDatagram.new (KnxConnection._options m)
                                (KnxConnection.made m)))).
  { intros b <-. unfold KnxDatagram.parseKnxMessage. rewrite R, D.
    reflexivity. }
  split.
  - intros F. apply other_channel_iff in F. specialize (P true F).
    unfold KnxConnection.control_message, KnxConnection.control_input.
    rewrite C, P. repeat split; reflexivity.
  - intros F. assert (O : KnxDatagram.other_channel c d = false).
    { destruct (KnxDatagram.other_channel c d) eqn:E; [|reflexivity].
      apply other_channel_iff in E. contradiction. }
    specialize (P false O). exists desc.
    split; [exact D|]. split; [exact P|].
    assert (I : KnxConnection.control_input msg from m
                = Ok (Some (("inbound_" ++ desc)%string, d))).
    { unfold KnxConnection.control_input. rewrite C, P, D. reflexivity. }
    split; [exact I|].
    unfold KnxConnection.control_message. rewrite I.
    cbn [bind]. unfold KnxConnection.then_. cbn [fst snd].
    reflexivity.
Qed.

Lemma channel_filter_witness :
  (KnxDatagram.parseKnxMessage (Some 9) short_ack
     (KnxConnection._options (session 9)) (KnxConnection.made (session 9))
   = None
   /\ KnxConnection.control_input short_ack gateway_rinfo (session 9)
      = Ok None
   /\ KnxConnection.control_message short_ack gateway_rinfo (session 9)
      = Ok (session 9, []))
  /\ (exists m' e,
        KnxConnection.control_message (ack_packet 7 0) gateway_rinfo
          awaiting_ack = Ok (m', e)
        /\ KnxConnection.state m' = KnxConnection.waiting
        /\ KnxConnection._outboundSeqNum m' = 1
        /\ emitted e = [("ReceivedAck_0", [KnxConnection.text "NO_ERROR"])]).
Proof.
  split.
  - refine (proj1 (channel_filter (session 9) 9 short_ack gateway_rinfo _
                     eq_refl read_short_ack) _).
    right. eexists. split; [reflexivity|]. cbn. discriminate.
  - destruct (proj2 (channel_filter awaiting_ack 7 (ack_packet 7 0)
                       gateway_rinfo (ack_frame 7 0) eq_refl eq_refl))
      as (desc & D & _ & _ & M).
    { intros [(cs & C & _) | (ts & T & N)].
      - discriminate C.
      - injection T as <-. apply N. reflexivity. }
    injection D as <-. rewrite M.
    do 2 eexists. split; [reflexivity|]. repeat split.
Defined.

(** The discovery listener replaces an unspecified endpoint by the sender
    of the packet. *)
Lemma discover_listener_substitutes (m : KnxConnection.t) (msg : Buffer.t)
    (from : KnxConnection.rinfo) (response : KnxDatagram.t)
    (d : KNXNetHeader.t) (h : HPAI.t) :
  KnxDatagram.parseKnxMessage (KnxConnection._channelID m) msg
    (KnxConnection._options m) (KnxConnection.made m) = Some response ->
  KnxDatagram.datagram response = Some d ->
  KNXNetHeader.hpai d = Some h ->
  HPAI.tunnelEndpoint h = "0.0.0.0:0" ->
  forall signal d',
    KnxConnection.discover_input msg from m = Ok (Some (signal, d')) ->
    option_map HPAI.tunnelEndpoint (KNXNetHeader.hpai d')
    = Some (KnxConnection.address from ++ ":"
            ++ JS.dec (KnxConnection.port from))%string.
Proof.
  intros P D H E signal d'. unfold KnxConnection.discover_input.
  rewrite P, D, H, E. cbn [String.eqb Ascii.eqb Bool.eqb].
  match goal with
  | |- context [KnxDatagram.datagramDesc ?x] =>
      destruct (KnxDatagram.datagramDesc x); [|discriminate]
  end.
  cbn. intros X. injection X as _ <-. reflexivity.
Qed.

(** C9 (the code at the failing input): a CONNECT_RESPONSE whose HPAI is
    0.0.0.0:0, sent from 192.168.1.10:3671, is handed to the machine by the
    control listener with its HPAI still 0.0.0.0:0, while the discovery
    listener hands the same packet over with the sender's address and
    port. *)
Theorem control_listener_keeps_unspecified_endpoint :
  raised_endpoint
    (KnxConnection.control_input connect_response gateway_rinfo
       (KnxConnection.initialize no_options))
  = Ok (Some ("inbound_CONNECT_RESPONSE", Some "0.0.0.0:0"))
  /\ raised_endpoint
       (KnxConnection.discover_input connect_response gateway_rinfo
          (KnxConnection.initialize no_options))
     = Ok (Some ("inbound_CONNECT_RESPONSE", Some "192.168.1.10:3671")).
Proof. split; vm_compute; reflexivity. Qed.

(** ** The counters under every handler *)

Import KnxConnection BufferFacts.

Lemma bind_inv {A B : Type} (m : result A) (k : A -> result B) (r : B) :
  bind m k = Ok r -> exists a, m = Ok a /\ k a = Ok r.
Proof. destruct m; cbn; [eauto | discriminate]. Qed.

Lemma then_inv (r : t * list effect) (k : t -> outcome) (m' : t)
    (e : list effect) :
  then_ r k = Ok (m', e) ->
  exists e1, k (fst r) = Ok (m', e1) /\ e = snd r ++ e1.
Proof.
  unfold then_. intros H. apply bind_inv in H.
  destruct H as ([m1 e1] & H1 & H2). injection H2 as <- <-. eauto.
Qed.

(** Open up a successful sequence of actions. *)
Ltac unbind :=
  repeat match goal with
         | H : bind _ _ = Ok _ |- _ =>
             apply bind_inv in H; destruct H as (? & ? & ?)
         | H : then_ _ _ = Ok (_, _) |- _ =>
             apply then_inv in H; destruct H as (? & ? & ?)
         | H : Ok _ = Ok _ |- _ => inversion H; subst; clear H
         | H : Throw _ = Ok _ |- _ => discriminate H
         | x : (t * list effect)%type |- _ => destruct x
         end.

Ltac same := split; reflexivity.

Lemma same_trans (a b c : t) :
  same_counters a b -> same_counters b c -> same_counters a c.
Proof. unfold same_counters. intuition congruence. Qed.

Lemma prepare_and_send_same svc s r m m' e :
  prepare_and_send svc s r m = Ok (m', e) -> same_counters m m'.
Proof. unfold prepare_and_send. intros H. unbind. same. Qed.

Lemma onExit_same m : same_counters m (fst (onExit m)).
Proof.
  unfold onExit. destruct (state m); try same.
  destruct (_discoverSocket m); same.
Qed.

Ltac open_matches :=
  repeat match goal with
         | H : prepare_and_send _ _ _ _ = Ok _ |- _ =>
             apply prepare_and_send_same in H
         | H : context [match ?x with _ => _ end] |- _ =>
             destruct x eqn:?; unbind
         end.

Lemma onEnter_leaf_same a m m' e :
  onEnter_leaf a m = Ok (m', e) -> same_counters m m'.
Proof.
  unfold onEnter_leaf, _startSearch, _startConnect,
    send_CONNECTIONSTATE_REQUEST, send_TUNNELING_REQUEST.
  intros H.
  destruct (state m); unbind; open_matches; cbn [fst snd] in *;
    try same; try assumption.
Qed.

Lemma transition_leaf_same target a m m' e :
  transition_with onEnter_leaf target a m = Ok (m', e) -> same_counters m m'.
Proof.
  unfold transition_with. destruct (state_eqb target (state m)).
  - intros H. unbind. same.
  - pose proof (onExit_same m) as X. destruct (onExit m) as [m1 e1].
    intros H. unbind.
    match goal with
    | T : onEnter_leaf _ _ = Ok _ |- _ => apply onEnter_leaf_same in T;
        eapply same_trans; [exact X | exact T]
    end.
Qed.

Lemma acknowledge_inbound_counters d m m' e :
  acknowledge_inbound d m = Ok (m', e) ->
  _outboundSeqNum m' = _outboundSeqNum m
  /\ (_inboundSeqNum m' = _inboundSeqNum m
      \/ _inboundSeqNum m' = Z.rem (_inboundSeqNum m + 1) 256).
Proof.
  unfold acknowledge_inbound. intros H. open_matches; cbn; auto.
Qed.

Lemma onEnter_counters a m m' e :
  onEnter a m = Ok (m', e) ->
  (state m = connected -> _inboundSeqNum m' = 0 /\ _outboundSeqNum m' = 0)
  /\ (state m <> connected ->
      _outboundSeqNum m' = _outboundSeqNum m
      /\ (_inboundSeqNum m' = _inboundSeqNum m
          \/ _inboundSeqNum m' = Z.rem (_inboundSeqNum m + 1) 256)).
Proof.
  unfold onEnter. intros H.
  destruct (state m) eqn:S;
    (split; [try discriminate | try congruence]); intros _;
    try (apply onEnter_leaf_same in H; destruct H; auto).
  - unbind.
    match goal with
    | T : transition_with _ _ _ _ = Ok _ |- _ =>
        apply transition_leaf_same in T; destruct T as [T1 T2]
    end.
    cbn in T1, T2. auto.
  - destruct a; try discriminate. unbind.
    match goal with
    | T : transition_with _ _ _ _ = Ok _, A : acknowledge_inbound _ _ = Ok _
      |- _ =>
        apply transition_leaf_same in T; destruct T as [T1 T2];
        apply acknowledge_inbound_counters in A; cbn [fst] in *;
        rewrite T1, T2; exact A
    end.
Qed.

Lemma transition_counters target a m m' e :
  transition target a m = Ok (m', e) ->
  (target = connected -> state m <> connected ->
   _inboundSeqNum m' = 0 /\ _outboundSeqNum m' = 0)
  /\ (target <> connected ->
      _outboundSeqNum m' = _outboundSeqNum m
      /\ (_inboundSeqNum m' = _inboundSeqNum m
          \/ _inboundSeqNum m' = Z.rem (_inboundSeqNum m + 1) 256)).
Proof.
  unfold transition, transition_with. intros H.
  destruct (state_eqb target (state m)) eqn:E.
  - unbind. split; [|auto]. intros -> N. exfalso. apply N.
    destruct (state m'); try discriminate. reflexivity.
  - pose proof (onExit_same m) as X. destruct (onExit m) as [m1 e1].
    unbind. destruct X as [X1 X2]. cbn [fst] in X1, X2.
    match goal with
    | T : onEnter _ _ = Ok _ |- _ =>
        apply onEnter_counters in T; destruct T as [T1 T2]
    end.
    unfold upd_state in T1, T2. cbn in T1, T2.
    rewrite X1, X2 in T2. split; [intros -> _; auto | intros N; auto].
Qed.

(** Use what is known of every transition among the hypotheses. *)
Ltac use_transitions :=
  repeat match goal with
         | T : transition connected _ _ = Ok _ |- _ =>
             apply transition_counters in T; destruct T as [T _];
             specialize (T eq_refl)
         | T : transition _ _ _ = Ok _ |- _ =>
             apply transition_counters in T; destruct T as [_ T];
             specialize (T ltac:(discriminate)); destruct T as [? ?]
         end.

Ltac counters :=
  unfold inbound_step, same_counters in *; cbn in *;
  repeat match goal with
         | H : _ /\ _ |- _ => destruct H
         | H : ?a = _ |- context [?a] => rewrite H
         end;
  repeat split; auto; try congruence; try tauto.

Lemma inbound_SEARCH_RESPONSE_counters a m m' e :
  inbound_SEARCH_RESPONSE a m = Ok (m', e) ->
  _outboundSeqNum m' = _outboundSeqNum m /\ inbound_step m m'.
Proof.
  unfold inbound_SEARCH_RESPONSE. intros H. open_matches; use_transitions;
    counters.
Qed.

Lemma inbound_CONNECT_RESPONSE_counters a m m' e :
  state m = connecting ->
  inbound_CONNECT_RESPONSE a m = Ok (m', e) ->
  _outboundSeqNum m' = (if accepts a then 0 else _outboundSeqNum m)
  /\ inbound_step m m'.
Proof.
  unfold inbound_CONNECT_RESPONSE, accepts. intros S H.
  open_matches; use_transitions; cbn [negb]; try solve [counters].
  match goal with
  | T : state _ <> connected -> _ |- _ =>
      unfold upd_channelID in T; cbn [state] in T; rewrite S in T;
      specialize (T ltac:(discriminate)); destruct T
  end.
  counters.
Qed.

Lemma inbound_CONNECTIONSTATE_RESPONSE_counters a m m' e :
  inbound_CONNECTIONSTATE_RESPONSE a m = Ok (m', e) ->
  _outboundSeqNum m' = _outboundSeqNum m /\ inbound_step m m'.
Proof.
  unfold inbound_CONNECTIONSTATE_RESPONSE. intros H.
  open_matches; use_transitions; counters.
Qed.

Lemma inbound_TUNNELING_ACK_counters a m m' e :
  inbound_TUNNELING_ACK a m = Ok (m', e) ->
  _outboundSeqNum m'
  = (if acknowledges a m then Z.rem (_outboundSeqNum m + 1) 256
     else _outboundSeqNum m)
  /\ inbound_step m m'.
Proof.
  unfold inbound_TUNNELING_ACK, acknowledges. intros H.
  open_matches; use_transitions; cbn [andb]; counters.
Qed.

Lemma defer_same input a u m m' e :
  defer input a u m = Ok (m', e) -> m' = m.
Proof. unfold defer. congruence. Qed.

(** Case analysis on the name of the input. *)
Ltac named_cases H :=
  repeat (match type of H with
          | context [named ?i ?s] =>
              let E := fresh "E" in
              destruct (named i s) eqn:E;
              [unfold named in E; apply String.eqb_eq in E; subst i|]
          end;
          cbn [named String.eqb Ascii.eqb Bool.eqb orb andb] in * ).

Ltac use_handlers :=
  repeat match goal with
         | H : defer _ _ _ _ = Ok _ |- _ => apply defer_same in H; subst
         | H : inbound_SEARCH_RESPONSE _ _ = Ok _ |- _ =>
             apply inbound_SEARCH_RESPONSE_counters in H
         | S : state ?m = connecting,
           H : inbound_CONNECT_RESPONSE _ ?m = Ok _ |- _ =>
             apply (inbound_CONNECT_RESPONSE_counters _ _ _ _ S) in H
         | H : inbound_CONNECTIONSTATE_RESPONSE _ _ = Ok _ |- _ =>
             apply inbound_CONNECTIONSTATE_RESPONSE_counters in H
         | H : inbound_TUNNELING_ACK _ _ = Ok _ |- _ =>
             apply inbound_TUNNELING_ACK_counters in H
         | H : send_CONNECTIONSTATE_REQUEST _ = Ok _ |- _ =>
             unfold send_CONNECTIONSTATE_REQUEST in H; unbind; open_matches
         | H : send_TUNNELING_REQUEST _ = Ok _ |- _ =>
             unfold send_TUNNELING_REQUEST in H; unbind; open_matches
         end.

(** What one input does to the counters. *)
Lemma handle_counters input a m m' e :
  handle input a m = Ok (m', e) ->
  _outboundSeqNum m'
  = (if successful_ack input a m then Z.rem (_outboundSeqNum m + 1) 256
     else if enters_connected input a m then 0
     else _outboundSeqNum m)
  /\ inbound_step m m'.
Proof.
  unfold handle, successful_ack, enters_connected. intros H.
  destruct (state m) eqn:S; cbn [state_eqb andb];
    named_cases H; unbind; use_handlers; use_transitions;
    try solve [counters].
Qed.

(** ** Acknowledging inbound requests *)

Lemma ack_datagram (m : t) (s : Z) :
  channel_ok m -> 0 <= s <= 255 ->
  exists ack0 ack,
    _prepareKnxDatagram SERVICE_TYPE.TUNNELING_ACK m = Ok ack0
    /\ KnxDatagram.setSeqNum s ack0 = Ok ack
    /\ KnxDatagram.packet (flag m) ack
       = Ok (ack_packet (JS.to_number (_channelID m)) s).
Proof.
  unfold channel_ok. intros C Hs.
  unfold _prepareKnxDatagram, KnxDatagram.fromServiceRequest,
    KnxDatagram.buildDatagram.
  set (ch := match _channelID m with
             | Some c => if c =? 0 then None else Some c
             | None => None
             end).
  assert (E : JS.to_number ch = JS.to_number (_channelID m)).
  { subst ch. destruct (_channelID m) as [c|]; [|reflexivity].
    destruct (Z.eqb_spec c 0); [subst; reflexivity | reflexivity]. }
  assert (R : 0 <= JS.to_number ch <= 255).
  { rewrite E. destruct (_channelID m); cbn; lia. }
  rewrite <- E. clearbody ch. clear E C.
  do 2 eexists. split; [reflexivity|]. split; [reflexivity|].
  unfold KnxDatagram.packet, KNXNetHeader.write.
  destruct ch as [c|]; cbn -[Buffer.writeUInt8] in R |- *;
    rewrite !writeUInt8_ok by lia; reflexivity.
Qed.

Lemma rem_succ (x : Z) : 0 <= x <= 255 -> Z.rem (x + 1) 256 = (x + 1) mod 256.
Proof. intros H. apply Z.rem_mod_nonneg; lia. Qed.

Lemma rem_pred (x : Z) :
  0 <= x <= 255 -> Z.rem (x + 255) 256 = (x - 1) mod 256.
Proof.
  intros H. rewrite Z.rem_mod_nonneg by lia.
  replace (x + 255) with (x - 1 + 1 * 256) by lia.
  apply Z.mod_add. lia.
Qed.

Lemma acknowledge_inbound_spec (m : t) (d : KNXNetHeader.t) (ts : TunnState.t)
    (cemi : CEMI.t) (apdu : APDU.t) (s : Z) :
  channel_ok m -> 0 <= _inboundSeqNum m <= 255 ->
  KNXNetHeader.tunnstate d = Some ts -> TunnState.seqnum ts = Some s ->
  0 <= s <= 255 ->
  KNXNetHeader.cemi d = Some cemi -> CEMI.apdu cemi = Some apdu ->
  exists m' effects,
    acknowledge_inbound d m = Ok (m', effects)
    /\ state m' = state m
    /\ sent effects
       = (if (s =? _inboundSeqNum m) || (s =? (_inboundSeqNum m - 1) mod 256)
          then [(controlSocket, _remoteControlEndpoint m,
                 ack_packet (JS.to_number (_channelID m)) s)]
          else [])
    /\ emitted effects
       = (if s =? _inboundSeqNum m then user_events cemi apdu else [])
    /\ _inboundSeqNum m'
       = (if s =? _inboundSeqNum m then (_inboundSeqNum m + 1) mod 256
          else _inboundSeqNum m).
Proof.
  intros C I T S Hs CE AP.
  destruct (ack_datagram m s C Hs) as (ack0 & ack & P0 & P1 & P2).
  unfold acknowledge_inbound. rewrite T, S.
  cbn [JS.strict_eq JS.to_number]. rewrite rem_pred by assumption.
  destruct (Z.eqb_spec s (_inboundSeqNum m)) as [E|E].
  - cbn [orb]. rewrite P0. cbn [bind]. rewrite P1. cbn [bind].
    unfold send. rewrite P2, CE, AP.
    cbn [_inboundSeqNum upd_made]. rewrite <- E, Z.eqb_refl.
    do 2 eexists. split; [reflexivity|].
    rewrite rem_succ by lia. repeat split; reflexivity.
  - cbn [orb]. destruct (s =? (_inboundSeqNum m - 1) mod 256).
    + rewrite P0. cbn [bind]. rewrite P1. cbn [bind].
      unfold send. rewrite P2. cbn [_inboundSeqNum upd_made].
      destruct (Z.eqb_spec s (_inboundSeqNum m)); [contradiction|].
      do 2 eexists. repeat split; reflexivity.
    + do 2 eexists. repeat split; reflexivity.
Qed.

Lemma sent_app a b : sent (a ++ b) = sent a ++ sent b.
Proof. apply flat_map_app. Qed.

Lemma emitted_app a b : emitted (a ++ b) = emitted a ++ emitted b.
Proof. apply flat_map_app. Qed.

Lemma read_ack_packet (flag : bool) (ch s : Z) :
  0 <= ch <= 255 -> 0 <= s <= 255 ->
  Reader.run (KNXNetHeader.read flag) (ack_packet ch s) = Ok (ack_frame ch s).
Proof.
  intros Hc Hs. unfold Reader.run, KNXNetHeader.read, ack_packet, buffer.
  cbn. rewrite !to_of_Z by lia. reflexivity.
Qed.

(** Entering the acknowledging state from [online] or [waiting]. *)
Lemma enter_inbound (m : t) (d : KNXNetHeader.t) (m1 : t) (e1 : list effect) :
  state m = online \/ state m = waiting ->
  acknowledge_inbound d (upd_state inbound_TUNNELING_REQUEST_L_Data m)
  = Ok (m1, e1) ->
  state m1 = inbound_TUNNELING_REQUEST_L_Data ->
  exists e0,
    transition inbound_TUNNELING_REQUEST_L_Data (frame d) m
    = Ok (upd_state waiting m1,
          e0 ++ e1 ++ [setTimeout state_timer "timeout" nothing 50])
    /\ sent e0 = [] /\ emitted e0 = [].
Proof.
  intros S A S1.
  unfold transition, transition_with.
  assert (X : exists e0,
             state_eqb inbound_TUNNELING_REQUEST_L_Data (state m) = false
             /\ onExit m = (m, e0) /\ sent e0 = [] /\ emitted e0 = []).
  { unfold onExit. destruct S as [-> | ->]; eexists; repeat split;
      reflexivity. }
  destruct X as (e0 & -> & -> & X1 & X2). exists e0.
  split; [|split; assumption].
  unfold onEnter at 1. cbn [state upd_state]. rewrite A. cbn [bind].
  unfold then_, transition_with. cbn [fst snd]. rewrite S1. cbn [state_eqb].
  unfold onExit. rewrite S1. unfold onEnter_leaf.
  cbn [state upd_state bind fst snd app]. reflexivity.
Qed.

(** C2: an inbound tunneling L_Data frame numbered [s], handled while the
    expected inbound number is [expected], is answered by exactly one
    TUNNELING_ACK, which echoes [s] and reports NO_ERROR, if and only if [s]
    is [expected] or [expected - 1] modulo 256; the expected number advances
    modulo 256 and the three user events are emitted only when [s] is
    [expected]; any other frame causes neither an ACK nor an event.  In
    every case the machine ends in [waiting]. *)
Theorem inbound_L_Data_acknowledged (m : t) (input : string)
    (d : KNXNetHeader.t) (ts : TunnState.t) (cemi : CEMI.t) (apdu : APDU.t)
    (s : Z) :
  L_Data_input m input ->
  channel_ok m -> 0 <= _inboundSeqNum m <= 255 ->
  KNXNetHeader.tunnstate d = Some ts -> TunnState.seqnum ts = Some s ->
  0 <= s <= 255 ->
  KNXNetHeader.cemi d = Some cemi -> CEMI.apdu cemi = Some apdu ->
  let expected := _inboundSeqNum m in
  let channel := JS.to_number (_channelID m) in
  exists m' effects,
    handle input (frame d) m = Ok (m', effects)
    /\ state m' = waiting
    /\ sent effects
       = (if (s =? expected) || (s =? (expected - 1) mod 256)
          then [(controlSocket, _remoteControlEndpoint m,
                 ack_packet channel s)]
          else [])
    /\ Reader.run (KNXNetHeader.read (flag m)) (ack_packet channel s)
       = Ok (ack_frame channel s)
    /\ emitted effects
       = (if s =? expected then user_events cemi apdu else [])
    /\ _inboundSeqNum m'
       = (if s =? expected then (expected + 1) mod 256 else expected).
Proof.
  intros L C I T S Hs CE AP expected channel.
  destruct (acknowledge_inbound_spec
              (upd_state inbound_TUNNELING_REQUEST_L_Data m) d ts cemi apdu s
              C I T S Hs CE AP) as (m1 & e1 & A & S1 & SE & EM & IN).
  assert (St : state m = online \/ state m = waiting)
    by (destruct L as [[? _]|[? _]]; auto).
  destruct (enter_inbound m d m1 e1 St A S1) as (e0 & Tr & X1 & X2).
  assert (H : handle input (frame d) m
              = transition inbound_TUNNELING_REQUEST_L_Data (frame d) m).
  { unfold handle.
    destruct L as [[-> [-> | ->]]|[-> ->]]; reflexivity. }
  exists (upd_state waiting m1),
    (e0 ++ e1 ++ [setTimeout state_timer "timeout" nothing 50]).
  rewrite H, Tr. split; [reflexivity|]. split; [reflexivity|].
  rewrite !sent_app, !emitted_app, X1, X2, SE, EM, !app_nil_r.
  cbn [app]. split; [reflexivity|]. split.
  - apply read_ack_packet; [|assumption].
    unfold channel, channel_ok in *. destruct (_channelID m); cbn; lia.
  - split; [reflexivity | exact IN].
Qed.

Lemma inbound_L_Data_acknowledged_witness :
  exists m' effects,
    handle "inbound_TUNNELING_REQUEST_L_Data.ind" (frame inbound_write)
      connected_machine = Ok (m', effects)
    /\ state m' = waiting
    /\ sent effects = [(controlSocket, gateway, ack_packet 7 0)]
    /\ emitted effects = user_events inbound_cemi inbound_apdu
    /\ _inboundSeqNum m' = 1.
Proof.
  destruct (inbound_L_Data_acknowledged connected_machine
              "inbound_TUNNELING_REQUEST_L_Data.ind" inbound_write
              inbound_tunnstate inbound_cemi inbound_apdu 0)
    as (m' & effects & H1 & H2 & H3 & _ & H5 & H6).
  - left. split; [reflexivity | left; reflexivity].
  - vm_compute. split; discriminate.
  - vm_compute. split; discriminate.
  - reflexivity.
  - reflexivity.
  - lia.
  - reflexivity.
  - reflexivity.
  - exists m', effects. repeat split; assumption.
Defined.

(** ** The sequence counters along a session *)

Lemma rem_succ_range (x : Z) : 0 <= x -> 0 <= Z.rem (x + 1) 256 <= 255.
Proof.
  intros H. pose proof (Z.rem_bound_pos (x + 1) 256 ltac:(lia) ltac:(lia)).
  lia.
Qed.

Lemma handle_in_range input a m m' e :
  counters_in_range m -> handle input a m = Ok (m', e) ->
  counters_in_range m'.
Proof.
  intros [I O] H. apply handle_counters in H. destruct H as [Ho Hi].
  split.
  - destruct Hi as [-> | [-> | ->]];
      [assumption | apply rem_succ_range; lia | lia].
  - rewrite Ho. destruct (successful_ack input a m);
      [apply rem_succ_range; lia|].
    destruct (enters_connected input a m); [lia | assumption].
Qed.

Lemma reachable_in_range (m : t) : reachable m -> counters_in_range m.
Proof.
  induction 1 as [opts | m input a m' e _ IH H | m msg from m' e _ IH H
                 | m msg from m' e _ IH H | m addr m' e _ IH H
                 | m addr value bitlength m' e _ IH H].
  - cbn. unfold counters_in_range. cbn. lia.
  - exact (handle_in_range _ _ _ _ _ IH H).
  - unfold control_message in H. unbind.
    match goal with
    | X : match ?x with _ => _ end = Ok _ |- _ =>
        destruct x as [[signal d]|]
    end; unbind; [|assumption].
    match goal with
    | X : handle _ _ _ = Ok _ |- _ =>
        refine (handle_in_range _ _ _ _ _ _ X); exact IH
    end.
  - unfold discover_message in H. unbind.
    match goal with
    | X : match ?x with _ => _ end = Ok _ |- _ =>
        destruct x as [[signal d]|]
    end; unbind; [|assumption].
    match goal with
    | X : handle _ _ _ = Ok _ |- _ =>
        refine (handle_in_range _ _ _ _ _ _ X); exact IH
    end.
  - unfold read, queueRequest in H. unbind.
    match goal with
    | X : handle _ _ _ = Ok _ |- _ =>
        refine (handle_in_range _ _ _ _ _ _ X); exact IH
    end.
  - unfold writeRaw, queueRequest in H. unbind.
    match goal with
    | X : handle _ _ _ = Ok _ |- _ =>
        refine (handle_in_range _ _ _ _ _ _ X); exact IH
    end.
Qed.

Lemma run_outbound (tr : trace) :
  forall m m',
    0 <= _outboundSeqNum m <= 255 ->
    same_session tr m = true -> run tr m = Ok m' ->
    _outboundSeqNum m'
    = (_outboundSeqNum m + Z.of_nat (round_trips tr m)) mod 256.
Proof.
  induction tr as [|[input a] tr IH]; intros m m' O S R.
  - cbn in R. injection R as <-. cbn. rewrite Z.add_0_r.
    symmetry. apply Z.mod_small. lia.
  - cbn [run same_session round_trips] in *.
    destruct (handle input a m) as [[m1 e]|] eqn:H; [|discriminate].
    cbn [bind fst] in *. apply andb_true_iff in S. destruct S as [N S].
    apply negb_true_iff in N.
    destruct (handle_counters _ _ _ _ _ H) as [Ho _]. rewrite N in Ho.
    assert (O1 : 0 <= _outboundSeqNum m1 <= 255).
    { rewrite Ho. destruct (successful_ack input a m);
        [apply rem_succ_range; lia | assumption]. }
    rewrite (IH m1 m' O1 S R), Ho.
    destruct (successful_ack input a m).
    + rewrite rem_succ by assumption. rewrite Zplus_mod_idemp_l.
      f_equal. lia.
    + f_equal.
Qed.

(** C3: both sequence counters stay within 0..255 in every state the
    machine can reach; entering [connected] sets both to 0; an input changes
    the outbound counter only by advancing it modulo 256 on a TUNNELING_ACK
    that numbers the request in flight and reports NO_ERROR (or by that
    reset); so, from the entry into [connected] and as long as the machine
    does not enter it again, the outbound counter is the number of
    successful round-trips modulo 256. *)
Theorem sequence_counters :
  (forall m, reachable m -> counters_in_range m)
  /\ (forall m a m' e,
        state m <> connected -> transition connected a m = Ok (m', e) ->
        _inboundSeqNum m' = 0 /\ _outboundSeqNum m' = 0)
  /\ (forall m input a m' e,
        reachable m -> handle input a m = Ok (m', e) ->
        _outboundSeqNum m' <> _outboundSeqNum m ->
        (successful_ack input a m = true
         /\ _outboundSeqNum m' = (_outboundSeqNum m + 1) mod 256)
        \/ (enters_connected input a m = true /\ _outboundSeqNum m' = 0))
  /\ (forall m tr m',
        _outboundSeqNum m = 0 -> same_session tr m = true ->
        run tr m = Ok m' ->
        _outboundSeqNum m' = Z.of_nat (round_trips tr m) mod 256).
Proof.
  split; [exact reachable_in_range|]. split; [|split].
  - intros m a m' e S T.
    exact (proj1 (transition_counters _ _ _ _ _ T) eq_refl S).
  - intros m input a m' e R H N.
    destruct (reachable_in_range m R) as [_ O].
    destruct (handle_counters _ _ _ _ _ H) as [Ho _].
    destruct (successful_ack input a m).
    + left. split; [reflexivity|]. rewrite Ho. apply rem_succ. assumption.
    + destruct (enters_connected input a m); [right; auto | contradiction].
  - intros m tr m' Z S R.
    rewrite (run_outbound tr m m' ltac:(lia) S R), Z. reflexivity.
Qed.

Lemma sequence_counters_witness :
  _outboundSeqNum (or_initial (run two_requests connected_machine))
  = Z.of_nat (round_trips two_requests connected_machine) mod 256.
Proof.
  apply (proj2 (proj2 (proj2 sequence_counters)) connected_machine
           two_requests); vm_compute; reflexivity.
Defined.

End KnxConnectionFacts.

(** * The structures of a frame, one reader and one writer at a time *)

Module KnxCodecFacts.

Import KnxConstants KnxProtocol Scenario KnxProtocolFacts BufferFacts
  ReaderFacts.
Import KnxConnectionFacts.

Lemma reads_ret {A : Type} (a : A) (pre post : Buffer.t) :
  reads_at (Reader.ret a) pre [] post (Ok a).
Proof. unfold reads_at, Reader.ret. cbn. rewrite Nat.add_0_r. reflexivity. Qed.

Lemma reads_throw {A : Type} (e : string) (pre bs post : Buffer.t) :
  reads_at (@Reader.throw A e) pre bs post (Throw e).
Proof. reflexivity. Qed.

Lemma reads_bind {A B : Type} (r : Reader.t A) (k : A -> Reader.t B)
    (pre b1 b2 post : Buffer.t) (a : A) (res : result B) :
  reads_at r pre b1 (b2 ++ post) (Ok a) ->
  reads_at (k a) (pre ++ b1) b2 post res ->
  reads_at (Reader.rbind r k) pre (b1 ++ b2) post res.
Proof.
  unfold reads_at, Reader.rbind. intros H1 H2.
  rewrite <- (app_assoc b1 b2 post), H1.
  rewrite <- app_assoc, length_app in H2. rewrite H2.
  destruct res; [|reflexivity].
  rewrite length_app, Nat.add_assoc. reflexivity.
Qed.

Lemma reads_last {A B : Type} (r : Reader.t A) (k : A -> Reader.t B)
    (pre bs post : Buffer.t) (a : A) (res : result B) :
  reads_at r pre bs post (Ok a) ->
  reads_at (k a) (pre ++ bs) [] post res ->
  reads_at (Reader.rbind r k) pre bs post res.
Proof.
  intros H1 H2. rewrite <- (app_nil_r bs).
  eapply reads_bind; eassumption.
Qed.

Lemma decodes_reads {A : Type} (n : nat) (r : Reader.t A)
    (pre bs post : Buffer.t) (a : A) :
  decodes n r bs a -> (n <= List.length (pre ++ bs ++ post))%nat ->
  reads_at r pre bs post (Ok a).
Proof. intros D L. apply D. exact L. Qed.

Lemma reads_raw (k : nat) (pre bs post : Buffer.t) :
  List.length bs = Nat.max 1 k ->
  reads_at (Reader.raw k) pre bs post (Ok bs).
Proof.
  intros H. eapply decodes_reads; [apply (decodes_raw O); exact H | lia].
Qed.

Lemma reads_UInt8 (x : byte) (pre post : Buffer.t) :
  reads_at Reader.UInt8 pre [x] post (Ok (Buffer.to_Z x)).
Proof.
  pose proof (to_Z_range x).
  rewrite <- (of_to_Z x) at 1.
  eapply decodes_reads; [apply (decodes_UInt8 O); lia | lia].
Qed.

Lemma reads_UInt16BE (h l : byte) (pre post : Buffer.t) :
  reads_at Reader.UInt16BE pre [h; l] post
    (Ok (Buffer.to_Z h * 256 + Buffer.to_Z l)).
Proof.
  unfold reads_at, Reader.UInt16BE, Reader.rbind.
  rewrite (reads_raw 2 pre [h; l] post eq_refl). reflexivity.
Qed.

Lemma reads_buffer_length {B : Type} (k : Z -> Reader.t B)
    (pre bs post : Buffer.t) (res : result B) :
  reads_at (k (Z.of_nat (List.length (pre ++ bs ++ post)))) pre bs post res ->
  reads_at (Reader.rbind Reader.buffer_length k) pre bs post res.
Proof. intros H. exact H. Qed.

Lemma reads_run {A : Type} (r : Reader.t A) (bs post : Buffer.t)
    (res : result A) :
  reads_at r [] bs post res -> Reader.run r (bs ++ post) = res.
Proof.
  unfold reads_at, Reader.run, Reader.next. cbn [app List.length].
  intros ->. destruct res; reflexivity.
Qed.

Lemma reads_IPv4Endpoint (a b c d ph pl : byte) (pre post : Buffer.t) :
  reads_at IPv4Endpoint.read pre [a; b; c; d; ph; pl] post
    (Ok (IPv4Endpoint.show [a; b; c; d]
           (Buffer.to_Z ph * 256 + Buffer.to_Z pl))).
Proof.
  unfold IPv4Endpoint.read.
  change [a; b; c; d; ph; pl] with ([a; b; c; d] ++ [ph; pl]).
  eapply reads_bind; [apply reads_raw; reflexivity|].
  eapply reads_last; [apply reads_UInt16BE|].
  apply reads_ret.
Qed.

Lemma port_of_bytes (ph pl : byte) :
  0 <= Buffer.to_Z ph * 256 + Buffer.to_Z pl <= 65535
  /\ port_bytes (Buffer.to_Z ph * 256 + Buffer.to_Z pl) = [ph; pl].
Proof.
  pose proof (to_Z_range ph). pose proof (to_Z_range pl).
  split; [lia|]. unfold port_bytes.
  rewrite Z.add_comm, Z.div_add, Z.mod_add by lia.
  rewrite Z.div_small, Z.mod_small by lia.
  rewrite Z.add_0_l, !of_to_Z. reflexivity.
Qed.

(** The length of the packet does not depend on where a reader stands. *)
Ltac same_length n En :=
  match goal with
  | |- context [Z.of_nat (List.length ?x)] =>
      replace (Z.of_nat (List.length x)) with n
        by (rewrite En, !length_app; cbn [List.length]; lia)
  end.

(** HPAI: the reader compares the length byte with the length of the whole
    packet, refuses TCP, and otherwise returns the three fields; written
    back, they give the same bytes with the length byte set to 8. *)
Theorem HPAI_read_spec (pre post : Buffer.t) (hl pt a b c d ph pl : byte) :
  let bytes := [hl; pt; a; b; c; d; ph; pl] in
  let endpoint :=
    IPv4Endpoint.show [a; b; c; d] (Buffer.to_Z ph * 256 + Buffer.to_Z pl) in
  let h := HPAI.mk (Some (Buffer.to_Z hl)) (Buffer.to_Z pt) endpoint in
  reads_at HPAI.read pre bytes post
    (if Z.of_nat (List.length (pre ++ bytes ++ post)) <? Buffer.to_Z hl
     then Throw "Incomplete KNXNet HPAI header"
     else if Buffer.to_Z pt =? PROTOCOL_TYPE.IPV4_TCP
          then Throw "TCP is not supported"
          else Ok h)
  /\ HPAI.write (Some h) = Ok [Buffer.of_Z 8; pt; a; b; c; d; ph; pl].
Proof.
  intros bytes endpoint h. subst bytes endpoint h. split.
  - remember (Z.of_nat (List.length
                          (pre ++ [hl; pt; a; b; c; d; ph; pl] ++ post)))
      as n eqn:En.
    unfold HPAI.read.
    change [hl; pt; a; b; c; d; ph; pl]
      with ([hl] ++ [pt] ++ [a; b; c; d; ph; pl]).
    eapply reads_bind; [apply reads_UInt8|].
    eapply reads_bind; [apply reads_UInt8|].
    eapply reads_last; [apply reads_IPv4Endpoint|].
    apply reads_buffer_length. same_length n En.
    destruct (n <? Buffer.to_Z hl); [apply reads_throw|].
    destruct (Buffer.to_Z pt =? PROTOCOL_TYPE.IPV4_TCP);
      [apply reads_throw | apply reads_ret].
  - unfold HPAI.write. cbn [HPAI.protocolType HPAI.tunnelEndpoint].
    destruct (port_of_bytes ph pl) as [R P].
    rewrite (IPv4Endpoint_write_show a b c d _ R), P.
    pose proof (to_Z_range pt).
    rewrite !writeUInt8_ok by lia. rewrite of_to_Z. reflexivity.
Qed.

(** CRI: only the two known connection types are accepted; written back,
    an accepted CRI gives the same bytes with the length byte set to 4. *)
Theorem CRI_read_spec (pre post : Buffer.t) (hl t l u : byte) :
  let c := CRI.mk (Some (Buffer.to_Z hl)) (Buffer.to_Z t) (Buffer.to_Z l)
             (Buffer.to_Z u) in
  reads_at CRI.read pre [hl; t; l; u] post
    (if (Buffer.to_Z t =? CONNECTION_TYPE.DEVICE_MGMT_CONNECTION)
        || (Buffer.to_Z t =? CONNECTION_TYPE.TUNNEL_CONNECTION)
     then Ok c
     else Throw ("Unsupported connection type: " ++ JS.dec (Buffer.to_Z t)))
  /\ CRI.write (Some c) = Ok [Buffer.of_Z 4; t; l; u].
Proof.
  intros c. subst c. split.
  - unfold CRI.read.
    change [hl; t; l; u] with ([hl] ++ [t] ++ [l] ++ [u]).
    eapply reads_bind; [apply reads_UInt8|].
    eapply reads_bind; [apply reads_UInt8|].
    eapply reads_bind; [apply reads_UInt8|].
    eapply reads_last; [apply reads_UInt8|].
    destruct ((Buffer.to_Z t =? CONNECTION_TYPE.DEVICE_MGMT_CONNECTION)
              || (Buffer.to_Z t =? CONNECTION_TYPE.TUNNEL_CONNECTION));
      [apply reads_ret | apply reads_throw].
  - unfold CRI.write. cbn [CRI.connectionType CRI.knxLayer CRI.unused].
    pose proof (to_Z_range t). pose proof (to_Z_range l).
    pose proof (to_Z_range u).
    rewrite !writeUInt8_ok by lia. rewrite !of_to_Z. reflexivity.
Qed.

(** ConnState and TunnState: any bytes are accepted, whatever the status;
    written back they give the same bytes, the TunnState with its length
    byte set to 4. *)
Theorem state_structures_read_spec (pre post : Buffer.t) (hl c q s : byte) :
  let cs := ConnState.mk (Some (Buffer.to_Z c)) (Some (Buffer.to_Z s)) None in
  let ts := TunnState.mk (Some (Buffer.to_Z hl)) (Some (Buffer.to_Z c))
              (Some (Buffer.to_Z q)) (Some (Buffer.to_Z s)) None in
  reads_at ConnState.read pre [c; s] post (Ok cs)
  /\ ConnState.write (Some cs) = Ok [c; s]
  /\ reads_at TunnState.read pre [hl; c; q; s] post (Ok ts)
  /\ TunnState.write (Some ts) = Ok [Buffer.of_Z 4; c; q; s].
Proof.
  intros cs ts. subst cs ts.
  pose proof (to_Z_range c). pose proof (to_Z_range q).
  pose proof (to_Z_range s).
  repeat split.
  - unfold ConnState.read. change [c; s] with ([c] ++ [s]).
    eapply reads_bind; [apply reads_UInt8|].
    eapply reads_last; [apply reads_UInt8|]. apply reads_ret.
  - unfold ConnState.write. cbn [ConnState.channelId ConnState.status
                                 JS.to_number].
    rewrite !writeUInt8_ok by lia. rewrite !of_to_Z. reflexivity.
  - unfold TunnState.read.
    change [hl; c; q; s] with ([hl] ++ [c] ++ [q] ++ [s]).
    eapply reads_bind; [apply reads_UInt8|].
    eapply reads_bind; [apply reads_UInt8|].
    eapply reads_bind; [apply reads_UInt8|].
    eapply reads_last; [apply reads_UInt8|]. apply reads_ret.
  - unfold TunnState.write.
    cbn [TunnState.channelId TunnState.seqnum TunnState.status JS.to_number].
    rewrite !writeUInt8_ok by lia. rewrite !of_to_Z. reflexivity.
Qed.

Lemma index_of_zero_free (b : Buffer.t) :
  zero_free b = true -> Buffer.index_of_zero b = None.
Proof.
  induction b as [|x b IH]; cbn; [reflexivity|].
  intros H. apply andb_true_iff in H. destruct H as [H1 H2].
  apply negb_true_iff in H1. rewrite H1, (IH H2). reflexivity.
Qed.

Lemma index_of_zero_stop (b rest : Buffer.t) :
  zero_free b = true ->
  Buffer.index_of_zero (b ++ x00 :: rest) = Some (List.length b).
Proof.
  induction b as [|x b IH]; cbn; [reflexivity|].
  intros H. apply andb_true_iff in H. destruct H as [H1 H2].
  apply negb_true_iff in H1. rewrite H1, (IH H2). reflexivity.
Qed.

Lemma to_hex_length (b : Buffer.t) :
  String.length (Buffer.to_hex b) = (2 * List.length b)%nat.
Proof. induction b as [|x b IH]; cbn; [reflexivity | rewrite IH; lia]. Qed.

Lemma to_ascii_length (b : Buffer.t) :
  String.length (Buffer.to_ascii b) = List.length b.
Proof.
  unfold Buffer.to_ascii.
  induction b as [|x b IH]; cbn; [reflexivity | rewrite IH; reflexivity].
Qed.

(** DIBdevinfo: the 54 bytes of a device description.  The length byte is
    compared with the length of the whole packet, only description type 1 is
    accepted, the serial number is printed as 12 hexadecimal digits and the
    name stops at its first zero byte. *)
Theorem DIBdevinfo_read_spec (flag : bool) (pre post : Buffer.t)
    (hl dt p1 p2 : byte) (u1 u2 serial u3 u4 nm pad : Buffer.t) :
  List.length u1 = 2%nat -> List.length u2 = 2%nat ->
  List.length serial = 6%nat -> List.length u3 = 4%nat ->
  List.length u4 = 6%nat -> List.length (nm ++ pad) = 30%nat ->
  zero_free nm = true -> (pad = [] \/ exists pad', pad = x00 :: pad') ->
  let bytes :=
    [hl; dt] ++ u1 ++ [p1; p2] ++ u2 ++ serial ++ u3 ++ u4 ++ (nm ++ pad) in
  String.length (Buffer.to_hex serial) = 12%nat
  /\ String.length (Buffer.to_ascii nm) = List.length nm
  /\ reads_at (DIBdevinfo.read flag) pre bytes post
       (if Z.of_nat (List.length (pre ++ bytes ++ post)) <? Buffer.to_Z hl
        then Throw "Incomplete KNXNet DIB Devinfo header"
        else if negb (Buffer.to_Z dt =? 1)
             then Throw "Unknown Devinfo structure"
             else addr <- KnxAddress.toString [p1; p2]
                            KnxAddress.TYPE.PHYSICAL flag ;;
                  Ok (DIBdevinfo.mk (Buffer.to_Z hl) (Buffer.to_Z dt) u4
                        addr (Buffer.to_hex serial) (Buffer.to_ascii nm))).
Proof.
  intros L1 L2 L3 L4 L5 L6 Z P bytes. subst bytes.
  split; [|split].
  - rewrite to_hex_length, L3. reflexivity.
  - apply to_ascii_length.
  - remember (Z.of_nat (List.length
                          (pre ++ ([hl; dt] ++ u1 ++ [p1; p2] ++ u2 ++ serial
                                   ++ u3 ++ u4 ++ (nm ++ pad)) ++ post)))
      as n eqn:En.
    unfold DIBdevinfo.read.
    change ([hl; dt] ++ u1 ++ [p1; p2] ++ u2 ++ serial ++ u3 ++ u4
            ++ (nm ++ pad))
      with ([hl] ++ [dt] ++ u1 ++ [p1; p2] ++ u2 ++ serial ++ u3 ++ u4
            ++ (nm ++ pad)).
    eapply reads_bind; [apply reads_UInt8|].
    eapply reads_bind; [apply reads_UInt8|].
    eapply reads_bind; [apply reads_raw; assumption|].
    eapply reads_bind; [apply reads_raw; reflexivity|].
    eapply reads_bind; [apply reads_raw; assumption|].
    eapply reads_bind; [apply reads_raw; assumption|].
    eapply reads_bind; [apply reads_raw; assumption|].
    eapply reads_bind; [apply reads_raw; assumption|].
    eapply reads_last; [apply reads_raw; assumption|].
    apply reads_buffer_length. same_length n En.
    destruct (n <? Buffer.to_Z hl); [apply reads_throw|].
    destruct (negb (Buffer.to_Z dt =? 1)); [apply reads_throw|].
    destruct (KnxAddress.toString [p1; p2] KnxAddress.TYPE.PHYSICAL flag)
      as [addr|err]; cbn [bind]; [|apply reads_throw].
    cbv zeta.
    replace (firstn _ (nm ++ pad)) with nm; [apply reads_ret|].
    destruct P as [-> | (pad' & ->)].
    + rewrite app_nil_r, (index_of_zero_free nm Z), firstn_all. reflexivity.
    + rewrite (index_of_zero_stop nm pad' Z), firstn_app, firstn_all,
        Nat.sub_diag. cbn [firstn]. rewrite app_nil_r. reflexivity.
Qed.

Lemma DIBdevinfo_read_spec_witness :
  String.length (Buffer.to_hex (buffer [0; 1; 2; 3; 4; 5])) = 12%nat
  /\ String.length (Buffer.to_ascii gateway_name) = 7%nat
  /\ reads_at (DIBdevinfo.read false) [] gateway_description []
       (Ok (DIBdevinfo.mk 54 1 (buffer [0; 1; 2; 3; 4; 5]) "1.1.220"
              "000102030405" "gateway")).
Proof.
  exact (DIBdevinfo_read_spec false [] []
           (Buffer.of_Z 54) (Buffer.of_Z 1)
           (Buffer.of_Z 0x11) (Buffer.of_Z 0xDC)
           (buffer [2; 0]) (buffer [0; 0]) (buffer [0; 1; 2; 3; 4; 5])
           (buffer [224; 0; 23; 12]) (buffer [0; 1; 2; 3; 4; 5])
           gateway_name (repeat x00 23)
           eq_refl eq_refl eq_refl eq_refl eq_refl eq_refl eq_refl
           (or_intror (ex_intro _ (repeat x00 22) eq_refl))).
Defined.

(** A packet shorter than the six header bytes: the reader stops at its
    AWAIT_NEXT sentinel and raises no exception; [parseKnxMessage], which
    reads the structure off what [next()] returned, returns null, whatever
    the channel. *)
Theorem parseKnxMessage_short_packet (channelID : option Z) (msg : Buffer.t)
    (opts : KnxDatagram.options) (id : nat) :
  (List.length msg < 6)%nat ->
  Reader.next (KNXNetHeader.read (KnxDatagram.codec_flag opts)) msg
  = Reader.AWAIT_NEXT
  /\ KnxDatagram.parseKnxMessage channelID msg opts id = None.
Proof.
  intros L. unfold KnxDatagram.parseKnxMessage.
  destruct msg as [|a [|b [|c [|d [|e [|f msg]]]]]];
    try (cbn in L; lia); split; reflexivity.
Qed.

Lemma parseKnxMessage_short_packet_witness :
  Reader.next (KNXNetHeader.read (KnxDatagram.codec_flag no_options))
    (buffer [0x06; 0x10; 0x04; 0x21; 0x00])
  = Reader.AWAIT_NEXT
  /\ KnxDatagram.parseKnxMessage (Some 7)
       (buffer [0x06; 0x10; 0x04; 0x21; 0x00]) no_options O = None.
Proof.
  apply (parseKnxMessage_short_packet (Some 7)
           (buffer [0x06; 0x10; 0x04; 0x21; 0x00]) no_options O).
  cbn. lia.
Defined.

(** The header is not validated: whatever its length byte, version and
    announced length, a packet of a service type the reader has no case for
    is read as its six header bytes, the rest is ignored, and
    [parseKnxMessage] returns it even while a channel is set. *)
Theorem unknown_service_is_read_as_header (channelID : option Z)
    (hl pv sh sl th tl : byte) (rest : Buffer.t)
    (opts : KnxDatagram.options) (id : nat) :
  let st := Buffer.to_Z sh * 256 + Buffer.to_Z sl in
  let d := KNXNetHeader.header (Buffer.to_Z hl) (Buffer.to_Z pv) st
             (Some (Buffer.to_Z th * 256 + Buffer.to_Z tl)) in
  ~ In st read_cases ->
  Reader.run (KNXNetHeader.read (KnxDatagram.codec_flag opts))
    ([hl; pv; sh; sl; th; tl] ++ rest) = Ok d
  /\ KnxDatagram.parseKnxMessage channelID ([hl; pv; sh; sl; th; tl] ++ rest)
       opts id
     = Some (KnxDatagram.set_datagram d (KnxDatagram.new opts id)).
Proof.
  intros st d N.
  assert (E : forall x, In x read_cases -> (st =? x) = false).
  { intros x I. apply Z.eqb_neq. intros ->. exact (N I). }
  assert (R : Reader.run (KNXNetHeader.read (KnxDatagram.codec_flag opts))
                ([hl; pv; sh; sl; th; tl] ++ rest) = Ok d).
  { apply reads_run. unfold KNXNetHeader.read.
    change [hl; pv; sh; sl; th; tl]
      with ([hl] ++ [pv] ++ [sh; sl] ++ [th; tl]).
    eapply reads_bind; [apply reads_UInt8|].
    eapply reads_bind; [apply reads_UInt8|].
    eapply reads_bind; [apply reads_UInt16BE|].
    eapply reads_last; [apply reads_UInt16BE|].
    apply reads_buffer_length. fold st.
    unfold JS.lt, Reader.totalLength, one_of. cbn [existsb orb].
    rewrite !E by (cbn; tauto). cbn [orb]. apply reads_ret. }
  split; [exact R|].
  unfold KnxDatagram.parseKnxMessage. rewrite R.
  unfold KnxDatagram.datagramDesc, KnxDatagram.other_channel, one_of.
  cbn [KnxDatagram.datagram KnxDatagram.set_datagram
       KNXNetHeader.serviceType KNXNetHeader.connstate
       KNXNetHeader.tunnstate KNXNetHeader.header d existsb orb].
  subst d. cbn [KNXNetHeader.serviceType KNXNetHeader.header
                KNXNetHeader.connstate KNXNetHeader.tunnstate].
  rewrite !E by (cbn; tauto). cbn [orb].
  destruct channelID; reflexivity.
Qed.

Lemma unknown_service_is_read_as_header_witness :
  Reader.run (KNXNetHeader.read true)
    ([x00; x00; x03; x10; xff; xff] ++ [x2a])
  = Ok (KNXNetHeader.header 0 0 0x0310 (Some 0xFFFF)).
Proof.
  apply (unknown_service_is_read_as_header None x00 x00 x03 x10 xff xff
           [x2a] no_options O).
  cbn. intuition discriminate.
Defined.

Lemma first_control_byte (b : byte) :
  let x := Buffer.to_Z b in
  Z.land (Z.shiftr x 7) 1 * 0x80 + Z.land (Z.shiftr x 6) 1 * 0x40
  + Z.land (Z.shiftr x 5) 1 * 0x20 + Z.land (Z.shiftr x 4) 1 * 0x10
  + Z.land (Z.shiftr x 2) 3 * 0x04 + Z.land (Z.shiftr x 1) 1 * 0x02
  + Z.land x 1 = x
  /\ 0 <= Z.land (Z.shiftr x 7) 1 <= 1 /\ 0 <= Z.land (Z.shiftr x 6) 1 <= 1
  /\ 0 <= Z.land (Z.shiftr x 5) 1 <= 1 /\ 0 <= Z.land (Z.shiftr x 4) 1 <= 1
  /\ 0 <= Z.land (Z.shiftr x 2) 3 <= 3 /\ 0 <= Z.land (Z.shiftr x 1) 1 <= 1
  /\ 0 <= Z.land x 1 <= 1.
Proof. destruct b; vm_compute; repeat split; discriminate. Qed.

Lemma second_control_byte (b : byte) :
  let x := Buffer.to_Z b in
  Z.land (Z.shiftr x 7) 1 * 0x80 + Z.land (Z.shiftr x 4) 7 * 0x10
  + Z.land x 0xF = x
  /\ 0 <= Z.land (Z.shiftr x 7) 1 <= 1 /\ 0 <= Z.land (Z.shiftr x 4) 7 <= 7
  /\ 0 <= Z.land x 0xF <= 15.
Proof. destruct b; vm_compute; repeat split; discriminate. Qed.

(** The control field: the sixteen bits a frame arrives with are the ones
    the writer's arithmetic puts back, every field within its width; and
    fields within their widths are found again after writing. *)
Theorem control_field_bits :
  (forall b1 b2 : byte,
     let k := CEMI.parse_ctrl [b1; b2] in
     CEMI.ctrlField1 k = Buffer.to_Z b1 /\ CEMI.ctrlField2 k = Buffer.to_Z b2
     /\ ctrl_shaped k)
  /\ (forall k : Ctrl.t,
        ctrl_shaped k ->
        CEMI.parse_ctrl [Buffer.of_Z (CEMI.ctrlField1 k);
                         Buffer.of_Z (CEMI.ctrlField2 k)] = k).
Proof.
  split; [|intros k Hk; apply (parse_ctrl_fields k Hk)].
  intros b1 b2 k. subst k.
  unfold CEMI.parse_ctrl, CEMI.ctrlField1, CEMI.ctrlField2, ctrl_shaped.
  cbn [nth Ctrl.frameType Ctrl.reserved Ctrl.repeat Ctrl.broadcast
       Ctrl.priority Ctrl.acknowledge Ctrl.confirm Ctrl.destAddrType
       Ctrl.hopCount Ctrl.extendedFrame].
  pose proof (first_control_byte b1) as F.
  pose proof (second_control_byte b2) as S. cbv zeta in F, S.
  intuition.
Qed.

Lemma control_field_bits_witness :
  CEMI.parse_ctrl [Buffer.of_Z (CEMI.ctrlField1 (Ctrl.mk 1 0 1 1 3 0 0 1 6 0));
                   Buffer.of_Z (CEMI.ctrlField2 (Ctrl.mk 1 0 1 1 3 0 0 1 6 0))]
  = Ctrl.mk 1 0 1 1 3 0 0 1 6 0.
Proof.
  apply (proj2 control_field_bits (Ctrl.mk 1 0 1 1 3 0 0 1 6 0)).
  unfold ctrl_shaped. cbn. lia.
Defined.

Lemma not_in_cases (st : Z) (l : list Z) :
  ~ In st l -> one_of st l = false.
Proof.
  intros N. unfold one_of. apply not_true_is_false. intros H.
  apply existsb_exists in H. destruct H as (x & I & E).
  apply Z.eqb_eq in E. subst. exact (N I).
Qed.

(** A frame of a service type outside the writer's cases is not written:
    the writer throws after the header.  DISCONNECT_RESPONSE and
    DESCRIPTION_RESPONSE, which the reader accepts, are among them. *)
Theorem write_rejects_unhandled (flag : bool) (v : KNXNetHeader.t) :
  ~ In (KNXNetHeader.serviceType v) write_cases ->
  0 <= KNXNetHeader.serviceType v <= 65535 ->
  KNXNetHeader.write flag v = Throw KNXNetHeader.unhandled.
Proof.
  intros N R. unfold KNXNetHeader.write, KNXNetHeader.length.
  cbn [KNXNetHeader.serviceType KNXNetHeader.set_totalLength
       KNXNetHeader.totalLength].
  rewrite !not_in_cases by (intros I; apply N; cbn in *; tauto).
  replace (KNXNetHeader.serviceType v =? SERVICE_TYPE.ROUTING_INDICATION)
    with false
    by (symmetry; apply Z.eqb_neq; intros E; apply N; rewrite E; cbn; tauto).
  cbn [bind JS.to_number].
  rewrite !writeUInt8_ok, !writeUInt16BE_ok by lia. reflexivity.
Qed.

Lemma write_rejects_unhandled_witness :
  Reader.run (KNXNetHeader.read true)
    (buffer [0x06; 0x10; 0x02; 0x0A; 0x00; 0x08; 0x07; 0x00])
  = Ok disconnect_response
  /\ KNXNetHeader.write true disconnect_response
     = Throw KNXNetHeader.unhandled.
Proof.
  split; [vm_compute; reflexivity|].
  apply (write_rejects_unhandled true disconnect_response).
  - cbn. intuition discriminate.
  - vm_compute. split; discriminate.
Defined.

(** ** What the writer announces and what it emits *)

Lemma seq_inv (a b : result Buffer.t) (bs : Buffer.t) :
  a >+ b = Ok bs -> exists x y, a = Ok x /\ b = Ok y /\ bs = x ++ y.
Proof.
  unfold Buffer.seq. destruct a as [x|]; [|discriminate].
  destruct b as [y|]; [|discriminate]. cbn. intros H.
  injection H as <-. eauto.
Qed.

Lemma writeUInt8_inv (v : Z) (bs : Buffer.t) :
  Buffer.writeUInt8 v = Ok bs -> bs = [Buffer.of_Z v] /\ 0 <= v <= 255.
Proof.
  unfold Buffer.writeUInt8.
  destruct (Z.leb_spec 0 v), (Z.leb_spec v 255); cbn; try discriminate.
  intros [= <-]. split; [reflexivity | lia].
Qed.

Lemma writeUInt16BE_inv (v : Z) (bs : Buffer.t) :
  Buffer.writeUInt16BE v = Ok bs ->
  bs = [Buffer.of_Z (v / 256); Buffer.of_Z (v mod 256)] /\ 0 <= v <= 65535.
Proof.
  unfold Buffer.writeUInt16BE.
  destruct (Z.leb_spec 0 v), (Z.leb_spec v 65535); cbn; try discriminate.
  intros [= <-]. split; [reflexivity | lia].
Qed.

(** Open up a successful sequence of writes. *)
Ltac unseq :=
  repeat match goal with
         | H : _ >+ _ = Ok _ |- _ =>
             apply seq_inv in H; destruct H as (? & ? & ? & ? & ?)
         | H : Buffer.writeUInt8 _ = Ok _ |- _ =>
             apply writeUInt8_inv in H; destruct H as [? ?]
         | H : Buffer.writeUInt16BE _ = Ok _ |- _ =>
             apply writeUInt16BE_inv in H; destruct H as [? ?]
         end; subst.

Lemma IPv4Endpoint_write_length (value : string) (bs : Buffer.t) :
  IPv4Endpoint.write value = Ok bs -> List.length bs = 6%nat.
Proof.
  unfold IPv4Endpoint.write, IPv4Endpoint.octets.
  destruct (String.eqb value ""); [discriminate|].
  destruct (JS.split (JS.is_char ":") value) as [|addr [|port rest]];
    try discriminate.
  intros H. unseq.
  match goal with
  | X : match ?m with _ => _ end = Ok _ |- _ =>
      destruct m as [|[a|] [|[b|] [|[c|] [|[d|] [|? ?]]]]]; try discriminate;
      destruct (forallb _ _); [|discriminate]; injection X as <-
  end.
  reflexivity.
Qed.

Lemma HPAI_write_length (o : option HPAI.t) (bs : Buffer.t) :
  HPAI.write o = Ok bs -> Z.of_nat (List.length bs) = HPAI.length o.
Proof.
  destruct o as [h|]; cbn [HPAI.write HPAI.length].
  - intros H. unseq.
    match goal with
    | X : IPv4Endpoint.write _ = Ok _ |- _ =>
        apply IPv4Endpoint_write_length in X
    end.
    rewrite !length_app. cbn [List.length]. lia.
  - intros H. injection H as <-. reflexivity.
Qed.

Lemma CRI_write_length (o : option CRI.t) (bs : Buffer.t) :
  CRI.write o = Ok bs -> Z.of_nat (List.length bs) = CRI.length o.
Proof.
  destruct o as [c|]; cbn [CRI.write CRI.length]; intros H;
    [unseq | injection H as <-]; reflexivity.
Qed.

Lemma ConnState_write_length (o : option ConnState.t) (bs : Buffer.t) :
  ConnState.write o = Ok bs -> Z.of_nat (List.length bs) = ConnState.length o.
Proof.
  destruct o as [c|]; cbn [ConnState.write ConnState.length]; intros H;
    [unseq | injection H as <-]; reflexivity.
Qed.

Lemma TunnState_write_length (o : option TunnState.t) (bs : Buffer.t) :
  TunnState.write o = Ok bs -> Z.of_nat (List.length bs) = TunnState.length o.
Proof.
  destruct o as [c|]; cbn [TunnState.write TunnState.length]; intros H;
    [unseq | injection H as <-]; reflexivity.
Qed.

Lemma KnxAddress_parse_length (text : string) (kind : Z) (flag : bool)
    (bs : Buffer.t) :
  KnxAddress.parse text kind flag = Ok bs -> List.length bs = 2%nat.
Proof.
  unfold KnxAddress.parse. intros H.
  repeat match type of H with
         | context [if ?c then _ else _] => destruct c
         | context [match ?x with _ => _ end] => destruct x
         end; try discriminate; injection H as <-; reflexivity.
Qed.

Lemma APDU_write_length (a : APDU.t) (bs : Buffer.t) :
  APDU.write (Some a) = Ok bs -> known_apci a -> no_bitlength a ->
  APDU.length (Some a) = Ok (Z.of_nat (List.length bs)).
Proof.
  unfold APDU.write, known_apci, no_bitlength. intros H K B.
  apply bind_inv in H. destruct H as (t & L & H). rewrite L.
  destruct (JS.index_of (APDU.apci a) APCICODES) as [i|]; [|congruence].
  destruct (t <? 3); [discriminate|]. destruct (t >? 17); [discriminate|].
  unfold APDU.defaulted in H. unfold APDU.length in L.
  rewrite B in H, L. cbn [Z.eqb negb] in H, L.
  destruct (Z.eqb_spec t 3) as [->|N].
  - destruct (APDU.data a) as [|n|[|y b]]; unseq; reflexivity.
  - unseq.
    destruct (APDU.data a) as [|n|[|y b]]; try discriminate.
    match goal with X : Ok _ = Ok _ |- _ => injection X as <- end.
    destruct (Z.of_nat (List.length (y :: b)) >? 14); [discriminate|].
    assert (t = 3 + Z.of_nat (List.length (y :: b))) as ->.
    { destruct b as [|z b].
      - destruct (Buffer.to_Z y <=? 63); congruence.
      - congruence. }
    f_equal. cbn [List.length Datatypes.app]. lia.
Qed.

Lemma CEMI_write_length (flag : bool) (c : CEMI.t) (bs : Buffer.t) :
  CEMI.write flag (Some c) = Ok bs -> counted_cemi c ->
  CEMI.length (Some c) = Ok (Z.of_nat (List.length bs)).
Proof.
  unfold CEMI.write, CEMI.length, counted_cemi. intros H C.
  destruct (CEMI.ctrl c) as [k|]; [|discriminate]. unseq.
  repeat match goal with
         | X : KnxAddress.parse _ _ _ = Ok _ |- _ =>
             apply KnxAddress_parse_length in X
         end.
  destruct (one_of (CEMI.msgcode c) L_Data).
  - destruct (CEMI.apdu c) as [a|]; [|discriminate]. destruct C as [K B].
    match goal with
    | X : APDU.write _ = Ok _ |- _ =>
        rewrite (APDU_write_length _ _ X K B)
    end.
    cbn [bind]. f_equal. rewrite !length_app. cbn [List.length]. lia.
  - rewrite C. cbn [APDU.length bind].
    match goal with X : Ok _ = Ok _ |- _ => injection X as <- end.
    f_equal. rewrite !length_app. cbn [List.length]. lia.
Qed.

Lemma announced_framed (a b c d : byte) (total : Z) (body : Buffer.t) :
  0 <= total <= 65535 ->
  KNXNetHeader.announced
    ([a] ++ [b] ++ [c; d]
     ++ [Buffer.of_Z (total / 256); Buffer.of_Z (total mod 256)] ++ body)
  = Some total.
Proof.
  intros R. cbn [KNXNetHeader.announced Datatypes.app].
  rewrite word_of_bytes by assumption. reflexivity.
Qed.

(** Whenever the writer succeeds on a counted frame, the length it stores
    in the frame and announces in the header is the number of bytes it
    emitted. *)
Theorem write_announces_emitted_length (flag : bool) (v v' : KNXNetHeader.t)
    (bytes : Buffer.t) :
  KNXNetHeader.write flag v = Ok (v', bytes) -> counted v ->
  v' = KNXNetHeader.set_totalLength (Some (Z.of_nat (List.length bytes))) v
  /\ KNXNetHeader.announced bytes = Some (Z.of_nat (List.length bytes)).
Proof.
  unfold KNXNetHeader.write, counted. intros H [C1 C2].
  apply bind_inv in H. destruct H as (total & L & H).
  apply bind_inv in H. destruct H as (bs & W & H).
  injection H as <- <-.
  cbn [KNXNetHeader.serviceType KNXNetHeader.set_totalLength
       KNXNetHeader.totalLength KNXNetHeader.hpai KNXNetHeader.tunn
       KNXNetHeader.cri KNXNetHeader.connstate KNXNetHeader.tunnstate
       KNXNetHeader.cemi] in W.
  apply seq_inv in W. destruct W as (hdr & body & W & B & ->).
  unseq.
  assert (T : total = Some (6 + Z.of_nat (List.length body))).
  { unfold KNXNetHeader.length in L.
    destruct (one_of (KNXNetHeader.serviceType v)
                [SERVICE_TYPE.SEARCH_REQUEST; SERVICE_TYPE.CONNECT_REQUEST]).
    - unseq.
      repeat match goal with
             | X : HPAI.write _ = Ok _ |- _ => apply HPAI_write_length in X
             | X : CRI.write _ = Ok _ |- _ => apply CRI_write_length in X
             end.
      ok_inv L. subst total. f_equal. rewrite !length_app. lia.
    - destruct (one_of (KNXNetHeader.serviceType v)
                  [SERVICE_TYPE.SEARCH_RESPONSE;
                   SERVICE_TYPE.CONNECT_RESPONSE;
                   SERVICE_TYPE.CONNECTIONSTATE_REQUEST;
                   SERVICE_TYPE.CONNECTIONSTATE_RESPONSE;
                   SERVICE_TYPE.DISCONNECT_REQUEST]).
      + unseq.
        repeat match goal with
               | X : HPAI.write _ = Ok _ |- _ => apply HPAI_write_length in X
               | X : CRI.write _ = Ok _ |- _ => apply CRI_write_length in X
               | X : ConnState.write _ = Ok _ |- _ =>
                   apply ConnState_write_length in X
               end.
        ok_inv L. subst total. f_equal. rewrite !length_app. lia.
      + destruct (one_of (KNXNetHeader.serviceType v)
                    [SERVICE_TYPE.ROUTING_INDICATION;
                     SERVICE_TYPE.TUNNELING_ACK;
                     SERVICE_TYPE.TUNNELING_REQUEST]) eqn:G;
          [|discriminate].
        specialize (C2 eq_refl). unseq.
        assert (CL : exists n, CEMI.length (KNXNetHeader.cemi v) = Ok n
                               /\ n = Z.of_nat (List.length x0)).
        { destruct (KNXNetHeader.cemi v) as [c|].
          - eexists. split; [|reflexivity].
            eapply CEMI_write_length; eassumption.
          - match goal with X : Ok _ = Ok _ |- _ => injection X as <- end.
            eexists. split; reflexivity. }
        destruct CL as (n & CL & ->). rewrite CL in L. cbn [bind] in L.
        match goal with
        | X : TunnState.write _ = Ok _ |- _ =>
            apply TunnState_write_length in X
        end.
        destruct (one_of (KNXNetHeader.serviceType v)
                    [SERVICE_TYPE.TUNNELING_ACK;
                     SERVICE_TYPE.TUNNELING_REQUEST]) eqn:G2.
        * ok_inv L. subst total. f_equal. rewrite !length_app. lia.
        * destruct (Z.eqb_spec (KNXNetHeader.serviceType v)
                      SERVICE_TYPE.ROUTING_INDICATION) as [E|E].
          -- rewrite (C1 E) in *. cbn [TunnState.length] in *.
             ok_inv L. subst total. f_equal. rewrite !length_app. lia.
          -- exfalso. unfold one_of in G, G2. cbn [existsb] in G, G2.
             apply Z.eqb_neq in E. rewrite E in G. cbn [orb] in G.
             rewrite G in G2. discriminate. }
  subst total. cbn [JS.to_number] in *.
  match goal with
  | X : 0 <= 6 + _ <= 65535 |- _ => rename X into R
  end.
  rewrite <- !app_assoc. cbn [Datatypes.app List.length].
  replace (Z.of_nat (S (S (S (S (S (S (List.length body))))))))
    with (6 + Z.of_nat (List.length body)) by lia.
  split; [reflexivity|].
  apply (announced_framed _ _ _ _ _ body R).
Qed.

Lemma write_announces_emitted_length_witness :
  KNXNetHeader.announced (ack_packet 7 0)
  = Some (Z.of_nat (List.length (ack_packet 7 0))).
Proof.
  apply (write_announces_emitted_length true acknowledgement
           (KNXNetHeader.set_totalLength (Some 10) acknowledgement)
           (ack_packet 7 0)).
  - vm_compute. reflexivity.
  - split; [intros E; vm_compute in E; discriminate | intros _; exact I].
Defined.

(** ** The datagram builder *)

(** Case analysis on a service type against the builder's cases. *)
Ltac builder_cases st :=
  destruct (Z.eqb_spec st SERVICE_TYPE.SEARCH_REQUEST) as [->|?];
  [|destruct (Z.eqb_spec st SERVICE_TYPE.CONNECT_REQUEST) as [->|?];
    [|destruct (Z.eqb_spec st SERVICE_TYPE.CONNECTIONSTATE_REQUEST) as [->|?];
      [|destruct (Z.eqb_spec st SERVICE_TYPE.DISCONNECT_REQUEST) as [->|?];
        [|destruct (Z.eqb_spec st SERVICE_TYPE.ROUTING_INDICATION) as [->|?];
          [|destruct (Z.eqb_spec st SERVICE_TYPE.TUNNELING_REQUEST) as [->|?];
            [|destruct (Z.eqb_spec st SERVICE_TYPE.TUNNELING_ACK)
                as [->|?]]]]]]].

Ltac other_service :=
  repeat match goal with
         | N : ?st <> ?x |- context [?st =? ?x] =>
             rewrite (proj2 (Z.eqb_neq st x) N)
         end.

(** A datagram of any service type can be built when the remote control
    endpoint is known; without it, building a TUNNELING_REQUEST or a
    TUNNELING_ACK raises a TypeError and every other type is built. *)
Theorem fromServiceRequest_needs_endpoint (st : Z)
    (opts : KnxDatagram.options) (ch : option Z) (id : nat) :
  (forall r, is_ok (KnxDatagram.fromServiceRequest st opts (Some r) ch id)
             = true)
  /\ (if one_of st [SERVICE_TYPE.TUNNELING_REQUEST;
                    SERVICE_TYPE.TUNNELING_ACK]
      then KnxDatagram.fromServiceRequest st opts None ch id
           = Throw KnxDatagram.TypeError
      else is_ok (KnxDatagram.fromServiceRequest st opts None ch id) = true).
Proof.
  unfold KnxDatagram.fromServiceRequest, KnxDatagram.buildDatagram,
    KnxDatagram.addTunnState, one_of.
  cbn [KnxDatagram._remoteControlEndpoint existsb].
  split; [intros r|]; builder_cases st; try reflexivity;
    other_service; reflexivity.
Qed.

(** A group request can only be made from a tunneling or routing skeleton:
    there it retargets the frame to the given service type, puts the group
    address in the CEMI frame and edits the default APDU, leaving the HPAI
    as built; on the skeleton of any other service type it raises a
    TypeError. *)
Theorem request_needs_cemi (st : Z) (opts : KnxDatagram.options)
    (r : KnxDatagram.endpoint) (ch : option Z) (id : nat)
    (dg : KnxDatagram.t) (type : Z) (edit : APDU.t -> APDU.t) (g : string) :
  KnxDatagram.fromServiceRequest st opts (Some r) ch id = Ok dg ->
  if one_of st [SERVICE_TYPE.ROUTING_INDICATION;
                SERVICE_TYPE.TUNNELING_REQUEST]
  then exists dg' d' c',
         KnxDatagram._makeRequest type edit g dg = Ok dg'
         /\ KnxDatagram.datagram dg' = Some d'
         /\ KNXNetHeader.serviceType d' = type
         /\ KNXNetHeader.hpai d' = Some KnxDatagram.default_hpai
         /\ KNXNetHeader.cemi d' = Some c'
         /\ CEMI.destAddr c' = g
         /\ CEMI.apdu c' = Some (edit default_apdu)
         /\ CEMI.msgcode c'
            = (if st =? SERVICE_TYPE.TUNNELING_REQUEST
               then MESSAGECODES.L_Data_req else MESSAGECODES.L_Data_ind)
  else KnxDatagram._makeRequest type edit g dg
       = Throw KnxDatagram.TypeError.
Proof.
  unfold KnxDatagram.fromServiceRequest, KnxDatagram.buildDatagram,
    KnxDatagram.addTunnState, one_of.
  cbn [KnxDatagram._remoteControlEndpoint existsb].
  builder_cases st; other_service; cbn [orb];
    intros H; apply bind_inv in H; destruct H as (d & D & H);
    injection H as <-; injection D as <-;
    try reflexivity;
    do 3 eexists; repeat split; reflexivity.
Qed.

Lemma request_needs_cemi_witness :
  KnxDatagram._makeRequest SERVICE_TYPE.TUNNELING_REQUEST
    (KnxDatagram.set_apci "GroupValue_Read") "1/2/3" acknowledged_skeleton
  = Throw KnxDatagram.TypeError.
Proof.
  exact (request_needs_cemi SERVICE_TYPE.TUNNELING_ACK no_options gateway
           (Some 7) O acknowledged_skeleton SERVICE_TYPE.TUNNELING_REQUEST
           (KnxDatagram.set_apci "GroupValue_Read") "1/2/3" eq_refl).
Defined.

Lemma or_num_default (x : option Z) (d : Z) :
  JS.or_num x 0 = 0 -> JS.or_num x d = d.
Proof.
  destruct x as [v|]; cbn; [|reflexivity].
  destruct (Z.eqb_spec v 0); [reflexivity | contradiction].
Qed.

(** A raw write without a bit length: the value, 1 to 14 bytes, is given
    eight bits per byte and is written verbatim after the TPCI/APCI word
    0x0080 of a GroupValue_Write, so the APDU takes 3+n bytes even when the
    value would fit the six bits of the word. *)
Theorem makeWriteRawRequest_payload (st : Z) (opts : KnxDatagram.options)
    (r : KnxDatagram.endpoint) (ch : option Z) (id : nat)
    (dg : KnxDatagram.t) (g : string) (value : Buffer.t) (bl : option Z) :
  KnxDatagram.fromServiceRequest st opts (Some r) ch id = Ok dg ->
  one_of st [SERVICE_TYPE.ROUTING_INDICATION;
             SERVICE_TYPE.TUNNELING_REQUEST] = true ->
  (1 <= List.length value <= 14)%nat -> JS.or_num bl 0 = 0 ->
  let n := Z.of_nat (List.length value) in
  exists dg' d' c' a',
    KnxDatagram.makeWriteRawRequest g value bl dg = Ok dg'
    /\ KnxDatagram.datagram dg' = Some d'
    /\ KNXNetHeader.cemi d' = Some c' /\ CEMI.destAddr c' = g
    /\ CEMI.apdu c' = Some a'
    /\ APDU.bitlength a' = Some (n * 8)
    /\ APDU.length (Some a') = Ok (3 + n)
    /\ APDU.write (Some a')
       = Ok ([Buffer.of_Z (n + 1); x00; x80] ++ value).
Proof.
  intros B S L O n.
  assert (A : exists dg' d' c',
             KnxDatagram.makeWriteRawRequest g value bl dg = Ok dg'
             /\ KnxDatagram.datagram dg' = Some d'
             /\ KNXNetHeader.cemi d' = Some c' /\ CEMI.destAddr c' = g
             /\ CEMI.apdu c'
                = Some (APDU.mk None None 0 "GroupValue_Write" (Buf value)
                          (Some (n * 8)))).
  { revert B S.
    unfold KnxDatagram.makeWriteRawRequest, KnxDatagram.fromServiceRequest,
      KnxDatagram.buildDatagram, KnxDatagram.addTunnState, one_of.
    cbn [KnxDatagram._remoteControlEndpoint existsb].
    rewrite (or_num_default bl _ O). fold n.
    builder_cases st; other_service; cbn [orb];
      intros H; apply bind_inv in H; destruct H as (d & D & H);
      injection H as <-; injection D as <-;
      try discriminate; intros _;
      do 3 eexists; repeat split; reflexivity. }
  destruct A as (dg' & d' & c' & A1 & A2 & A3 & A4 & A5).
  exists dg', d', c'. eexists.
  split; [exact A1|]. split; [exact A2|]. split; [exact A3|].
  split; [exact A4|]. split; [exact A5|]. split; [reflexivity|].
  assert (N8 : (n * 8 =? 0) = false) by (apply Z.eqb_neq; lia).
  assert (Len : APDU.length
                  (Some (APDU.mk None None 0 "GroupValue_Write" (Buf value)
                           (Some (n * 8)))) = Ok (3 + n)).
  { unfold APDU.length. cbn [APDU.bitlength JS.or_num].
    rewrite !N8. cbn [negb].
    destruct (Z.gtb_spec (n * 8) 6); [|lia].
    replace (n * 8 + 7) with (7 + n * 8) by lia.
    rewrite Z.div_add by lia. reflexivity. }
  split; [exact Len|].
  unfold APDU.write. rewrite Len. cbn [bind APDU.apci].
  change (JS.index_of "GroupValue_Write" APCICODES) with (Some 2%nat).
  cbv iota.
  destruct (Z.ltb_spec (3 + n) 3); [lia|].
  destruct (Z.gtb_spec (3 + n) 17); [lia|].
  destruct (Z.eqb_spec (3 + n) 3); [lia|].
  unfold APDU.defaulted. cbn [APDU.bitlength APDU.data APDU.tpci JS.or_num].
  rewrite !N8. cbn [negb].
  replace (3 + n - 2) with (n + 1) by lia.
  rewrite writeUInt8_ok by lia. reflexivity.
Qed.

Lemma makeWriteRawRequest_payload_witness :
  exists dg' d' c' a',
    KnxDatagram.makeWriteRawRequest "1/2/3" [x01] None first_request = Ok dg'
    /\ KnxDatagram.datagram dg' = Some d'
    /\ KNXNetHeader.cemi d' = Some c' /\ CEMI.destAddr c' = "1/2/3"
    /\ CEMI.apdu c' = Some a'
    /\ APDU.bitlength a' = Some 8
    /\ APDU.length (Some a') = Ok 4
    /\ APDU.write (Some a') = Ok [x02; x00; x80; x01].
Proof.
  apply (makeWriteRawRequest_payload SERVICE_TYPE.TUNNELING_REQUEST
           no_options gateway (Some 7) O first_request "1/2/3" [x01] None
           eq_refl eq_refl).
  - cbn. lia.
  - reflexivity.
Defined.

End KnxCodecFacts.

(** * The session: invariants of the machine and its handlers *)

Module KnxSessionFacts.

Import KnxConstants KnxProtocol Scenario Session KnxProtocolFacts BufferFacts
  ReaderFacts.
Import KnxConnectionFacts KnxConnection.

Lemma state_eqb_eq (a b : state_name) : state_eqb a b = true <-> a = b.
Proof. destruct a, b; cbn; split; congruence. Qed.

Lemma onExit_fields (m : t) :
  let m1 := fst (onExit m) in
  state m1 = state m /\ _options m1 = _options m
  /\ _connectionHeartbeatFailures m1 = _connectionHeartbeatFailures m
  /\ _channelID m1 = _channelID m /\ _controlSocket m1 = _controlSocket m
  /\ _discoverSocket m1
     = (if state_eqb (state m) searching then false else _discoverSocket m).
Proof.
  unfold onExit. destruct (state m) eqn:S; cbn; rewrite ?S; cbn;
    try (repeat split; reflexivity).
  destruct (_discoverSocket m) eqn:D; cbn; rewrite ?S;
    repeat split; congruence.
Qed.

Lemma prepare_and_send_fields svc s r m m' e :
  prepare_and_send svc s r m = Ok (m', e) -> m' = upd_made m.
Proof. unfold prepare_and_send. intros H. unbind. reflexivity. Qed.

Ltac sent_frames :=
  repeat match goal with
         | H : prepare_and_send _ _ _ _ = Ok _ |- _ =>
             apply prepare_and_send_fields in H; subst
         end.

Lemma onEnter_leaf_fields a m m' e :
  onEnter_leaf a m = Ok (m', e) -> entered_fields m m'.
Proof.
  unfold onEnter_leaf, entered_fields.
  destruct (state m) eqn:S; cbn [state_eqb]; intros H.
  - unbind. cbn. rewrite S. repeat split; reflexivity.
  - unbind. cbn. rewrite S. repeat split; reflexivity.
  - destruct (KnxDatagram.remoteEndpoint (_options m)) as [[|c r]|];
      unfold _startSearch in H; unbind; sent_frames; cbn; rewrite ?S;
      repeat split; reflexivity.
  - unfold _startConnect in H. unbind. sent_frames. cbn. rewrite S.
    repeat split; reflexivity.
  - unbind. rewrite S. repeat split; reflexivity.
  - unbind. rewrite S. repeat split; reflexivity.
  - unbind. rewrite S. repeat split; reflexivity.
  - unbind. rewrite S. repeat split; reflexivity.
  - unfold send_CONNECTIONSTATE_REQUEST in H. unbind. sent_frames. cbn.
    rewrite S. repeat split; reflexivity.
  - destruct a; try discriminate. unfold send_TUNNELING_REQUEST in H.
    unbind. cbn [_outboundDatagram upd_outbound] in *. unbind. cbn.
    rewrite S. repeat split; reflexivity.
  - unbind. sent_frames. cbn. rewrite S. repeat split; reflexivity.
Qed.

Lemma transition_leaf_fields target a m m' e :
  state_eqb target (state m) = false ->
  transition_with onEnter_leaf target a m = Ok (m', e) ->
  entered_fields (upd_state target (fst (onExit m))) m'.
Proof.
  unfold transition_with. intros ->.
  destruct (onExit m) as [m1 e1]. intros H. unbind.
  eapply onEnter_leaf_fields. eassumption.
Qed.

Lemma acknowledge_inbound_fields d m m' e :
  acknowledge_inbound d m = Ok (m', e) ->
  state m' = state m /\ _options m' = _options m
  /\ _connectionHeartbeatFailures m' = _connectionHeartbeatFailures m
  /\ _channelID m' = _channelID m /\ _controlSocket m' = _controlSocket m
  /\ _discoverSocket m' = _discoverSocket m.
Proof.
  unfold acknowledge_inbound. intros H. open_matches; cbn;
    repeat split; reflexivity.
Qed.

Ltac close_fields :=
  cbn [state_eqb andb negb] in *; repeat split;
  first [exact I | congruence].

Lemma transition_has_fields target a m m' e :
  transition target a m = Ok (m', e) -> transition_fields target m m'.
Proof.
  unfold transition, transition_with, transition_fields, settle, entering.
  destruct (state_eqb target (state m)) eqn:E.
  - intros H. injection H as <- <-.
    apply state_eqb_eq in E. subst target.
    destruct (state m); cbn; repeat split; reflexivity.
  - pose proof (onExit_fields m) as X. cbv zeta in X.
    destruct (onExit m) as [m1 e1]. cbn [fst] in X.
    destruct X as (X1 & X2 & X3 & X4 & X5 & X6).
    intros H. apply bind_inv in H. destruct H as ([m2 e2] & H & R).
    injection R as <- <-. unfold onEnter in H.
    cbn [state upd_state] in H.
    destruct target.
    all: try (apply onEnter_leaf_fields in H; unfold entered_fields in H;
              cbn [state upd_state _options _connectionHeartbeatFailures
                   _channelID _controlSocket _discoverSocket state_eqb] in H;
              destruct H as (H1 & H2 & H3 & H4 & H5 & H6);
              destruct (state m) eqn:S; try discriminate E;
              solve [close_fields]).
    + apply then_inv in H. destruct H as (e3 & H & _). cbn [fst] in H.
      apply transition_leaf_fields in H; [|reflexivity].
      unfold entered_fields in H. cbn in H.
      destruct H as (H1 & H2 & H3 & H4 & H5 & H6).
      destruct (state m) eqn:S; try discriminate E; close_fields.
    + destruct a; try discriminate.
      apply bind_inv in H. destruct H as ([m3 e3] & A & H).
      apply then_inv in H. destruct H as (e4 & H & _). cbn [fst] in H.
      apply acknowledge_inbound_fields in A.
      cbn [state upd_state _options _connectionHeartbeatFailures
           _channelID _controlSocket _discoverSocket] in A.
      destruct A as (A1 & A2 & A3 & A4 & A5 & A6).
      apply transition_leaf_fields in H; [|rewrite A1; reflexivity].
      unfold entered_fields in H.
      assert (O : onExit m3 = (m3, []))
        by (unfold onExit; rewrite A1; reflexivity).
      rewrite O in H. cbn in H.
      destruct H as (H1 & H2 & H3 & H4 & H5 & H6).
      destruct (state m) eqn:S; try discriminate E; close_fields.
Qed.

Ltac use_fields S :=
  repeat match goal with
         | T : transition _ _ _ = Ok _ |- _ =>
             apply transition_has_fields in T;
             unfold transition_fields, settle, entering in T;
             cbn [state _options _connectionHeartbeatFailures _channelID
                  _controlSocket _discoverSocket upd_state upd_channelID
                  upd_heartbeatFailures upd_inboundSeqNum upd_outboundSeqNum
                  upd_remoteControlEndpoint upd_outbound upd_made fst snd] in T;
             rewrite ?S in T; cbn [state_eqb andb negb] in T;
             destruct T as (? & ? & ? & ? & ? & ?)
         end.

Ltac open_cases :=
  repeat match goal with
         | H : prepare_and_send _ _ _ _ = Ok _ |- _ =>
             apply prepare_and_send_fields in H; subst
         | H : context [match ?x with _ => _ end] |- _ =>
             destruct x eqn:?; unbind
         end.

Ltac compare_facts :=
  repeat match goal with
         | H : (_ >? _) = true |- _ => apply Z.gtb_lt in H
         | H : (_ >? _) = false |- _ =>
             rewrite Z.gtb_ltb in H; apply Z.ltb_ge in H
         end.

Ltac close_invariant S :=
  unfold session_invariant in *;
  cbn [state _options _connectionHeartbeatFailures _channelID
       _controlSocket _discoverSocket upd_state upd_channelID
       upd_heartbeatFailures upd_inboundSeqNum upd_outboundSeqNum
       upd_remoteControlEndpoint upd_outbound upd_made fst snd] in *;
  repeat match goal with
         | H : ?f ?x = _ |- context [?f ?x] => rewrite H
         end;
  match goal with
  | I : _ /\ _ |- _ => rewrite ?S in I
  end;
  cbn [in_session before_session] in *;
  intuition (try discriminate; try congruence; try lia).

Lemma handle_keeps_invariant input a m m' e :
  session_invariant m -> handle input a m = Ok (m', e) ->
  session_invariant m'.
Proof.
  intros I H. unfold handle in H.
  destruct (state m) eqn:S; named_cases H;
    unfold inbound_SEARCH_RESPONSE, inbound_CONNECT_RESPONSE,
      inbound_CONNECTIONSTATE_RESPONSE, inbound_TUNNELING_ACK,
      send_CONNECTIONSTATE_REQUEST, send_TUNNELING_REQUEST, defer in H;
    unbind; open_cases; use_fields S; compare_facts.
  all: try solve [close_invariant S].
Qed.

(** Induction over the reachable machines: the API and the listeners only
    count the datagrams made and hand an input to [handle]. *)
Lemma reachable_ind_handle (P : t -> Prop) :
  (forall opts, P (initialize opts)) ->
  (forall m, P m -> P (upd_made m)) ->
  (forall input a m m' e, P m -> handle input a m = Ok (m', e) -> P m') ->
  forall m, reachable m -> P m.
Proof.
  intros Pi Pm Ph.
  induction 1 as [opts | m input a m' e _ IH H | m msg from m' e _ IH H
                 | m msg from m' e _ IH H | m addr m' e _ IH H
                 | m addr value bitlength m' e _ IH H].
  - apply Pi.
  - exact (Ph _ _ _ _ _ IH H).
  - unfold control_message in H. unbind.
    match goal with
    | X : match ?x with _ => _ end = Ok _ |- _ =>
        destruct x as [[signal d]|]
    end; unbind; [|assumption].
    match goal with
    | X : handle _ _ _ = Ok _ |- _ => refine (Ph _ _ _ _ _ _ X)
    end.
    apply Pm, IH.
  - unfold discover_message in H. unbind.
    match goal with
    | X : match ?x with _ => _ end = Ok _ |- _ =>
        destruct x as [[signal d]|]
    end; unbind; [|assumption].
    match goal with
    | X : handle _ _ _ = Ok _ |- _ => refine (Ph _ _ _ _ _ _ X)
    end.
    apply Pm, IH.
  - unfold read, queueRequest in H. unbind.
    match goal with
    | X : handle _ _ _ = Ok _ |- _ => refine (Ph _ _ _ _ _ _ X)
    end.
    apply Pm, IH.
  - unfold writeRaw, queueRequest in H. unbind.
    match goal with
    | X : handle _ _ _ = Ok _ |- _ => refine (Ph _ _ _ _ _ _ X)
    end.
    apply Pm, IH.
Qed.

Lemma reachable_session_invariant (m : t) :
  reachable m -> session_invariant m.
Proof.
  apply reachable_ind_handle.
  - intros opts. unfold session_invariant. cbn.
    repeat split; intros; try discriminate; try reflexivity; lia.
  - intros m0 I. exact I.
  - intros input a m0 m' e I H. exact (handle_keeps_invariant _ _ _ _ _ I H).
Qed.

(** The heartbeat gives up after four failures in a row: the count of
    failed connection-state requests never exceeds 4, and is at most 3
    while the session lasts. *)
Theorem heartbeat_failures_bounded (m : t) :
  reachable m ->
  0 <= _connectionHeartbeatFailures m <= 4
  /\ (in_session (state m) = true -> _connectionHeartbeatFailures m <= 3).
Proof.
  intros R. destruct (reachable_session_invariant m R) as (H1 & H2 & _).
  split; assumption.
Qed.

(** Until a CONNECT_RESPONSE is accepted the machine has no channel id, so
    [parseKnxMessage] filters nothing during discovery and connection. *)
Theorem no_channel_before_session (m : t) :
  reachable m -> before_session (state m) = true -> _channelID m = None.
Proof.
  intros R. destruct (reachable_session_invariant m R) as (_ & _ & H & _).
  exact H.
Qed.

(** The sockets follow the states: the discovery socket is open only while
    searching, and the control socket is closed while the machine is
    uninitialized, idle or searching. *)
Theorem sockets_follow_states (m : t) :
  reachable m ->
  (_discoverSocket m = true -> state m = searching)
  /\ (_controlSocket m = true ->
      state m <> uninitialized /\ state m <> idle /\ state m <> searching).
Proof.
  intros R.
  destruct (reachable_session_invariant m R) as (_ & _ & _ & H1 & H2).
  split; [exact H1|]. intros C.
  destruct (state m) eqn:S; cbn in H2;
    repeat split; try discriminate;
    specialize (H2 C eq_refl); discriminate.
Qed.

Lemma run_reachable (tr : trace) (m : t) :
  reachable m -> reachable (or_initial (run tr m)).
Proof.
  revert m. induction tr as [|[input a] tr IH]; intros m R; [exact R|].
  cbn [run]. destruct (handle input a m) as [[m' e]|err] eqn:H.
  - cbn [bind fst]. apply IH. exact (reach_handle m input a m' e R H).
  - apply reach_initialize.
Qed.

Lemma heartbeat_failures_bounded_witness :
  state unanswered = outbound_CONNECTIONSTATE_REQUEST
  /\ _connectionHeartbeatFailures unanswered = 3
  /\ 0 <= _connectionHeartbeatFailures unanswered <= 4
  /\ (in_session (state unanswered) = true ->
      _connectionHeartbeatFailures unanswered <= 3).
Proof.
  split; [reflexivity|]. split; [reflexivity|].
  apply (heartbeat_failures_bounded unanswered).
  apply run_reachable, run_reachable, reach_initialize.
Defined.

Lemma no_channel_before_session_witness :
  _channelID connected_machine = Some 7
  /\ state disconnected = idle
  /\ _channelID disconnected = None.
Proof.
  split; [reflexivity|]. split; [reflexivity|].
  apply (no_channel_before_session disconnected).
  - apply run_reachable, run_reachable, reach_initialize.
  - reflexivity.
Defined.

Lemma sockets_follow_states_witness :
  (_discoverSocket searching_machine = true
   /\ _controlSocket connected_machine = true)
  /\ ((_discoverSocket searching_machine = true ->
       state searching_machine = searching)
      /\ (_controlSocket searching_machine = true ->
          state searching_machine <> uninitialized
          /\ state searching_machine <> idle
          /\ state searching_machine <> searching))
  /\ ((_discoverSocket connected_machine = true ->
       state connected_machine = searching)
      /\ (_controlSocket connected_machine = true ->
          state connected_machine <> uninitialized
          /\ state connected_machine <> idle
          /\ state connected_machine <> searching)).
Proof.
  split; [split; reflexivity|]. split.
  - apply (sockets_follow_states searching_machine).
    apply run_reachable, reach_initialize.
  - apply (sockets_follow_states connected_machine).
    apply run_reachable, reach_initialize.
Defined.

(** ** The listeners *)

Lemma parseKnxMessage_inv (ch : option Z) (msg : Buffer.t)
    (opts : KnxDatagram.options) (id : nat) (dg : KnxDatagram.t) :
  KnxDatagram.parseKnxMessage ch msg opts id = Some dg ->
  exists d desc,
    Reader.run (KNXNetHeader.read (KnxDatagram.codec_flag opts)) msg = Ok d
    /\ dg = KnxDatagram.set_datagram d (KnxDatagram.new opts id)
    /\ KnxDatagram.datagramDesc dg = Ok desc
    /\ (forall c, ch = Some c -> KnxDatagram.other_channel c d = false).
Proof.
  unfold KnxDatagram.parseKnxMessage.
  destruct (Reader.run _ msg) as [d|]; [|discriminate].
  destruct (KnxDatagram.datagramDesc _) as [desc|] eqn:D; [|discriminate].
  intros H. exists d, desc.
  destruct ch as [c|].
  - destruct (KnxDatagram.other_channel c d) eqn:O; [discriminate|].
    injection H as <-. repeat split; try assumption.
    intros c' [= <-]. exact O.
  - injection H as <-. repeat split; try assumption. discriminate.
Qed.

Lemma transition_keeps_outbound target a m m' e :
  outbound_kept m -> transition target a m = Ok (m', e) -> outbound_kept m'.
Proof.
  intros K T. pose proof (transition_has_fields _ _ _ _ _ T) as F.
  destruct F as (F & _). unfold settle in F.
  unfold transition, transition_with in T.
  destruct (state_eqb target (state m)) eqn:E.
  - injection T as <- <-. exact K.
  - intros S. rewrite S in F.
    assert (X : target = outbound_TUNNELING_REQUEST)
      by (destruct target; try discriminate F; reflexivity).
    subst target.
    destruct (onExit m) as [m1 e1]. unfold onEnter in T.
    cbn [state upd_state] in T. unfold onEnter_leaf in T.
    cbn [state upd_state] in T. destruct a; try discriminate T.
    unfold send_TUNNELING_REQUEST in T. unbind.
    cbn [_outboundDatagram upd_outbound] in *. unbind.
    cbn. discriminate.
Qed.

Ltac keep_outbound K S :=
  unfold outbound_kept in *;
  cbn [state _outboundDatagram upd_state upd_channelID upd_heartbeatFailures
       upd_inboundSeqNum upd_outboundSeqNum upd_remoteControlEndpoint
       upd_outbound upd_made fst snd] in *;
  first
    [ match goal with
      | T : transition _ _ ?m0 = Ok (?m', _) |- state ?m' = _ -> _ =>
          refine (transition_keeps_outbound _ _ m0 _ _ _ T);
          unfold outbound_kept;
          cbn [state _outboundDatagram upd_state upd_channelID
               upd_heartbeatFailures upd_inboundSeqNum upd_outboundSeqNum
               upd_remoteControlEndpoint upd_outbound upd_made];
          first [exact K | rewrite S; discriminate]
      end
    | rewrite ?S; first [discriminate | exact K | intros _; discriminate] ].

Lemma handle_keeps_outbound input a m m' e :
  outbound_kept m -> handle input a m = Ok (m', e) -> outbound_kept m'.
Proof.
  intros K H. unfold handle in H.
  destruct (state m) eqn:S; named_cases H;
    unfold inbound_SEARCH_RESPONSE, inbound_CONNECT_RESPONSE,
      inbound_CONNECTIONSTATE_RESPONSE, inbound_TUNNELING_ACK,
      send_CONNECTIONSTATE_REQUEST, send_TUNNELING_REQUEST, defer in H;
    unbind; open_cases.
  all: try solve [keep_outbound K S].
  1,2: unfold outbound_kept in *;
    cbn [state _outboundDatagram upd_outbound]; intros _; apply K, S.
  all: exact K.
Qed.

Lemma reachable_outbound_kept (m : t) : reachable m -> outbound_kept m.
Proof.
  apply reachable_ind_handle.
  - intros opts S. discriminate S.
  - intros m0 K. exact K.
  - intros input a m0 m' e K H. exact (handle_keeps_outbound _ _ _ _ _ K H).
Qed.

Lemma prepare_total (svc : Z) (m : t) :
  exists dg, _prepareKnxDatagram svc m = Ok dg.
Proof.
  unfold _prepareKnxDatagram, KnxDatagram.fromServiceRequest,
    KnxDatagram.buildDatagram, KnxDatagram.addTunnState.
  cbn [KnxDatagram._remoteControlEndpoint].
  repeat match goal with
         | |- context [if ?c then _ else _] => destruct c
         end; cbn [bind]; eexists; reflexivity.
Qed.

Lemma prepare_and_send_total svc s r m :
  exists m' e, prepare_and_send svc s r m = Ok (m', e).
Proof.
  unfold prepare_and_send. destruct (prepare_total svc m) as [dg ->].
  cbn [bind]. eauto.
Qed.

Lemma onEnter_leaf_total a m :
  state m <> outbound_TUNNELING_REQUEST ->
  exists m' e, onEnter_leaf a m = Ok (m', e).
Proof.
  intros N. unfold onEnter_leaf, _startSearch, _startConnect,
    send_CONNECTIONSTATE_REQUEST.
  destruct (state m) eqn:S; try contradiction;
    try destruct (KnxDatagram.remoteEndpoint (_options m)) as [[|c r]|];
    try (do 2 eexists; reflexivity);
    match goal with
    | |- context [prepare_and_send ?svc ?s ?r ?m0] =>
        destruct (prepare_and_send_total svc s r m0) as (m1 & e1 & ->)
    end; cbn [bind fst snd]; do 2 eexists; reflexivity.
Qed.

Lemma transition_leaf_total target a m :
  target <> outbound_TUNNELING_REQUEST ->
  exists m' e, transition_with onEnter_leaf target a m = Ok (m', e).
Proof.
  intros N. unfold transition_with.
  destruct (state_eqb target (state m)); [eauto|].
  destruct (onExit m) as [m1 e1].
  destruct (onEnter_leaf_total a (upd_state target m1) N) as (m2 & e2 & ->).
  cbn [bind fst snd]. eauto.
Qed.

Lemma transition_total target a m :
  target <> outbound_TUNNELING_REQUEST ->
  target <> inbound_TUNNELING_REQUEST_L_Data ->
  exists m' e, transition target a m = Ok (m', e).
Proof.
  intros N1 N2. unfold transition, transition_with.
  destruct (state_eqb target (state m)); [eauto|].
  destruct (onExit m) as [m1 e1]. unfold onEnter. cbn [state upd_state].
  destruct target; try contradiction;
    try (destruct (onEnter_leaf_total a (upd_state _ m1) N1)
           as (m2 & e2 & ->); cbn [bind fst snd]; eauto).
  unfold then_. cbn [fst snd].
  match goal with
  | |- context [transition_with onEnter_leaf online nothing ?m0] =>
      destruct (transition_leaf_total online nothing m0 ltac:(discriminate))
        as (m2 & e2 & ->)
  end. cbn [bind fst snd]. eauto.
Qed.

Lemma CEMI_read_apdu (flag : bool) (buf : Buffer.t) (off o : nat)
    (c : CEMI.t) :
  CEMI.read flag buf off = Reader.Value c o ->
  one_of (CEMI.msgcode c) L_Data = true -> CEMI.apdu c <> None.
Proof.
  unfold CEMI.read. intros H. peel.
  match goal with
  | X : match ?t with _ => _ end _ _ = Reader.Value _ _ |- _ =>
      destruct t; try discriminate X
  end.
  match goal with
  | X : match ?t with _ => _ end _ _ = Reader.Value _ _ |- _ =>
      destruct t; try discriminate X
  end.
  peel; cbn [CEMI.msgcode CEMI.apdu]; congruence.
Qed.

Ltac service_facts :=
  unfold one_of in *; cbn [existsb] in *; eqb_facts;
  unfold SERVICE_TYPE.TUNNELING_REQUEST, SERVICE_TYPE.ROUTING_INDICATION,
    SERVICE_TYPE.SEARCH_REQUEST, SERVICE_TYPE.CONNECT_REQUEST,
    SERVICE_TYPE.SEARCH_RESPONSE, SERVICE_TYPE.CONNECT_RESPONSE,
    SERVICE_TYPE.CONNECTIONSTATE_REQUEST,
    SERVICE_TYPE.CONNECTIONSTATE_RESPONSE, SERVICE_TYPE.DISCONNECT_REQUEST,
    SERVICE_TYPE.DISCONNECT_RESPONSE, SERVICE_TYPE.DESCRIPTION_RESPONSE,
    SERVICE_TYPE.TUNNELING_ACK in *.

Lemma read_carries (flag : bool) (msg : Buffer.t) (d : KNXNetHeader.t) :
  Reader.run (KNXNetHeader.read flag) msg = Ok d -> carries d.
Proof.
  unfold Reader.run, Reader.next.
  destruct (KNXNetHeader.read flag msg O) as [d' off| |e] eqn:E;
    try discriminate.
  intros H. injection H as ->. unfold KNXNetHeader.read in E.
  peel; unfold carries; cbn; repeat split;
    try (intros; discriminate);
    try (intros; exfalso; service_facts; lia).
  intros _. eexists. split; [reflexivity|].
  match goal with
  | X : CEMI.read _ _ _ = Reader.Value _ _ |- _ =>
      exact (CEMI_read_apdu _ _ _ _ _ X)
  end.
Qed.

Lemma then_total (r : t * list effect) (k : t -> outcome) :
  (forall m, exists m' e, k m = Ok (m', e)) ->
  exists m' e, then_ r k = Ok (m', e).
Proof.
  intros K. unfold then_. destruct (K (fst r)) as (m' & e & ->).
  cbn [bind fst snd]. eauto.
Qed.

Lemma search_response_total (d : KNXNetHeader.t) (m : t) :
  KNXNetHeader.hpai d <> None -> KNXNetHeader.devinfo d <> None ->
  exists m' e, inbound_SEARCH_RESPONSE (frame d) m = Ok (m', e).
Proof.
  intros H D. unfold inbound_SEARCH_RESPONSE.
  destruct (KNXNetHeader.hpai d); [|contradiction].
  destruct (KNXNetHeader.devinfo d); [|contradiction].
  match goal with
  | |- context [if ?c then _ else _] => destruct c
  end; [|eauto].
  apply transition_total; discriminate.
Qed.

Lemma connect_response_total (d : KNXNetHeader.t) (m : t) :
  KNXNetHeader.connstate d <> None ->
  exists m' e, inbound_CONNECT_RESPONSE (frame d) m = Ok (m', e).
Proof.
  intros C. unfold inbound_CONNECT_RESPONSE.
  destruct (KNXNetHeader.connstate d); [|contradiction].
  destruct (JS.strict_eq _ _); apply transition_total; discriminate.
Qed.

Lemma heartbeat_response_total (a : arg) (m : t) :
  (forall d, a = frame d -> KNXNetHeader.connstate d <> None) ->
  a = null \/ (exists d, a = frame d) ->
  exists m' e, inbound_CONNECTIONSTATE_RESPONSE a m = Ok (m', e).
Proof.
  intros C A. unfold inbound_CONNECTIONSTATE_RESPONSE.
  assert (R : forall m0,
             exists m' e,
               (r <- (if _connectionHeartbeatFailures
                           (upd_heartbeatFailures
                              (_connectionHeartbeatFailures m0 + 1) m0) >? 3
                      then transition disconnecting nothing
                             (upd_heartbeatFailures
                                (_connectionHeartbeatFailures m0 + 1) m0)
                      else Ok (upd_heartbeatFailures
                                 (_connectionHeartbeatFailures m0 + 1) m0,
                               [])) ;;
                Ok (fst r,
                    clearTimer connStateTimer :: snd r ++
                    [setImmediate "send_CONNECTIONSTATE_REQUEST"]))
               = Ok (m', e)).
  { intros m0. destruct (_ >? 3).
    - destruct (transition_total disconnecting nothing
                  (upd_heartbeatFailures
                     (_connectionHeartbeatFailures m0 + 1) m0)
                  ltac:(discriminate) ltac:(discriminate))
        as (m1 & e1 & ->).
      cbn [bind fst snd]. eauto.
    - cbn [bind fst snd]. eauto. }
  destruct A as [-> | (d & ->)]; [apply R|].
  specialize (C d eq_refl).
  destruct (KNXNetHeader.connstate d); [|contradiction].
  destruct (is_NO_ERROR _); [|apply R].
  apply then_total. intros m0. apply transition_total; discriminate.
Qed.

Lemma tunneling_ack_total (d : KNXNetHeader.t) (m : t) :
  KNXNetHeader.tunnstate d <> None -> _outboundDatagram m <> None ->
  exists m' e, inbound_TUNNELING_ACK (frame d) m = Ok (m', e).
Proof.
  intros T K. unfold inbound_TUNNELING_ACK.
  destruct (KNXNetHeader.tunnstate d); [|contradiction].
  destruct (JS.strict_eq _ _); [|eauto].
  destruct (_outboundDatagram m) as [dg|] eqn:O; [|contradiction].
  destruct (is_NO_ERROR _).
  - apply then_total. intros m0. apply transition_total; discriminate.
  - cbn [_outboundFailures _outboundDatagram upd_outbound].
    destruct (_ >? 1); [|eauto].
    apply then_total. intros m0. apply transition_total; discriminate.
Qed.

Lemma inbound_request_total (d : KNXNetHeader.t) (c : CEMI.t) (m : t) :
  KNXNetHeader.tunnstate d <> None ->
  KNXNetHeader.cemi d = Some c -> CEMI.apdu c <> None ->
  exists m' e,
    transition inbound_TUNNELING_REQUEST_L_Data (frame d) m = Ok (m', e).
Proof.
  intros T C A. unfold transition, transition_with.
  destruct (state_eqb _ (state m)); [eauto|].
  destruct (onExit m) as [m1 e1]. unfold onEnter. cbn [state upd_state].
  assert (X : exists r, acknowledge_inbound d
                          (upd_state inbound_TUNNELING_REQUEST_L_Data m1)
                        = Ok r).
  { unfold acknowledge_inbound.
    destruct (KNXNetHeader.tunnstate d); [|contradiction].
    destruct (_ || _); [|eauto].
    destruct (prepare_total SERVICE_TYPE.TUNNELING_ACK
                (upd_state inbound_TUNNELING_REQUEST_L_Data m1))
      as (ack0 & P).
    rewrite P. cbn [bind].
    assert (Q : exists ack, KnxDatagram.setSeqNum
                              (JS.to_number (TunnState.seqnum t0)) ack0
                            = Ok ack).
    { revert P. unfold _prepareKnxDatagram, KnxDatagram.fromServiceRequest,
        KnxDatagram.buildDatagram. cbn. intros [= <-]. eexists. reflexivity. }
    destruct Q as (ack & ->). cbn [bind].
    destruct (JS.strict_eq _ _); [|eauto].
    rewrite C. destruct (CEMI.apdu c); [eauto | contradiction]. }
  destruct X as (r & ->). cbn [bind].
  destruct (then_total r (transition_with onEnter_leaf waiting nothing))
    as (m2 & e2 & ->).
  { intros m0. apply transition_leaf_total. discriminate. }
  cbn [bind fst snd]. eauto.
Qed.

(** Case analysis of the code [x] against the codes a hypothesis compares
    it with. *)
Ltac code_cases D x :=
  repeat match type of D with
         | context [?c =? x] => destruct (Z.eqb_spec c x); [subst x|]
         end;
  repeat match type of D with
         | context [x =? ?c] =>
             destruct (Z.eqb_spec x c); [exfalso; lia|]
         end.

Ltac fold_closed D :=
  repeat match type of D with
         | context [Z.eqb (Zpos ?a) (Zpos ?b)] =>
             let v := eval vm_compute in (Z.eqb (Zpos a) (Zpos b)) in
             change (Z.eqb (Zpos a) (Zpos b)) with v in D
         end;
  cbn [orb JS.show' append] in D.

Ltac frame_handled K S C1 C2 C3 :=
  first
    [ solve [eauto]
    | unfold defer; solve [eauto]
    | apply then_total; intros; apply transition_total; discriminate
    | apply transition_total; discriminate
    | apply search_response_total; apply C1; reflexivity
    | apply connect_response_total; apply C2; auto
    | apply heartbeat_response_total;
      [intros ? [= <-]; apply C2; auto | right; eauto]
    | apply tunneling_ack_total; [apply C3; auto | apply K, S]
    | eapply inbound_request_total;
      [apply C3; auto | eassumption
       | match goal with A : _ -> CEMI.apdu _ <> None |- _ => apply A end;
         reflexivity] ].

Lemma handle_frame_total (m : t) (d : KNXNetHeader.t) (dg : KnxDatagram.t)
    (desc : string) :
  outbound_kept m -> carries d ->
  KnxDatagram.datagramDesc (KnxDatagram.set_datagram d dg) = Ok desc ->
  exists m' e, handle ("inbound_" ++ desc) (frame d) m = Ok (m', e).
Proof.
  intros K (C1 & C2 & C3 & C4) D.
  unfold KnxDatagram.datagramDesc in D.
  cbn [KnxDatagram.datagram KnxDatagram.set_datagram] in D.
  cbv zeta in C1, C2, C3, C4.
  remember (KNXNetHeader.serviceType d) as st eqn:Est. clear Est.
  unfold SERVICE_TYPE_table, MESSAGECODES_table, keyText, one_of in D.
  cbn [existsb] in D.
  unfold SERVICE_TYPE.TUNNELING_REQUEST, SERVICE_TYPE.ROUTING_INDICATION in D.
  code_cases D st; fold_closed D.
  all: try (destruct (C4 eq_refl) as (c & Hc & Ha); rewrite Hc in D).
  all: try (destruct (KNXNetHeader.cemi d) as [c|] eqn:Hc;
            [|discriminate D]).
  all: try (remember (CEMI.msgcode c) as mc eqn:Emc; clear Emc;
            code_cases D mc; fold_closed D).
  all: injection D as <-.
  all: unfold handle; destruct (state m) eqn:S;
    cbn [named String.eqb Ascii.eqb Bool.eqb orb append].
  all: solve [frame_handled K S C1 C2 C3].
Qed.

(** The listener of the control socket never throws: whatever packet
    arrives, in whatever state the machine has reached, the packet is
    dropped or handed to the machine, and the handler it finds there runs
    to its end. *)
Theorem control_listener_never_throws (msg : Buffer.t) (from : rinfo)
    (m : t) :
  reachable m ->
  exists m' e, control_message msg from m = Ok (m', e).
Proof.
  intros R. unfold control_message, control_input.
  destruct (KnxDatagram.parseKnxMessage (_channelID m) msg (_options m)
              (made m)) as [dg|] eqn:P; [|cbn [bind]; eauto].
  destruct (parseKnxMessage_inv _ _ _ _ _ P) as (d & desc & X & -> & D & _).
  rewrite D. cbn [bind KnxDatagram.datagram KnxDatagram.set_datagram].
  destruct (handle_frame_total (upd_made m) d
              (KnxDatagram.new (_options m) (made m)) desc)
    as (m' & e & H).
  - exact (reachable_outbound_kept m R).
  - exact (read_carries _ _ _ X).
  - exact D.
  - unfold then_. cbn [fst snd]. rewrite H. cbn [bind fst snd]. eauto.
Qed.

Lemma control_listener_never_throws_witness :
  state requesting = outbound_TUNNELING_REQUEST
  /\ exists m' e,
       control_message (ack_packet 7 0) gateway_rinfo requesting
       = Ok (m', e).
Proof.
  split; [reflexivity|].
  apply (control_listener_never_throws (ack_packet 7 0) gateway_rinfo
           requesting).
  apply run_reachable, run_reachable, reach_initialize.
Defined.

(** The listener of the discovery socket reads the HPAI of every frame it
    is given: a parsed frame without one, such as a TUNNELING_ACK or a
    ROUTING_INDICATION, makes it raise a TypeError. *)
Theorem discover_listener_needs_hpai (msg : Buffer.t) (from : rinfo) (m : t)
    (d : KNXNetHeader.t) :
  Reader.run (KNXNetHeader.read (flag m)) msg = Ok d ->
  KNXNetHeader.hpai d = None ->
  (forall c, _channelID m = Some c -> ~ foreign c d) ->
  discover_input msg from m = Throw TypeError
  /\ discover_message msg from m = Throw TypeError.
Proof.
  intros R H F.
  assert (D : discover_input msg from m = Throw TypeError).
  { unfold discover_input, KnxDatagram.parseKnxMessage.
    unfold flag in R. rewrite R.
    destruct (datagramDesc_of_read _ msg d
                (KnxDatagram.new (_options m) (made m)) R) as [desc D].
    rewrite D.
    assert (P : match _channelID m with
                | Some c => if KnxDatagram.other_channel c d then None
                            else Some (KnxDatagram.set_datagram d
                                         (KnxDatagram.new (_options m)
                                            (made m)))
                | None => Some (KnxDatagram.set_datagram d
                                  (KnxDatagram.new (_options m) (made m)))
                end
                = Some (KnxDatagram.set_datagram d
                          (KnxDatagram.new (_options m) (made m)))).
    { destruct (_channelID m) as [c|]; [|reflexivity].
      destruct (KnxDatagram.other_channel c d) eqn:O; [|reflexivity].
      apply other_channel_iff in O. exfalso. exact (F c eq_refl O). }
    rewrite P. cbn [KnxDatagram.datagram KnxDatagram.set_datagram].
    rewrite H. reflexivity. }
  split; [exact D|]. unfold discover_message. rewrite D. reflexivity.
Qed.

Lemma discover_listener_needs_hpai_witness :
  discover_input (ack_packet 7 0) gateway_rinfo (session 7) = Throw TypeError
  /\ discover_message (ack_packet 7 0) gateway_rinfo (session 7)
     = Throw TypeError.
Proof.
  apply (discover_listener_needs_hpai (ack_packet 7 0) gateway_rinfo
           (session 7) (ack_frame 7 0)).
  - vm_compute. reflexivity.
  - reflexivity.
  - intros c [= <-] [(cs & C & _) | (ts & T & N)].
    + discriminate C.
    + injection T as <-. apply N. reflexivity.
Defined.

(** ** Giving up *)

Lemma disconnect_datagram (m : t) :
  channel_ok m ->
  exists dg,
    _prepareKnxDatagram SERVICE_TYPE.DISCONNECT_REQUEST m = Ok dg
    /\ KnxDatagram.packet (flag m) dg
       = Ok (disconnect_packet (JS.to_number (_channelID m))).
Proof.
  unfold channel_ok. intros C.
  unfold _prepareKnxDatagram, KnxDatagram.fromServiceRequest,
    KnxDatagram.buildDatagram.
  set (ch := match _channelID m with
             | Some c => if c =? 0 then None else Some c
             | None => None
             end).
  assert (E : JS.to_number ch = JS.to_number (_channelID m)).
  { subst ch. destruct (_channelID m) as [c|]; [|reflexivity].
    destruct (Z.eqb_spec c 0); [subst; reflexivity | reflexivity]. }
  assert (R : 0 <= JS.to_number ch <= 255).
  { rewrite E. destruct (_channelID m); cbn; lia. }
  rewrite <- E. clearbody ch. clear E C.
  eexists. split; [reflexivity|].
  unfold KnxDatagram.packet, KNXNetHeader.write.
  destruct ch as [c|]; cbn -[Buffer.writeUInt8] in R |- *;
    rewrite !writeUInt8_ok by lia; reflexivity.
Qed.

(** Entering [disconnecting] from any other state. *)
Lemma leave_for_disconnecting (m : t) :
  channel_ok m -> state m <> disconnecting ->
  exists m' e,
    transition disconnecting nothing m = Ok (m', e)
    /\ m' = upd_made (upd_state disconnecting (fst (onExit m)))
    /\ sent e = [(controlSocket, _remoteControlEndpoint m,
                  disconnect_packet (JS.to_number (_channelID m)))]
    /\ emitted e = [] /\ In clearQueue e
    /\ In (setTimeout state_timer "timeout" nothing 10000) e.
Proof.
  intros C S.
  assert (X : exists m1 e1,
             onExit m = (m1, e1) /\ sent e1 = [] /\ emitted e1 = []
             /\ channel_ok m1 /\ _channelID m1 = _channelID m
             /\ _remoteControlEndpoint m1 = _remoteControlEndpoint m
             /\ flag m1 = flag m /\ state m1 = state m).
  { unfold onExit. destruct (state m) eqn:E; try destruct (_discoverSocket m);
      do 2 eexists; (split; [reflexivity|]); cbn; rewrite ?E;
      repeat split; try reflexivity; exact C. }
  destruct X as (m1 & e1 & X & X1 & X2 & X3 & X4 & X5 & X6 & X7).
  assert (C' : channel_ok (upd_state disconnecting m1)) by exact X3.
  destruct (disconnect_datagram _ C') as (dg & P & K).
  unfold transition, transition_with.
  replace (state_eqb disconnecting (state m)) with false
    by (destruct (state m); try reflexivity; contradiction).
  rewrite X. unfold onEnter. cbn [state upd_state].
  unfold onEnter_leaf. cbn [state upd_state].
  unfold prepare_and_send. rewrite P. cbn [bind fst snd].
  do 2 eexists. split; [reflexivity|].
  split; [reflexivity|].
  rewrite sent_app, emitted_app, X1, X2. unfold send. rewrite K.
  cbn [_remoteControlEndpoint _channelID upd_state].
  rewrite X4, X5. cbn.
  repeat split; apply in_or_app; right; cbn; auto.
Qed.

(** Entering [disconnecting] from a state of the session: the queue is
    purged and a DISCONNECT_REQUEST goes to the gateway. *)
Lemma enter_disconnecting (m : t) :
  channel_ok m -> in_session (state m) = true ->
  exists m' e,
    transition disconnecting nothing m = Ok (m', e)
    /\ m' = upd_made (upd_state disconnecting (fst (onExit m)))
    /\ sent e = [(controlSocket, _remoteControlEndpoint m,
                  disconnect_packet (JS.to_number (_channelID m)))]
    /\ emitted e = [] /\ In clearQueue e.
Proof.
  intros C S.
  destruct (leave_for_disconnecting m C) as (m' & e & T & E & T1 & T2 & T3 & _).
  { intros D. rewrite D in S. discriminate S. }
  exists m', e. repeat split; assumption.
Qed.

(** The heartbeat: an answer without error clears the failure count and
    the machine waits; a missing or bad answer counts one failure, the
    request is scheduled again, and the failure that brings the count above
    3 makes the machine send a DISCONNECT_REQUEST and enter
    [disconnecting]. *)
Theorem heartbeat_step (m : t) (a : arg) (alive : bool) :
  state m = outbound_CONNECTIONSTATE_REQUEST -> channel_ok m ->
  heartbeat_answer a = Some alive ->
  exists m' e,
    handle "inbound_CONNECTIONSTATE_RESPONSE" a m = Ok (m', e)
    /\ emitted e = []
    /\ if alive
       then _connectionHeartbeatFailures m' = 0 /\ state m' = waiting
            /\ sent e = []
       else _connectionHeartbeatFailures m'
            = _connectionHeartbeatFailures m + 1
            /\ In (setImmediate "send_CONNECTIONSTATE_REQUEST") e
            /\ if _connectionHeartbeatFailures m + 1 >? 3
               then state m' = disconnecting
                    /\ sent e
                       = [(controlSocket, _remoteControlEndpoint m,
                           disconnect_packet (JS.to_number (_channelID m)))]
               else state m' = outbound_CONNECTIONSTATE_REQUEST
                    /\ sent e = [].
Proof.
  intros S C A.
  assert (Lost : alive = false ->
            exists m' e,
              (let m1 := upd_heartbeatFailures
                           (_connectionHeartbeatFailures m + 1) m in
               r <- (if _connectionHeartbeatFailures m1 >? 3
                     then transition disconnecting nothing m1
                     else Ok (m1, [])) ;;
               Ok (fst r,
                   clearTimer connStateTimer :: snd r ++
                   [setImmediate "send_CONNECTIONSTATE_REQUEST"]))
              = Ok (m', e)
              /\ emitted e = []
              /\ _connectionHeartbeatFailures m'
                 = _connectionHeartbeatFailures m + 1
              /\ In (setImmediate "send_CONNECTIONSTATE_REQUEST") e
              /\ if _connectionHeartbeatFailures m + 1 >? 3
                 then state m' = disconnecting
                      /\ sent e
                         = [(controlSocket, _remoteControlEndpoint m,
                             disconnect_packet
                               (JS.to_number (_channelID m)))]
                 else state m' = outbound_CONNECTIONSTATE_REQUEST
                      /\ sent e = []).
  { intros _. cbv zeta. cbn [_connectionHeartbeatFailures upd_heartbeatFailures].
    destruct (_connectionHeartbeatFailures m + 1 >? 3).
    - destruct (enter_disconnecting
                  (upd_heartbeatFailures (_connectionHeartbeatFailures m + 1) m))
        as (m' & e & T & -> & Se & Em & Q).
      + exact C.
      + cbn [state upd_heartbeatFailures]. rewrite S. reflexivity.
      + rewrite T. cbn [bind fst snd]. do 2 eexists.
        split; [reflexivity|].
        change (clearTimer connStateTimer
                  :: e ++ [setImmediate "send_CONNECTIONSTATE_REQUEST"])
          with ([clearTimer connStateTimer]
                  ++ e ++ [setImmediate "send_CONNECTIONSTATE_REQUEST"]).
        rewrite !sent_app, !emitted_app, Se, Em.
        unfold onExit. cbn [state upd_heartbeatFailures]. rewrite S.
        cbn. repeat split.
        right. apply in_or_app. right. left. reflexivity.
    - cbn [bind fst snd]. do 2 eexists. split; [reflexivity|].
      cbn. repeat split; try assumption. right. left. reflexivity. }
  unfold handle. rewrite S.
  cbn [named String.eqb Ascii.eqb Bool.eqb].
  unfold inbound_CONNECTIONSTATE_RESPONSE.
  destruct a as [| |d|dg]; try discriminate A.
  - injection A as <-. destruct (Lost eq_refl) as (m' & e & H & R).
    exists m', e. split; [exact H|]. exact R.
  - cbn [heartbeat_answer] in A.
    destruct (KNXNetHeader.connstate d) as [cs|]; [|discriminate].
    injection A as A. rewrite A. destruct alive.
    + unfold then_, transition, transition_with.
      cbn [fst snd state upd_heartbeatFailures]. rewrite S.
      cbn [state_eqb]. unfold onExit.
      cbn [state upd_heartbeatFailures]. rewrite S.
      unfold onEnter. cbn [state upd_state]. unfold onEnter_leaf.
      cbn [state upd_state bind fst snd].
      do 2 eexists. split; [reflexivity|]. cbn. repeat split.
    + destruct (Lost eq_refl) as (m' & e & H & R).
      exists m', e. split; [exact H|]. exact R.
Qed.

(** A request is sent at most twice: the first failure schedules it again
    and leaves everything else as it is; the second reports the response
    code to the caller, sends a DISCONNECT_REQUEST and gives the request
    up.  The outbound counter does not move. *)
Theorem request_retry (m : t) (a : arg) (dg : KnxDatagram.t)
    (code : option string) :
  state m = outbound_TUNNELING_REQUEST -> channel_ok m ->
  _outboundDatagram m = Some dg -> unacknowledged a m = Some code ->
  exists m' e,
    handle "inbound_TUNNELING_ACK" a m = Ok (m', e)
    /\ _outboundSeqNum m' = _outboundSeqNum m
    /\ if _outboundFailures m + 1 >? 1
       then state m' = disconnecting /\ _outboundDatagram m' = None
            /\ emitted e
               = [(("ReceivedAck_" ++ JS.dec (Z.of_nat (KnxDatagram.uuid dg)))
                     %string,
                   [code_arg code])]
            /\ sent e
               = [(controlSocket, _remoteControlEndpoint m,
                   disconnect_packet (JS.to_number (_channelID m)))]
       else state m' = outbound_TUNNELING_REQUEST
            /\ _outboundDatagram m' = Some dg
            /\ _outboundFailures m' = _outboundFailures m + 1
            /\ emitted e = [] /\ sent e = []
            /\ In (setImmediate "send_TUNNELING_REQUEST") e.
Proof.
  intros S C D U.
  assert (Failed : forall pre,
            sent pre = [] -> emitted pre = [] ->
            exists m' e,
              (let m1 := upd_outbound (_outboundDatagram m)
                           (_outboundFailures m + 1) m in
               if _outboundFailures m1 >? 1 then
                 match _outboundDatagram m1 with
                 | Some dg =>
                     then_ (m1, pre ++ [ReceivedAck dg code])
                           (transition disconnecting nothing)
                 | None => Throw TypeError
                 end
               else Ok (m1, pre ++ [setImmediate "send_TUNNELING_REQUEST"]))
              = Ok (m', e)
              /\ _outboundSeqNum m' = _outboundSeqNum m
              /\ if _outboundFailures m + 1 >? 1
                 then state m' = disconnecting /\ _outboundDatagram m' = None
                      /\ emitted e
                         = [(("ReceivedAck_"
                                ++ JS.dec (Z.of_nat (KnxDatagram.uuid dg)))
                               %string,
                             [code_arg code])]
                      /\ sent e
                         = [(controlSocket, _remoteControlEndpoint m,
                             disconnect_packet
                               (JS.to_number (_channelID m)))]
                 else state m' = outbound_TUNNELING_REQUEST
                      /\ _outboundDatagram m' = Some dg
                      /\ _outboundFailures m' = _outboundFailures m + 1
                      /\ emitted e = [] /\ sent e = []
                      /\ In (setImmediate "send_TUNNELING_REQUEST") e).
  { intros pre Sp Ep. cbv zeta.
    cbn [_outboundFailures _outboundDatagram upd_outbound]. rewrite D.
    destruct (_outboundFailures m + 1 >? 1).
    - destruct (enter_disconnecting
                  (upd_outbound (Some dg) (_outboundFailures m + 1) m))
        as (m' & e & T & -> & Se & Em & Q).
      + exact C.
      + cbn [state upd_outbound]. rewrite S. reflexivity.
      + unfold then_. cbn [fst snd]. rewrite T. cbn [bind fst snd].
        do 2 eexists. split; [reflexivity|].
        rewrite !sent_app, !emitted_app, Se, Em, Sp, Ep.
        unfold onExit. cbn [state upd_outbound]. rewrite S.
        cbn. repeat split.
    - do 2 eexists. split; [reflexivity|].
      rewrite !sent_app, !emitted_app, Sp, Ep. cbn.
      repeat split; try assumption.
      apply in_or_app. right. left. reflexivity. }
  unfold handle. rewrite S.
  cbn [named String.eqb Ascii.eqb Bool.eqb].
  unfold inbound_TUNNELING_ACK.
  destruct a as [| |d|dg']; try discriminate U.
  - injection U as <-. exact (Failed [] eq_refl eq_refl).
  - cbn [unacknowledged] in U.
    destruct (KNXNetHeader.tunnstate d) as [ts|]; [|discriminate].
    destruct (JS.strict_eq (TunnState.seqnum ts) (_outboundSeqNum m));
      [|discriminate].
    cbv zeta in U.
    destruct (is_NO_ERROR (responseCode (TunnState.status ts)));
      [discriminate|].
    injection U as <-.
    exact (Failed [clearTimer ackTimer] eq_refl eq_refl).
Qed.

Lemma heartbeat_step_witness :
  exists m' e,
    handle "inbound_CONNECTIONSTATE_RESPONSE" null
      (upd_state outbound_CONNECTIONSTATE_REQUEST (session 7)) = Ok (m', e)
    /\ emitted e = []
    /\ _connectionHeartbeatFailures m' = 0 + 1
    /\ In (setImmediate "send_CONNECTIONSTATE_REQUEST") e
    /\ state m' = outbound_CONNECTIONSTATE_REQUEST /\ sent e = [].
Proof.
  exact (heartbeat_step
           (upd_state outbound_CONNECTIONSTATE_REQUEST (session 7)) null
           false eq_refl ltac:(cbn; lia) eq_refl).
Defined.

Lemma request_retry_witness :
  exists m' e,
    handle "inbound_TUNNELING_ACK" null
      (upd_outbound (Some first_request) 1
         (upd_state outbound_TUNNELING_REQUEST (session 7))) = Ok (m', e)
    /\ _outboundSeqNum m' = 0
    /\ state m' = disconnecting /\ _outboundDatagram m' = None
    /\ emitted e = [("ReceivedAck_0", [no_code])]
    /\ sent e = [(controlSocket, gateway, disconnect_packet 7)].
Proof.
  exact (request_retry
           (upd_outbound (Some first_request) 1
              (upd_state outbound_TUNNELING_REQUEST (session 7)))
           null first_request None eq_refl ltac:(cbn; lia) eq_refl eq_refl).
Defined.

(** ** Requests and frames the machine has no handler for *)

(** With tunneling switched off, [read] and [writeRaw] raise the input
    outbound_ROUTING_INDICATION, which no state handles: whatever the state,
    nothing is put on the wire, and an online machine drops the request
    without a trace. *)
Theorem routed_requests_are_never_sent (m : t) (g : string)
    (value : Buffer.t) (bl : option Z) :
  KnxDatagram.use_tunneling (_options m) = Some false ->
  (exists m' e, read g m = Ok (m', e) /\ sent e = []
                /\ (state m = online -> m' = upd_made m /\ e = []))
  /\ (exists m' e, writeRaw g value bl m = Ok (m', e) /\ sent e = []
                   /\ (state m = online -> m' = upd_made m /\ e = [])).
Proof.
  intros T.
  assert (H : forall dg,
            exists m' e,
              handle "outbound_ROUTING_INDICATION" (request dg) (upd_made m)
              = Ok (m', e)
              /\ sent e = []
              /\ (state m = online -> m' = upd_made m /\ e = [])).
  { intros dg. unfold handle. cbn [state upd_made].
    destruct (state m) eqn:S;
      cbn [named String.eqb Ascii.eqb Bool.eqb orb]; unfold defer;
      try (do 2 eexists; split; [reflexivity|]; split; [reflexivity|];
           first [discriminate | intros _; split; reflexivity]).
    unfold then_, transition, transition_with, onExit, onEnter, onEnter_leaf.
    cbn [state upd_made upd_state fst snd]. rewrite S.
    cbn [state_eqb bind fst snd].
    do 2 eexists. split; [reflexivity|].
    split; [|discriminate].
    cbn [_controlSocket upd_state upd_made].
    destruct (_controlSocket m); reflexivity. }
  unfold read, writeRaw, queueRequest, _prepareKnxDatagram,
    KnxDatagram.fromServiceRequest, KnxDatagram.buildDatagram,
    KnxDatagram.addTunnState, KnxDatagram.makeReadRequest,
    KnxDatagram.makeWriteRawRequest, KnxDatagram._makeRequest,
    KnxDatagram.requestType, KnxDatagram.getServiceType, KnxDatagram.new.
  rewrite T.
  cbn [KnxDatagram.or_default KnxDatagram.useTunneling Z.eqb
       SERVICE_TYPE.TUNNELING_REQUEST SERVICE_TYPE.SEARCH_REQUEST].
  split; cbn; apply H.
Qed.

Lemma routed_requests_are_never_sent_witness :
  exists m' e,
    read "1/2/3" (upd_state online (initialize routing)) = Ok (m', e)
    /\ sent e = []
    /\ (state (upd_state online (initialize routing)) = online ->
        m' = upd_made (upd_state online (initialize routing)) /\ e = []).
Proof.
  exact (proj1 (routed_requests_are_never_sent
                  (upd_state online (initialize routing)) "1/2/3" [] None
                  eq_refl)).
Defined.

(** A DISCONNECT_REQUEST from the gateway ends the session without an
    answer: the listener purges the queue, the machine goes idle, forgets
    its channel and closes the control socket, and no DISCONNECT_RESPONSE
    or any other packet is sent. *)
Theorem disconnect_request_ends_session (m : t) (msg : Buffer.t)
    (from : rinfo) (d : KNXNetHeader.t) :
  state m = online ->
  Reader.run (KNXNetHeader.read (flag m)) msg = Ok d ->
  KNXNetHeader.serviceType d = SERVICE_TYPE.DISCONNECT_REQUEST ->
  (forall c, _channelID m = Some c -> ~ foreign c d) ->
  exists m' e,
    control_message msg from m = Ok (m', e)
    /\ state m' = idle /\ _channelID m' = None /\ _controlSocket m' = false
    /\ sent e = [] /\ emitted e = [("offline", [])] /\ In clearQueue e.
Proof.
  intros S R T F.
  assert (P : KnxDatagram.parseKnxMessage (_channelID m) msg (_options m)
                (made m)
              = Some (KnxDatagram.set_datagram d
                        (KnxDatagram.new (_options m) (made m)))).
  { unfold KnxDatagram.parseKnxMessage. unfold flag in R. rewrite R.
    unfold KnxDatagram.datagramDesc.
    cbn [KnxDatagram.datagram KnxDatagram.set_datagram]. rewrite T.
    cbn [one_of existsb Z.eqb orb SERVICE_TYPE.DISCONNECT_REQUEST
         SERVICE_TYPE.TUNNELING_REQUEST SERVICE_TYPE.ROUTING_INDICATION
         Pos.eqb].
    destruct (_channelID m) as [c|]; [|reflexivity].
    destruct (KnxDatagram.other_channel c d) eqn:O; [|reflexivity].
    apply other_channel_iff in O. exfalso. exact (F c eq_refl O). }
  unfold control_message, control_input. rewrite P.
  unfold KnxDatagram.datagramDesc.
  cbn [KnxDatagram.datagram KnxDatagram.set_datagram]. rewrite T.
  cbn [one_of existsb Z.eqb orb SERVICE_TYPE.DISCONNECT_REQUEST
       SERVICE_TYPE.TUNNELING_REQUEST SERVICE_TYPE.ROUTING_INDICATION
       Pos.eqb bind].
  change (JS.show' (keyText SERVICE_TYPE_table 521)) with "DISCONNECT_REQUEST".
  cbn [String.append String.eqb Ascii.eqb Bool.eqb].
  unfold then_, handle. cbn [fst snd state upd_made]. rewrite S.
  cbn [named String.eqb Ascii.eqb Bool.eqb orb].
  unfold then_, transition, transition_with, onExit, onEnter, onEnter_leaf.
  cbn [state upd_made upd_state fst snd]. rewrite S.
  cbn [state_eqb bind fst snd].
  do 2 eexists. split; [reflexivity|].
  cbn [state _channelID _controlSocket upd_channelID upd_sockets upd_state
       upd_made].
  destruct (_controlSocket m); cbn; repeat split; auto.
Qed.

Lemma disconnect_request_ends_session_witness :
  exists m' e,
    control_message disconnect_request gateway_rinfo (session 7) = Ok (m', e)
    /\ state m' = idle /\ _channelID m' = None /\ _controlSocket m' = false
    /\ sent e = [] /\ emitted e = [("offline", [])] /\ In clearQueue e.
Proof.
  eapply (disconnect_request_ends_session (session 7) disconnect_request
            gateway_rinfo).
  - reflexivity.
  - vm_compute. reflexivity.
  - reflexivity.
  - intros c [= <-] [(cs & C & N) | (ts & T & _)].
    + injection C as <-. apply N. reflexivity.
    + discriminate T.
Defined.

(** ** Connecting *)

(** The answer to the CONNECT_REQUEST: only E_NO_MORE_CONNECTIONS is a
    refusal, after which the machine goes idle; with any other status,
    error or not, the channel id of the response is stored, both sequence
    counters and the heartbeat failures restart at 0, "online" is emitted
    and the machine is online. *)
Theorem connect_response_step (m : t) (d : KNXNetHeader.t)
    (cs : ConnState.t) :
  state m = connecting -> KNXNetHeader.connstate d = Some cs ->
  exists m' e,
    handle "inbound_CONNECT_RESPONSE" (frame d) m = Ok (m', e)
    /\ sent e = []
    /\ if JS.strict_eq (ConnState.status cs)
            RESPONSECODE.E_NO_MORE_CONNECTIONS
       then state m' = idle /\ _channelID m' = None
            /\ emitted e = [("offline", [])]
       else state m' = online /\ _channelID m' = ConnState.channelId cs
            /\ _inboundSeqNum m' = 0 /\ _outboundSeqNum m' = 0
            /\ _connectionHeartbeatFailures m' = 0
            /\ emitted e = [("online", [])]
            /\ In (setInterval connStateRequestTimer
                     "outbound_CONNECTIONSTATE_REQUEST" 45000) e.
Proof.
  intros S C. unfold handle. rewrite S.
  cbn [named String.eqb Ascii.eqb Bool.eqb].
  unfold inbound_CONNECT_RESPONSE. rewrite C.
  destruct (JS.strict_eq (ConnState.status cs)
              RESPONSECODE.E_NO_MORE_CONNECTIONS).
  - unfold transition, transition_with, onExit, onEnter, onEnter_leaf.
    cbn [state upd_state fst snd]. rewrite S.
    cbn [state_eqb bind fst snd].
    do 2 eexists. split; [reflexivity|].
    cbn [state _channelID _controlSocket upd_channelID upd_sockets upd_state].
    destruct (_controlSocket m); cbn; repeat split.
  - unfold transition, transition_with, onExit, onEnter, then_,
      transition_with, onExit, onEnter_leaf.
    cbn [state upd_state upd_channelID fst snd]. rewrite S.
    cbn [state_eqb bind fst snd state upd_state upd_outboundSeqNum
         upd_inboundSeqNum upd_heartbeatFailures upd_channelID].
    do 2 eexists. split; [reflexivity|]. cbn. repeat split.
    right. left. reflexivity.
Qed.

Lemma connect_response_step_witness :
  exists m' e,
    handle "inbound_CONNECT_RESPONSE" (frame connect_frame)
      (upd_state connecting (initialize no_options)) = Ok (m', e)
    /\ sent e = []
    /\ state m' = online /\ _channelID m' = Some 7
    /\ _inboundSeqNum m' = 0 /\ _outboundSeqNum m' = 0
    /\ _connectionHeartbeatFailures m' = 0
    /\ emitted e = [("online", [])]
    /\ In (setInterval connStateRequestTimer
             "outbound_CONNECTIONSTATE_REQUEST" 45000) e.
Proof.
  exact (connect_response_step (upd_state connecting (initialize no_options))
           connect_frame (ConnState.mk (Some 7) (Some 0) None)
           eq_refl eq_refl).
Defined.

Lemma split_endpoint (a b c d : byte) (port : Z) :
  JS.split (JS.is_char ":") (IPv4Endpoint.show [a; b; c; d] port)
  = [dotted [a; b; c; d]; JS.dec port].
Proof.
  unfold IPv4Endpoint.show, dotted. cbn [map String.concat].
  set (sa := JS.dec (Buffer.to_Z a)). set (sb := JS.dec (Buffer.to_Z b)).
  set (sc := JS.dec (Buffer.to_Z c)). set (sd := JS.dec (Buffer.to_Z d)).
  change ((sa ++ "." ++ sb ++ "." ++ sc ++ "." ++ sd) ++ ":" ++ JS.dec port)%string
    with ((sa ++ String "." (sb ++ String "." (sc ++ String "." sd)))
            ++ String ":" (JS.dec port))%string.
  assert (F : free (JS.is_char ":")
                (sa ++ String "." (sb ++ String "." (sc ++ String "." sd)))
              = true).
  { rewrite free_app. cbn [free]. rewrite free_app. cbn [free].
    rewrite free_app. cbn [free]. subst sa sb sc sd.
    rewrite !free_dec by exact sep_colon. reflexivity. }
  rewrite (split_app (JS.is_char ":") _ (JS.dec port) ":"%char F eq_refl).
  rewrite split_free by (apply free_dec, sep_colon).
  reflexivity.
Qed.

Lemma connect_datagram (m : t) :
  exists dg,
    _prepareKnxDatagram SERVICE_TYPE.CONNECT_REQUEST m = Ok dg
    /\ KnxDatagram.packet (flag m) dg = Ok connect_packet.
Proof. eexists. split; reflexivity. Qed.

(** Discovery: a SEARCH_RESPONSE is taken when no server address is asked
    for or when the device's physical address is the one asked for; the
    machine then stores the
    address and port of the response's HPAI as its control endpoint, closes
    the discovery socket and sends the CONNECT_REQUEST there.  Any other
    response changes nothing. *)
Theorem search_response_step (m : t) (d : KNXNetHeader.t) (h : HPAI.t)
    (dev : DIBdevinfo.t) (a b c d0 : byte) (port : Z) :
  state m = searching ->
  KNXNetHeader.hpai d = Some h -> KNXNetHeader.devinfo d = Some dev ->
  HPAI.tunnelEndpoint h = IPv4Endpoint.show [a; b; c; d0] port ->
  let chosen :=
    match KnxDatagram.physServerAddr (_options m) with
    | Some w => String.eqb w "" || String.eqb (DIBdevinfo.physicalAddr dev) w
    | None => true
    end in
  let gw := KnxDatagram.mk_endpoint (Some (dotted [a; b; c; d0]))
              (Some (JS.dec port)) in
  exists m' e,
    handle "inbound_SEARCH_RESPONSE" (frame d) m = Ok (m', e)
    /\ if chosen
       then state m' = connecting /\ _remoteControlEndpoint m' = gw
            /\ _discoverSocket m' = false /\ _controlSocket m' = true
            /\ sent e = [(controlSocket, gw, connect_packet)]
       else m' = m /\ e = [].
Proof.
  intros S H D E chosen gw. subst chosen gw.
  unfold handle. rewrite S. cbn [named String.eqb Ascii.eqb Bool.eqb].
  unfold inbound_SEARCH_RESPONSE. rewrite H, D, E, split_endpoint.
  cbn [nth_error].
  match goal with
  | |- context [if ?x then _ else _] => destruct x
  end; [|do 2 eexists; split; [reflexivity | split; reflexivity]].
  unfold transition, transition_with.
  cbn [state upd_remoteControlEndpoint]. rewrite S. cbn [state_eqb].
  unfold onEnter. 
  assert (X : exists m1 e1,
             onExit (upd_remoteControlEndpoint
                       (KnxDatagram.mk_endpoint (Some (dotted [a; b; c; d0]))
                          (Some (JS.dec port))) m) = (m1, e1)
             /\ sent e1 = [] /\ _discoverSocket m1 = false
             /\ _remoteControlEndpoint m1
                = KnxDatagram.mk_endpoint (Some (dotted [a; b; c; d0]))
                    (Some (JS.dec port))).
  { unfold onExit. cbn [state upd_remoteControlEndpoint]. rewrite S.
    cbn [_discoverSocket upd_remoteControlEndpoint].
    destruct (_discoverSocket m) eqn:DS; do 2 eexists;
      (split; [reflexivity|]); cbn; repeat split; assumption. }
  destruct X as (m1 & e1 & X & X1 & X2 & X3). rewrite X.
  cbn [state upd_state]. unfold onEnter_leaf. cbn [state upd_state].
  unfold _startConnect, prepare_and_send.
  destruct (connect_datagram
              (upd_sockets (_discoverSocket (upd_state connecting m1)) true
                 (upd_state connecting m1))) as (dg & P & K).
  rewrite P. cbn [bind fst snd].
  do 2 eexists. split; [reflexivity|].
  rewrite !sent_app, X1. unfold send. rewrite K.
  cbn [state _remoteControlEndpoint _discoverSocket _controlSocket
       upd_made upd_sockets upd_state].
  rewrite X2, X3. cbn. repeat split.
Qed.

Lemma search_response_step_witness :
  exists m' e,
    handle "inbound_SEARCH_RESPONSE" (frame search_response)
      (upd_state searching (initialize no_options)) = Ok (m', e)
    /\ state m' = connecting
    /\ _remoteControlEndpoint m'
       = KnxDatagram.mk_endpoint (Some "192.168.1.10") (Some "3671")
    /\ _discoverSocket m' = false /\ _controlSocket m' = true
    /\ sent e = [(controlSocket,
                  KnxDatagram.mk_endpoint (Some "192.168.1.10") (Some "3671"),
                  connect_packet)].
Proof.
  exact (search_response_step (upd_state searching (initialize no_options))
           search_response (HPAI.mk (Some 8) 1 "192.168.1.10:3671")
           (DIBdevinfo.mk 54 1 [] "1.1.220" "000102030405" "gateway")
           (Buffer.of_Z 192) (Buffer.of_Z 168) (Buffer.of_Z 1) (Buffer.of_Z 10)
           3671 eq_refl eq_refl eq_refl eq_refl).
Defined.

(** ** Requests, the search and the end of a session *)

Lemma request_datagram (m : t) (g : string) (edit : APDU.t -> APDU.t)
    (len : Z) (ab : Buffer.t) :
  channel_ok m -> 0 <= _outboundSeqNum m <= 255 ->
  APDU.length (Some (edit default_apdu)) = Ok len -> 0 <= len <= 255 ->
  APDU.write (Some (edit default_apdu)) = Ok ab ->
  exists dg0 dg1 dg,
    _prepareKnxDatagram SERVICE_TYPE.TUNNELING_REQUEST m = Ok dg0
    /\ KnxDatagram._makeRequest SERVICE_TYPE.TUNNELING_REQUEST edit g dg0
       = Ok dg1
    /\ KnxDatagram.useTunneling dg0
       = KnxDatagram.or_default (KnxDatagram.use_tunneling (_options m)) true
    /\ KnxDatagram.getServiceType dg1 = Ok (Some "TUNNELING_REQUEST")
    /\ KnxDatagram.setSeqNum (_outboundSeqNum m) dg1 = Ok dg
    /\ flat_map (fun x => match x with
                          | socket_send s r p => [(s, r, p)]
                          | _ => []
                          end)
         [send controlSocket (_remoteControlEndpoint m) dg m]
       = request_on_wire m g len ab.
Proof.
  unfold channel_ok. intros C Q L B W.
  unfold _prepareKnxDatagram, KnxDatagram.fromServiceRequest,
    KnxDatagram.buildDatagram.
  set (ch := match _channelID m with
             | Some c => if c =? 0 then None else Some c
             | None => None
             end).
  assert (E : JS.to_number ch = JS.to_number (_channelID m)).
  { subst ch. destruct (_channelID m) as [c|]; [|reflexivity].
    destruct (Z.eqb_spec c 0); [subst; reflexivity | reflexivity]. }
  assert (R : 0 <= JS.to_number ch <= 255).
  { rewrite E. destruct (_channelID m); cbn; lia. }
  unfold request_on_wire. rewrite <- E. clearbody ch. clear E C.
  unfold default_apdu in L, W.
  eexists. eexists. eexists.
  split; [reflexivity|]. split; [reflexivity|]. split; [reflexivity|].
  split; [reflexivity|]. split; [reflexivity|].
  unfold send, KnxDatagram.packet, KNXNetHeader.write, KNXNetHeader.length,
    CEMI.length, source_address, request_control, request_packet, flag.
  cbn -[Buffer.writeUInt8 Buffer.writeUInt16BE KnxAddress.parse String.eqb
        APDU.length APDU.write Z.add].
  rewrite L.
  cbn -[Buffer.writeUInt8 Buffer.writeUInt16BE KnxAddress.parse String.eqb
        APDU.length APDU.write Z.add].
  set (text := match KnxDatagram.physAddr (_options m) with
               | Some a => if String.eqb a "" then "15.15.15" else a
               | None => "15.15.15"
               end).
  clearbody text.
  change (KnxAddress.parse g 1) with (KnxAddress.parse g KnxAddress.TYPE.GROUP).
  replace (6 + 4 + (8 + len)) with (18 + len) by lia.
  rewrite W, (writeUInt16BE_ok (18 + len)) by lia.
  set (total := 18 + len). clearbody total.
  destruct (KnxAddress.parse text KnxAddress.TYPE.PHYSICAL _) as [src|err];
    [destruct (KnxAddress.parse g KnxAddress.TYPE.GROUP _) as [dest|err]|];
    destruct (KnxDatagram.or_default
                (KnxDatagram.suppress_ack_ldatareq (_options m)) true);
    cbn -[Buffer.writeUInt8 Buffer.writeUInt16BE KnxAddress.parse
          Z.div Z.modulo];
    destruct ch as [c|];
    cbn -[Buffer.writeUInt8 KnxAddress.parse Z.div Z.modulo] in R |- *;
    rewrite !writeUInt8_ok by lia;
    cbn -[Z.div Z.modulo]; rewrite <- ?app_assoc; reflexivity.
Qed.

Lemma enter_request (m : t) (dg1 dg : KnxDatagram.t) :
  state m = online ->
  KnxDatagram.setSeqNum (_outboundSeqNum m) dg1 = Ok dg ->
  exists m',
    handle "outbound_TUNNELING_REQUEST" (request dg1) (upd_made m)
    = Ok (m', [setTimeout ackTimer "inbound_TUNNELING_ACK" null 1000;
               send controlSocket (_remoteControlEndpoint m) dg m])
    /\ state m' = outbound_TUNNELING_REQUEST
    /\ _outboundSeqNum m' = _outboundSeqNum m
    /\ _outboundFailures m' = 0.
Proof.
  intros S N. unfold handle. cbn [state upd_made]. rewrite S.
  cbn [named String.eqb Ascii.eqb Bool.eqb orb].
  unfold transition, transition_with. cbn [state upd_made]. rewrite S.
  cbn [state_eqb]. unfold onExit. cbn [state upd_made]. rewrite S.
  unfold onEnter. cbn [state upd_state upd_made].
  unfold onEnter_leaf. cbn [state upd_state upd_made _outboundSeqNum].
  rewrite N. cbn [bind]. unfold send_TUNNELING_REQUEST.
  cbn [_outboundDatagram upd_outbound bind fst snd Datatypes.app].
  eexists. split; [reflexivity|]. repeat split.
Qed.

(** A read on an online machine: the request takes the current outbound
    sequence number, the machine waits for its ACK for one second, and one
    TUNNELING_REQUEST of 21 bytes goes to the control endpoint.  When the
    writer refuses the group address or the source address, nothing goes out
    and the machine waits for the ACK all the same. *)
Theorem read_when_online (m : t) (g : string) :
  state m = online -> channel_ok m -> 0 <= _outboundSeqNum m <= 255 ->
  KnxDatagram.or_default (KnxDatagram.use_tunneling (_options m)) true = true ->
  exists m' e,
    read g m = Ok (m', e)
    /\ state m' = outbound_TUNNELING_REQUEST
    /\ _outboundSeqNum m' = _outboundSeqNum m
    /\ _outboundFailures m' = 0
    /\ emitted e = []
    /\ In (setTimeout ackTimer "inbound_TUNNELING_ACK" null 1000) e
    /\ sent e = request_on_wire m g 3 (buffer [0x01; 0x00; 0x00]).
Proof.
  intros S C Q T.
  destruct (request_datagram m g (KnxDatagram.set_apci "GroupValue_Read")
              3 (buffer [0x01; 0x00; 0x00]) C Q eq_refl ltac:(lia) eq_refl)
    as (dg0 & dg1 & dg & P & M & U & G & N & K).
  destruct (enter_request m dg1 dg S N) as (m' & H & H1 & H2 & H3).
  unfold read, KnxDatagram.makeReadRequest, KnxDatagram.requestType.
  rewrite P. cbn [bind]. rewrite U, T, M. cbn [bind]. rewrite G.
  cbn [bind JS.show' append]. unfold queueRequest. rewrite H.
  exists m'. eexists. split; [reflexivity|].
  split; [exact H1|]. split; [exact H2|]. split; [exact H3|].
  split; [|split; [left; reflexivity|exact K]].
  unfold send. destruct (KnxDatagram.packet _ dg); reflexivity.
Qed.

Lemma read_when_online_witness :
  exists m' e,
    read "1/2/3" (session 7) = Ok (m', e)
    /\ state m' = outbound_TUNNELING_REQUEST
    /\ _outboundSeqNum m' = 0
    /\ _outboundFailures m' = 0
    /\ emitted e = []
    /\ In (setTimeout ackTimer "inbound_TUNNELING_ACK" null 1000) e
    /\ sent e
       = [(controlSocket, gateway,
           buffer [0x06; 0x10; 0x04; 0x20; 0x00; 0x15; 0x04; 0x07; 0x00;
                   0x00; 0x11; 0x00; 0xBC; 0xE0; 0xFF; 0x0F; 0x0A; 0x03;
                   0x01; 0x00; 0x00])].
Proof.
  exact (read_when_online (session 7) "1/2/3" eq_refl
           ltac:(cbn; lia) ltac:(cbn; lia) eq_refl).
Defined.

(** A raw write on an online machine, for a value whose APDU the writer
    accepts: the same steps as a read, and the TUNNELING_REQUEST carries
    the APDU after the two addresses and announces 18 bytes more than the
    APDU is counted for. *)
Theorem writeRaw_when_online (m : t) (g : string) (value : Buffer.t)
    (bl : option Z) (len : Z) (ab : Buffer.t) :
  state m = online -> channel_ok m -> 0 <= _outboundSeqNum m <= 255 ->
  KnxDatagram.or_default (KnxDatagram.use_tunneling (_options m)) true = true ->
  APDU.length (Some (raw_apdu value bl)) = Ok len ->
  APDU.write (Some (raw_apdu value bl)) = Ok ab ->
  exists m' e,
    writeRaw g value bl m = Ok (m', e)
    /\ state m' = outbound_TUNNELING_REQUEST
    /\ _outboundSeqNum m' = _outboundSeqNum m
    /\ _outboundFailures m' = 0
    /\ emitted e = []
    /\ In (setTimeout ackTimer "inbound_TUNNELING_ACK" null 1000) e
    /\ sent e = request_on_wire m g len ab.
Proof.
  intros S C Q T L W.
  assert (B : 0 <= len <= 255).
  { revert W. unfold APDU.write. rewrite L. cbn [bind APDU.apci raw_apdu].
    change (JS.index_of "GroupValue_Write" APCICODES) with (Some 2%nat).
    cbv iota.
    destruct (Z.ltb_spec len 3); [discriminate|].
    destruct (Z.gtb_spec len 17); [discriminate|]. lia. }
  destruct (request_datagram m g
              (fun a =>
                 APDU.mk (APDU.apduLength a) (APDU.apduRaw a) (APDU.tpci a)
                   (APDU.apci a) (Buf value)
                   (Some (JS.or_num bl (Z.of_nat (List.length value) * 8))))
              len ab C Q L B W)
    as (dg0 & dg1 & dg & P & M & U & G & N & K).
  destruct (enter_request m dg1 dg S N) as (m' & H & H1 & H2 & H3).
  unfold writeRaw, KnxDatagram.makeWriteRawRequest, KnxDatagram.requestType.
  rewrite P. cbn [bind]. rewrite U, T, M. cbn [bind]. rewrite G.
  cbn [bind JS.show' append]. unfold queueRequest. rewrite H.
  exists m'. eexists. split; [reflexivity|].
  split; [exact H1|]. split; [exact H2|]. split; [exact H3|].
  split; [|split; [left; reflexivity|exact K]].
  unfold send. destruct (KnxDatagram.packet _ dg); reflexivity.
Qed.

Lemma writeRaw_when_online_witness :
  exists m' e,
    writeRaw "1/2/3" [x01] None (session 7) = Ok (m', e)
    /\ state m' = outbound_TUNNELING_REQUEST
    /\ _outboundSeqNum m' = 0
    /\ _outboundFailures m' = 0
    /\ emitted e = []
    /\ In (setTimeout ackTimer "inbound_TUNNELING_ACK" null 1000) e
    /\ sent e
       = [(controlSocket, gateway,
           buffer [0x06; 0x10; 0x04; 0x20; 0x00; 0x16; 0x04; 0x07; 0x00;
                   0x00; 0x11; 0x00; 0xBC; 0xE0; 0xFF; 0x0F; 0x0A; 0x03;
                   0x02; 0x00; 0x80; 0x01])].
Proof.
  exact (writeRaw_when_online (session 7) "1/2/3" [x01] None 4
           (buffer [0x02; 0x00; 0x80; 0x01]) eq_refl
           ltac:(cbn; lia) ltac:(cbn; lia) eq_refl eq_refl eq_refl).
Defined.

Lemma request_outside_online (m : t) (dg : KnxDatagram.t) :
  state m <> online -> state m <> uninitialized ->
  handle "outbound_TUNNELING_REQUEST" (request dg) (upd_made m)
  = Ok (upd_made m, postponed m dg).
Proof.
  intros N U. unfold handle, postponed, put_aside. cbn [state upd_made].
  destruct (state m); try contradiction; reflexivity.
Qed.

(** Requests wait for the machine to be online, or are lost.  A read or a
    raw write made while the machine is connected, waiting, or busy with
    another frame is put aside for a later state and nothing is sent; made
    while the machine is idle, searching, connecting or disconnecting it is
    dropped by the machine: nothing is sent and nothing is kept. *)
Theorem requests_outside_online (m : t) (g : string) (value : Buffer.t)
    (bl : option Z) :
  state m <> online -> state m <> uninitialized ->
  KnxDatagram.or_default (KnxDatagram.use_tunneling (_options m)) true = true ->
  (exists dg, read g m = Ok (upd_made m, postponed m dg))
  /\ (exists dg, writeRaw g value bl m = Ok (upd_made m, postponed m dg))
  /\ (before_session (state m) = true \/ state m = disconnecting ->
      forall dg, postponed m dg = []).
Proof.
  intros N U T.
  assert (P : exists dg0,
             _prepareKnxDatagram SERVICE_TYPE.TUNNELING_REQUEST m = Ok dg0
             /\ KnxDatagram.useTunneling dg0 = true
             /\ forall edit,
                  exists dg1,
                    KnxDatagram._makeRequest SERVICE_TYPE.TUNNELING_REQUEST
                      edit g dg0 = Ok dg1
                    /\ KnxDatagram.getServiceType dg1
                       = Ok (Some "TUNNELING_REQUEST")).
  { eexists. split; [reflexivity|]. split; [exact T|].
    intros edit. eexists. split; reflexivity. }
  destruct P as (dg0 & P & V & M).
  split; [|split].
  - destruct (M (KnxDatagram.set_apci "GroupValue_Read")) as (dg1 & M1 & G).
    exists dg1.
    unfold read, KnxDatagram.makeReadRequest, KnxDatagram.requestType.
    rewrite P. cbn [bind]. rewrite V, M1. cbn [bind]. rewrite G.
    cbn [bind JS.show' append]. apply request_outside_online; assumption.
  - destruct (M (fun a =>
                   APDU.mk (APDU.apduLength a) (APDU.apduRaw a) (APDU.tpci a)
                     (APDU.apci a) (Buf value)
                     (Some (JS.or_num bl
                              (Z.of_nat (List.length value) * 8)))))
      as (dg1 & M1 & G).
    exists dg1.
    unfold writeRaw, KnxDatagram.makeWriteRawRequest, KnxDatagram.requestType.
    rewrite P. cbn [bind]. rewrite V, M1. cbn [bind]. rewrite G.
    cbn [bind JS.show' append]. apply request_outside_online; assumption.
  - unfold postponed, put_aside.
    intros [B | B] dg; [|rewrite B; reflexivity].
    destruct (state m); try discriminate B; reflexivity.
Qed.

Lemma requests_outside_online_witness :
  (exists dg,
     read "1/2/3" (upd_state idle (initialize no_options))
     = Ok (upd_made (upd_state idle (initialize no_options)),
           postponed (upd_state idle (initialize no_options)) dg))
  /\ (exists dg,
        writeRaw "1/2/3" [x01] None (upd_state idle (initialize no_options))
        = Ok (upd_made (upd_state idle (initialize no_options)),
              postponed (upd_state idle (initialize no_options)) dg))
  /\ (before_session (state (upd_state idle (initialize no_options))) = true
      \/ state (upd_state idle (initialize no_options)) = disconnecting ->
      forall dg, postponed (upd_state idle (initialize no_options)) dg = []).
Proof.
  exact (requests_outside_online (upd_state idle (initialize no_options))
           "1/2/3" [x01] None ltac:(discriminate) ltac:(discriminate)
           eq_refl).
Defined.

(** Connecting from idle: the machine enters [searching] with a timeout of
    15 s, and unless the caller named a gateway it opens the discovery
    socket and sends a SEARCH_REQUEST to the multicast group
    224.0.23.12:3671.  With a gateway named in the options nothing is sent
    and no socket is opened. *)
Theorem connect_starts_search (m : t) :
  state m = idle ->
  exists m' e,
    connect m = Ok (m', e)
    /\ state m' = searching /\ emitted e = []
    /\ In (setTimeout state_timer "timeout" nothing 15000) e
    /\ if gateway_given (_options m)
       then m' = upd_state searching m /\ sent e = []
            /\ ~ In (socket_open discoverSocket) e
       else _discoverSocket m' = true
            /\ _remoteDiscoverEndpoint m' = multicast
            /\ In (socket_open discoverSocket) e
            /\ sent e = [(discoverSocket, multicast, search_packet)].
Proof.
  intros S. unfold connect, handle. rewrite S.
  cbn [named String.eqb Ascii.eqb Bool.eqb].
  unfold transition, transition_with. rewrite S. cbn [state_eqb].
  unfold onExit. rewrite S. unfold onEnter. cbn [state upd_state].
  unfold onEnter_leaf. cbn [state upd_state _options].
  unfold gateway_given.
  destruct (KnxDatagram.remoteEndpoint (_options m)) as [[|c s]|].
  2: { do 2 eexists. split; [reflexivity|]. cbn.
       repeat split; auto.
       intros [H | [H | []]]; discriminate H. }
  all: unfold _startSearch, prepare_and_send;
    do 2 eexists; (split; [reflexivity|]); cbn; repeat split; auto.
Qed.

Lemma connect_starts_search_witness :
  exists m' e,
    connect (upd_state idle (initialize no_options)) = Ok (m', e)
    /\ state m' = searching /\ emitted e = []
    /\ In (setTimeout state_timer "timeout" nothing 15000) e
    /\ _discoverSocket m' = true
    /\ _remoteDiscoverEndpoint m' = multicast
    /\ In (socket_open discoverSocket) e
    /\ sent e = [(discoverSocket, multicast, search_packet)].
Proof.
  exact (connect_starts_search (upd_state idle (initialize no_options))
           eq_refl).
Defined.

(** disconnect() is obeyed while connecting, waiting or online: the queue
    is purged, the heartbeat interval is cleared, a DISCONNECT_REQUEST for
    the channel goes to the control endpoint and the machine waits 10 s in
    [disconnecting].  While idle, searching or already disconnecting it is
    ignored, so a search goes on; in the remaining states it is put aside. *)
Theorem disconnect_by_state (m : t) :
  channel_ok m -> state m <> uninitialized ->
  exists m' e,
    disconnect m = Ok (m', e)
    /\ match disconnect_in (state m) with
       | leaves =>
           state m' = disconnecting /\ emitted e = []
           /\ sent e = [(controlSocket, _remoteControlEndpoint m,
                         disconnect_packet (JS.to_number (_channelID m)))]
           /\ In clearQueue e
           /\ In (setTimeout state_timer "timeout" nothing 10000) e
       | ignored => m' = m /\ e = []
       | put_off until =>
           m' = m /\ e = [deferUntilTransition "disconnect" nothing until]
       end.
Proof.
  intros C U. unfold disconnect, handle, disconnect_in.
  destruct (state m) eqn:S; try contradiction;
    cbn [named String.eqb Ascii.eqb Bool.eqb orb];
    try (do 2 eexists; split; [reflexivity | split; reflexivity]).
  all: destruct (leave_for_disconnecting m C ltac:(rewrite S; discriminate))
      as (m' & e & T & -> & T1 & T2 & T3 & T4);
    exists (upd_made (upd_state disconnecting (fst (onExit m)))), e;
    (split; [exact T|]); repeat split; assumption.
Qed.

Lemma disconnect_by_state_witness :
  exists m' e,
    disconnect (session 7) = Ok (m', e)
    /\ state m' = disconnecting /\ emitted e = []
    /\ sent e = [(controlSocket, gateway, disconnect_packet 7)]
    /\ In clearQueue e
    /\ In (setTimeout state_timer "timeout" nothing 10000) e.
Proof.
  exact (disconnect_by_state (session 7) ltac:(cbn; lia)
           ltac:(discriminate)).
Defined.

(** Leaving [disconnecting]: the DISCONNECT_RESPONSE or the timeout brings
    the machine to idle, where "offline" is emitted, the channel id is
    forgotten, the control socket is closed, and a timer is set that starts
    a new search after 2 s; nothing is sent. *)
Theorem disconnect_completes (m : t) (input : string) (a : arg) :
  state m = disconnecting ->
  input = "inbound_DISCONNECT_RESPONSE" \/ input = "timeout" ->
  exists m' e,
    handle input a m = Ok (m', e)
    /\ state m' = idle /\ _channelID m' = None /\ _controlSocket m' = false
    /\ emitted e = [("offline", [])] /\ sent e = []
    /\ In (setTimeout state_timer "startsearch" nothing 2000) e
    /\ (In (socket_close controlSocket) e <-> _controlSocket m = true).
Proof.
  intros S I. unfold handle. rewrite S.
  replace (named input "inbound_DISCONNECT_RESPONSE" || named input "timeout")
    with true by (destruct I as [-> | ->]; reflexivity).
  unfold transition, transition_with. rewrite S. cbn [state_eqb].
  unfold onExit. rewrite S. unfold onEnter. cbn [state upd_state].
  unfold onEnter_leaf. cbn [state upd_state bind fst snd].
  do 2 eexists. split; [reflexivity|].
  cbn [state _channelID _controlSocket _discoverSocket upd_state
       upd_channelID upd_sockets].
  destruct (_controlSocket m); cbn; repeat split; auto;
    intros H; try discriminate H;
    repeat (destruct H as [H | H]; try discriminate H); contradiction.
Qed.

Lemma disconnect_completes_witness :
  exists m' e,
    handle "timeout" nothing (upd_state disconnecting (session 7))
    = Ok (m', e)
    /\ state m' = idle /\ _channelID m' = None /\ _controlSocket m' = false
    /\ emitted e = [("offline", [])] /\ sent e = []
    /\ In (setTimeout state_timer "startsearch" nothing 2000) e
    /\ (In (socket_close controlSocket) e
        <-> _controlSocket (upd_state disconnecting (session 7)) = true).
Proof.
  exact (disconnect_completes (upd_state disconnecting (session 7))
           "timeout" nothing eq_refl (or_intror eq_refl)).
Defined.

End KnxSessionFacts.
